(** * XCSoar airspace file parser (src/Airspace/AirspaceParser.cpp)

    A shallow embedding of the OpenAir / TNP airspace parser and the
    properties of it that the specification states.

    Conventions of the embedding.

    - A [const TCHAR *] is the list of the characters stored from the pointer
      up to, and excluding, the final NUL of the buffer it points into.  The
      empty list is a pointer to that final NUL.  Reading through a pointer
      that was moved beyond the final NUL has no defined result; the embedding
      reports it as [OutOfString].  Signed arithmetic that leaves the range
      of [long] is reported as [Overflow], a loop that does not end within
      the given number of rounds as [OutOfFuel].
    - [fixed] and [double] values are exact rationals kept in lowest terms;
      rounding of the machine formats is not modelled.
    - Angles are held in degrees.
    - Code of XCSoar that the parser calls and that is not part of this file
      (unit conversion, geodesy) is a parameter of the development. *)

From Stdlib Require Import ZArith QArith Qround Qabs Ascii String List Bool Lia Lqa.
Import ListNotations.

Open Scope Z_scope.

(** ** Results of code that may leave the string or loop *)

Inductive outcome (A : Type) : Type :=
| Ret (a : A)
| OutOfString
| Overflow
| OutOfFuel.

Arguments Ret {A} a.
Arguments OutOfString {A}.
Arguments Overflow {A}.
Arguments OutOfFuel {A}.

Definition bind {A B : Type} (m : outcome A) (k : A -> outcome B) : outcome B :=
  match m with
  | Ret a => k a
  | OutOfString => OutOfString
  | Overflow => Overflow
  | OutOfFuel => OutOfFuel
  end.

Notation "'do' x <- m ; k" := (bind m (fun x => k))
  (at level 10, x pattern, m at level 100, k at level 200).

(** ** Characters and C strings *)

Definition cs (s : string) : list ascii := list_ascii_of_string s.

Definition NUL : ascii := Ascii.zero.

(** [*p] *)
Definition deref (p : list ascii) : ascii :=
  match p with
  | [] => NUL
  | c :: _ => c
  end.

Definition is_nul (c : ascii) : bool := Ascii.eqb c NUL.

(** [p == q] for two pointers into the same buffer *)
Definition ptr_eqb (p q : list ascii) : bool := Nat.eqb (length p) (length q).

(** The C string a pointer designates: the characters before the first NUL. *)
Fixpoint c_str (p : list ascii) : list ascii :=
  match p with
  | [] => []
  | c :: r => if is_nul c then [] else c :: c_str r
  end.

Definition string_is_empty (p : list ascii) : bool := is_nul (deref p).

Definition is_digit (c : ascii) : bool :=
  let n := nat_of_ascii c in (Nat.leb 48 n && Nat.leb n 57)%bool.

Definition digit_val (c : ascii) : Z := Z.of_nat (nat_of_ascii c) - 48.

(** [isspace] in the C locale *)
Definition is_space (c : ascii) : bool :=
  let n := nat_of_ascii c in
  (Nat.eqb n 32 || (Nat.leb 9 n && Nat.leb n 13))%bool.

(** [tolower] in the C locale *)
Definition to_lower (c : ascii) : ascii :=
  let n := nat_of_ascii c in
  if (Nat.leb 65 n && Nat.leb n 90)%bool then ascii_of_nat (n + 32) else c.

Definition eqb_ci (c d : ascii) : bool := Ascii.eqb (to_lower c) (to_lower d).

(** Modelled from the spec: [string_after_prefix(string, prefix)] of
    Util/StringUtil.hpp (not part of these sources), the prefix match of the
    keywords: the rest of the string when it starts with the prefix, NULL
    otherwise.  [string_after_prefix_ci] is the same without regard to
    case. *)
Fixpoint string_after_prefix (p prefix : list ascii) : option (list ascii) :=
  match prefix with
  | [] => Some p
  | c :: prefix' =>
      match p with
      | d :: p' => if Ascii.eqb d c then string_after_prefix p' prefix' else None
      | [] => None
      end
  end.

Fixpoint string_after_prefix_ci (p prefix : list ascii) : option (list ascii) :=
  match prefix with
  | [] => Some p
  | c :: prefix' =>
      match p with
      | d :: p' => if eqb_ci d c then string_after_prefix_ci p' prefix' else None
      | [] => None
      end
  end.

(** [_tcsnicmp(p, pat, strlen(pat)) == 0] for a NUL-free pattern *)
Definition tcsnicmp0 (p pat : list ascii) : bool :=
  match string_after_prefix_ci p pat with
  | Some _ => true
  | None => false
  end.

(** [_tcsicmp(p, pat) == 0] for a NUL-free pattern *)
Definition tcsicmp0 (p pat : list ascii) : bool :=
  match string_after_prefix_ci p pat with
  | Some r => is_nul (deref r)
  | None => false
  end.

(** [_tcschr(p, c)] for [c] other than NUL: the pointer to the first [c]
    of the C string. *)
Fixpoint tcschr (p : list ascii) (c : ascii) : option (list ascii) :=
  match p with
  | [] => None
  | d :: r =>
      if is_nul d then None
      else if Ascii.eqb d c then Some p
      else tcschr r c
  end.

Fixpoint skip_spaces (p : list ascii) : list ascii :=
  match p with
  | c :: r => if Ascii.eqb c " " then skip_spaces r else p
  | [] => p
  end.

Fixpoint skip_ws (p : list ascii) : list ascii :=
  match p with
  | c :: r => if is_space c then skip_ws r else p
  | [] => p
  end.

(** ** Numbers *)

Definition fixed : Type := Q.
Bind Scope Q_scope with fixed.

Definition fixed_zero : fixed := 0%Q.
Definition fixed_minus_one : fixed := (-1)%Q.

Definition fadd (x y : fixed) : fixed := Qred (x + y).
Definition fsub (x y : fixed) : fixed := Qred (x - y).
Definition fmul (x y : fixed) : fixed := Qred (x * y).
Definition fdiv (x y : fixed) : fixed := Qred (x / y).
Definition fneg (x : fixed) : fixed := Qred (- x).
Definition fabs (x : fixed) : fixed := Qred (Qabs x).
Definition fgt (x y : fixed) : bool := negb (Qle_bool x y).
Definition of_Z (z : Z) : fixed := inject_Z z.

(** A run of decimal digits: the number read so far, how many digits were
    read, and the rest. *)
Fixpoint scan_digits (acc : Z) (n : nat) (p : list ascii) : Z * nat * list ascii :=
  match p with
  | c :: r =>
      if is_digit c then scan_digits (10 * acc + digit_val c) (S n) r
      else (acc, n, p)
  | [] => (acc, n, p)
  end.

Definition scan_sign (p : list ascii) : bool * list ascii :=
  match p with
  | c :: r =>
      if Ascii.eqb c "-" then (true, r)
      else if Ascii.eqb c "+" then (false, r)
      else (false, p)
  | [] => (false, p)
  end.

Definition pow10 (k : Z) : fixed :=
  if 0 <=? k then inject_Z (10 ^ k) else Qred (1 # Z.to_pos (10 ^ (- k))).

(** The exponent part of a decimal floating constant; it is consumed only
    when at least one digit follows the [e] and the optional sign. *)
Definition scan_exponent (p : list ascii) : Z * list ascii :=
  match p with
  | c :: r =>
      if eqb_ci c "e" then
        let '(neg, r1) := scan_sign r in
        let '(e, n, r2) := scan_digits 0 0 r1 in
        if Nat.eqb n 0 then (0, p) else ((if neg then - e else e), r2)
      else (0, p)
  | [] => (0, p)
  end.

(** [_tcstod(p, &endptr)] for the decimal forms of the C locale: optional
    white space, optional sign, digits with an optional radix point, optional
    exponent.  When no conversion is done the value is zero and [endptr] is
    [p].  (Hexadecimal, infinity and NaN forms are not modelled.) *)
Definition tcstod (p : list ascii) : fixed * list ascii :=
  let '(neg, p2) := scan_sign (skip_ws p) in
  let '(ip, ni, p3) := scan_digits 0 0 p2 in
  let '(m, nf, p4) :=
    match p3 with
    | c :: r => if Ascii.eqb c "." then scan_digits ip 0 r else (ip, 0%nat, p3)
    | [] => (ip, 0%nat, p3)
    end in
  if Nat.eqb (ni + nf) 0 then (fixed_zero, p)
  else
    let '(e, p5) := scan_exponent p4 in
    let v := fmul (inject_Z m) (pow10 (e - Z.of_nat nf)) in
    ((if neg then fneg v else v), p5).

(** [long] is taken as 32 bits wide (Windows and the 32 bit targets);
    [strtol] saturates at its bounds. *)
Definition LONG_MAX : Z := 2 ^ 31 - 1.
Definition LONG_MIN : Z := - 2 ^ 31.

Definition clamp_long (z : Z) : Z := Z.max LONG_MIN (Z.min LONG_MAX z).

(** [_tcstol(p, &endptr, 10)] *)
Definition tcstol (p : list ascii) : Z * list ascii :=
  let '(neg, p2) := scan_sign (skip_ws p) in
  let '(v, n, p3) := scan_digits 0 0 p2 in
  if Nat.eqb n 0 then (0, p)
  else (clamp_long (if neg then - v else v), p3).

(** [labs] *)
Definition labs (z : Z) : Z := Z.abs z.

(** ** Angles and points

    Math/Angle.hpp and Navigation/GeoPoint.hpp are not part of these
    sources; the members the parser uses are modelled here.  An [Angle] is
    its value in degrees. *)

Definition Angle : Type := fixed.

Definition Angle_zero : Angle := fixed_zero.
Definition Angle_degrees (x : fixed) : Angle := x.
Definition flip (a : Angle) : Angle := fneg a.

(** Modelled from the spec: [Angle::dms(d, m, s)], degrees, minutes and
    seconds to degrees, D + M/60 + S/3600 *)
Definition Angle_dms (d m s : fixed) : Angle :=
  Angle_degrees (fadd (fadd d (fdiv m 60%Q)) (fdiv s 3600%Q)).

(** Modelled from the spec: [Angle::as_bearing], the angle as a bearing,
    limited to [0, 360) by whole turns *)
Definition as_bearing (a : Angle) : Angle :=
  fsub a (fmul 360%Q (inject_Z (Qfloor (a / 360)%Q))).

(** Modelled from the spec: [Angle::magnitude_degrees], the magnitude of
    an angular difference, its absolute value in degrees *)
Definition magnitude_degrees (a : Angle) : fixed := fabs a.

Record GeoPoint : Type := mkGeoPoint {
  Latitude : Angle;
  Longitude : Angle
}.

(** Modelled from the spec: [GeoPoint::normalize] (Navigation/GeoPoint.hpp is
    not part of these sources) brings the longitude into [-180, 180) by
    whole turns and leaves the latitude alone. *)
Definition normalize (p : GeoPoint) : GeoPoint :=
  let lon := Longitude p in
  mkGeoPoint (Latitude p)
             (fsub lon (fmul 360%Q (inject_Z (Qfloor ((lon + 180) / 360)%Q)))).

Record GeoVector : Type := mkGeoVector {
  Distance : fixed;
  vBearing : Angle
}.

(** ** Collaborators that are not part of these sources *)

(** The units the parser names (Units/Units.hpp) *)
Inductive Units_t : Type := unFeet | unNauticalMiles | unFlightLevel.

(** The unit conversion service *)
Class UnitsService : Type := {
  ToSysUnit : fixed -> Units_t -> fixed;
  ToUserUnit : fixed -> Units_t -> fixed
}.

(** The geodesy of Math/Earth.hpp and GeoPoint *)
Class Geodesy : Type := {
  FindLatitudeLongitude : GeoPoint -> Angle -> fixed -> GeoPoint;
  distance_bearing : GeoPoint -> GeoPoint -> GeoVector;
  Bearing : GeoPoint -> GeoPoint -> Angle
}.

(** ** Airspace data *)

Inductive AirspaceClass : Type :=
| OTHER | RESTRICT | PROHIBITED | DANGER
| CLASSA | CLASSB | CLASSC | CLASSD
| NOGLIDER | CTR | WAVE | AATASK
| CLASSE | CLASSF | TMZ | CLASSG.

Definition AirspaceClass_eqb (a b : AirspaceClass) : bool :=
  match a, b with
  | OTHER, OTHER | RESTRICT, RESTRICT | PROHIBITED, PROHIBITED
  | DANGER, DANGER | CLASSA, CLASSA | CLASSB, CLASSB | CLASSC, CLASSC
  | CLASSD, CLASSD | NOGLIDER, NOGLIDER | CTR, CTR | WAVE, WAVE
  | AATASK, AATASK | CLASSE, CLASSE | CLASSF, CLASSF | TMZ, TMZ
  | CLASSG, CLASSG => true
  | _, _ => false
  end.

(** [AirspaceAltitude::type] *)
Inductive AltType : Type := UNDEFINED | MSL | AGL | FL.

Definition AltType_eqb (a b : AltType) : bool :=
  match a, b with
  | UNDEFINED, UNDEFINED | MSL, MSL | AGL, AGL | FL, FL => true
  | _, _ => false
  end.

Record AirspaceAltitude : Type := mkAlt {
  altitude : fixed;
  flight_level : fixed;
  altitude_above_terrain : fixed;
  type : AltType
}.

(** The value [ReadAltitude] starts from, which is also what the default
    constructor of [AirspaceAltitude] gives. *)
Definition AirspaceAltitude_init : AirspaceAltitude :=
  mkAlt fixed_zero fixed_zero fixed_zero UNDEFINED.

(** Modelled from the spec: [AirspaceActivity] (not part of these sources),
    a set over the days of the week; each setter overwrites the whole set. *)
Record AirspaceActivity : Type := mkDays {
  weekdays : bool;
  weekend : bool
}.

Definition set_all : AirspaceActivity := mkDays true true.
Definition set_weekend : AirspaceActivity := mkDays false true.
Definition set_weekdays : AirspaceActivity := mkDays true false.

Section Parser.

Context {U : UnitsService} {G : Geodesy}.

(** ** ReadAltitude *)

(** One round of the scan, after the leading spaces were skipped: the
    altitude and the unit flag after the token, and the pointer behind it. *)
Definition scan_token (a : AirspaceAltitude) (u : bool) (p : list ascii)
  : AirspaceAltitude * bool * list ascii :=
  if is_digit (deref p) then
    let '(d, endptr) := tcstod p in
    let a' :=
      match type a with
      | FL => mkAlt (altitude a) d (altitude_above_terrain a) (type a)
      | AGL => mkAlt (altitude a) (flight_level a) d (type a)
      | _ => mkAlt d (flight_level a) (altitude_above_terrain a) (type a)
      end in
    (a', u, endptr)
  else if tcsnicmp0 p (cs "GND") then
    if fgt (altitude a) fixed_zero then
      (mkAlt fixed_zero (flight_level a) (altitude a) AGL, u, skipn 3 p)
    else
      (mkAlt fixed_zero fixed_zero fixed_minus_one AGL, true, skipn 3 p)
  else if tcsnicmp0 p (cs "SFC") then
    (mkAlt fixed_zero fixed_zero fixed_minus_one AGL, true, skipn 3 p)
  else if tcsnicmp0 p (cs "FL") then
    (mkAlt (altitude a) (flight_level a) (altitude_above_terrain a) FL,
     true, skipn 2 p)
  else if (Ascii.eqb (deref p) "F" || Ascii.eqb (deref p) "f")%bool then
    let a' := mkAlt (ToSysUnit (altitude a) unFeet) (flight_level a)
                    (altitude_above_terrain a) (type a) in
    let p1 := tl p in
    let p2 :=
      if (Ascii.eqb (deref p1) "T" || Ascii.eqb (deref p1) "t")%bool
      then tl p1 else p1 in
    (a', true, p2)
  else if tcsnicmp0 p (cs "MSL") then
    (mkAlt (altitude a) (flight_level a) (altitude_above_terrain a) MSL,
     u, skipn 3 p)
  else if (Ascii.eqb (deref p) "M" || Ascii.eqb (deref p) "m")%bool then
    (a, true, tl p)
  else if tcsnicmp0 p (cs "AGL") then
    (mkAlt fixed_zero (flight_level a) (altitude a) AGL, u, skipn 3 p)
  else if tcsnicmp0 p (cs "STD") then
    (mkAlt (altitude a) (ToUserUnit (altitude a) unFlightLevel)
           (altitude_above_terrain a) FL, u, skipn 3 p)
  else if tcsnicmp0 p (cs "UNL") then
    (mkAlt 50000%Q (flight_level a) fixed_minus_one MSL, u, skipn 3 p)
  else (a, u, p).

Inductive scan_result : Type :=
| ScanDone (a : AirspaceAltitude) (u : bool)
    (** the loop condition found the NUL *)
| ScanOverrun (a : AirspaceAltitude) (u : bool)
    (** the loop condition read beyond the final NUL *)
| ScanFuel.

(** The [for] loop: the condition [*p != 0], the body, then [++p]. *)
Fixpoint scan_loop (fuel : nat) (a : AirspaceAltitude) (u : bool)
    (p : list ascii) : scan_result :=
  match fuel with
  | O => ScanFuel
  | S fuel' =>
      if is_nul (deref p) then ScanDone a u
      else
        let '(a', u', q) := scan_token a u (skip_spaces p) in
        match q with
        | [] => ScanOverrun a' u'
        | _ :: q' => scan_loop fuel' a' u' q'
        end
  end.

(** What follows the loop *)
Definition ReadAltitude_finish (a : AirspaceAltitude) (u : bool)
  : AirspaceAltitude :=
  let a1 :=
    if (negb u && negb (AltType_eqb (type a) FL))%bool then
      mkAlt (ToSysUnit (altitude a) unFeet) (flight_level a)
            (ToSysUnit (altitude_above_terrain a) unFeet) (type a)
    else a in
  if AltType_eqb (type a1) UNDEFINED then
    mkAlt (altitude a1) (flight_level a1) (altitude_above_terrain a1) MSL
  else a1.

Definition ReadAltitude_scan (Text : list ascii) : scan_result :=
  scan_loop (S (length Text)) AirspaceAltitude_init false Text.

Definition ReadAltitude (Text : list ascii) : outcome AirspaceAltitude :=
  match ReadAltitude_scan Text with
  | ScanDone a u => Ret (ReadAltitude_finish a u)
  | ScanOverrun _ _ => OutOfString
  | ScanFuel => OutOfFuel
  end.

(** ** ReadCoords *)

(** The minutes and seconds that may follow the degrees of one axis;
    [None] where the source returns false. *)
Definition read_min_sec (deg : fixed) (Stop : list ascii)
  : option (fixed * list ascii) :=
  if Ascii.eqb (deref Stop) ":" then
    let '(min, Stop1) := tcstod (tl Stop) in
    if is_nul (deref Stop1) then None
    else
      let deg1 := fadd deg (fdiv min 60%Q) in
      if Ascii.eqb (deref Stop1) ":" then
        let '(sec, Stop2) := tcstod (tl Stop1) in
        if is_nul (deref Stop2) then None
        else Some (fadd deg1 (fdiv sec 3600%Q), Stop2)
      else Some (deg1, Stop1)
  else Some (deg, Stop).

(** Step over one space, if [Stop] is at one. *)
Definition skip_one_space (p : list ascii) : list ascii :=
  if Ascii.eqb (deref p) " " then tl p else p.

(** The result and the point as the call leaves it. *)
Definition ReadCoords (Text : list ascii) (point : GeoPoint) : bool * GeoPoint :=
  let '(deg, Stop) := tcstod Text in
  if (ptr_eqb Text Stop || is_nul (deref Stop))%bool then (false, point)
  else
    match read_min_sec deg Stop with
    | None => (false, point)
    | Some (deg, Stop) =>
        let point := mkGeoPoint (Angle_degrees deg) (Longitude point) in
        let Stop := skip_one_space Stop in
        if is_nul (deref Stop) then (false, point)
        else
          let point :=
            if (Ascii.eqb (deref Stop) "S" || Ascii.eqb (deref Stop) "s")%bool
            then mkGeoPoint (flip (Latitude point)) (Longitude point)
            else point in
          let Stop := tl Stop in
          if is_nul (deref Stop) then (false, point)
          else
            let '(deg, Stop) := tcstod Stop in
            if (ptr_eqb Text Stop || is_nul (deref Stop))%bool
            then (false, point)
            else
              match read_min_sec deg Stop with
              | None => (false, point)
              | Some (deg, Stop) =>
                  let point := mkGeoPoint (Latitude point) (Angle_degrees deg) in
                  let Stop := skip_one_space Stop in
                  if is_nul (deref Stop) then (false, point)
                  else
                    let point :=
                      if (Ascii.eqb (deref Stop) "W"
                          || Ascii.eqb (deref Stop) "w")%bool
                      then mkGeoPoint (Latitude point) (flip (Longitude point))
                      else point in
                    (true, normalize point)
              end
    end.

(** ** ParseCoordsTNP *)

Definition in_long (z : Z) : bool := ((LONG_MIN <=? z) && (z <=? LONG_MAX))%bool.

(** The split of one packed axis value into degrees, minutes and seconds,
    in [long] arithmetic. *)
Definition split_dms (sec : Z) : outcome (Z * Z * Z) :=
  let deg := labs (Z.quot sec 10000) in
  if negb (in_long (sec - deg * 10000)) then Overflow
  else
    let min := labs (Z.quot (sec - deg * 10000) 100) in
    if negb (in_long (sec - min * 100) && in_long (sec - min * 100 - deg * 10000))
    then Overflow
    else Ret (deg, min, sec - min * 100 - deg * 10000).

Definition ParseCoordsTNP (Text : list ascii) : outcome (bool * GeoPoint) :=
  match Text with
  | [] => OutOfString
  | h1 :: Text1 =>
      let negative := (Ascii.eqb h1 "S" || Ascii.eqb h1 "s")%bool in
      let '(sec, ptr) := tcstol Text1 in
      do (deg, min, sec) <- split_dms sec;
      let lat := Angle_dms (of_Z deg) (of_Z min) (of_Z sec) in
      let lat := if negative then flip lat else lat in
      let ptr := skip_one_space ptr in
      match ptr with
      | [] => OutOfString
      | h2 :: ptr1 =>
          let negative := (Ascii.eqb h2 "W" || Ascii.eqb h2 "w")%bool in
          let '(sec, _) := tcstol ptr1 in
          do (deg, min, sec) <- split_dms sec;
          let lon := Angle_dms (of_Z deg) (of_Z min) (of_Z sec) in
          let lon := if negative then flip lon else lon in
          Ret (true, normalize (mkGeoPoint lat lon))
      end
  end.

(** ** The pending record and the output sink *)

Record TempAirspaceType : Type := mkTemp {
  Waiting : bool;
  Name : list ascii;
  Radio : list ascii;
  Type_ : AirspaceClass;
  Base : AirspaceAltitude;
  Top : AirspaceAltitude;
  days_of_operation : AirspaceActivity;
  points : list GeoPoint;
  Center : GeoPoint;
  Radius : fixed;
  Rotation : Z
}.

Definition reset (t : TempAirspaceType) : TempAirspaceType :=
  mkTemp true (Name t) [] OTHER (Base t) (Top t) set_all []
         (mkGeoPoint Angle_zero Angle_zero) fixed_zero 1.

(** The constructor: every member default-constructed, then [reset]. *)
Definition TempAirspaceType_new : TempAirspaceType :=
  reset (mkTemp true [] [] OTHER AirspaceAltitude_init AirspaceAltitude_init
                set_all [] (mkGeoPoint Angle_zero Angle_zero) fixed_zero 1).

Inductive Shape : Type :=
| Polygon (pts : list GeoPoint)
| Circle (center : GeoPoint) (radius : fixed).

(** What is handed to [Airspaces::insert]: the arguments of the constructor
    and of [SetProperties], [SetRadio] and [SetDays]. *)
Record Airspace : Type := mkAirspace {
  as_shape : Shape;
  as_name : list ascii;
  as_type : AirspaceClass;
  as_base : AirspaceAltitude;
  as_top : AirspaceAltitude;
  as_radio : list ascii;
  as_days : AirspaceActivity
}.

Definition Airspaces : Type := list Airspace.

Definition insert (db : Airspaces) (a : Airspace) : Airspaces := db ++ [a].

Definition AddPolygon (t : TempAirspaceType) (db : Airspaces) : Airspaces :=
  insert db (mkAirspace (Polygon (points t)) (Name t) (Type_ t) (Base t) (Top t)
                        (Radio t) (days_of_operation t)).

Definition AddCircle (t : TempAirspaceType) (db : Airspaces) : Airspaces :=
  insert db (mkAirspace (Circle (Center t) (Radius t)) (Name t) (Type_ t)
                        (Base t) (Top t) (Radio t) (days_of_operation t)).

Definition set_points (t : TempAirspaceType) (pts : list GeoPoint) : TempAirspaceType :=
  mkTemp (Waiting t) (Name t) (Radio t) (Type_ t) (Base t) (Top t)
         (days_of_operation t) pts (Center t) (Radius t) (Rotation t).

Definition set_Center (t : TempAirspaceType) (c : GeoPoint) : TempAirspaceType :=
  mkTemp (Waiting t) (Name t) (Radio t) (Type_ t) (Base t) (Top t)
         (days_of_operation t) (points t) c (Radius t) (Rotation t).

Definition set_Radius (t : TempAirspaceType) (r : fixed) : TempAirspaceType :=
  mkTemp (Waiting t) (Name t) (Radio t) (Type_ t) (Base t) (Top t)
         (days_of_operation t) (points t) (Center t) r (Rotation t).

Definition set_Rotation (t : TempAirspaceType) (r : Z) : TempAirspaceType :=
  mkTemp (Waiting t) (Name t) (Radio t) (Type_ t) (Base t) (Top t)
         (days_of_operation t) (points t) (Center t) (Radius t) r.

Definition set_Name (t : TempAirspaceType) (n : list ascii) : TempAirspaceType :=
  mkTemp (Waiting t) n (Radio t) (Type_ t) (Base t) (Top t)
         (days_of_operation t) (points t) (Center t) (Radius t) (Rotation t).

Definition set_Radio (t : TempAirspaceType) (r : list ascii) : TempAirspaceType :=
  mkTemp (Waiting t) (Name t) r (Type_ t) (Base t) (Top t)
         (days_of_operation t) (points t) (Center t) (Radius t) (Rotation t).

Definition set_Base (t : TempAirspaceType) (a : AirspaceAltitude) : TempAirspaceType :=
  mkTemp (Waiting t) (Name t) (Radio t) (Type_ t) a (Top t)
         (days_of_operation t) (points t) (Center t) (Radius t) (Rotation t).

Definition set_Top (t : TempAirspaceType) (a : AirspaceAltitude) : TempAirspaceType :=
  mkTemp (Waiting t) (Name t) (Radio t) (Type_ t) (Base t) a
         (days_of_operation t) (points t) (Center t) (Radius t) (Rotation t).

Definition set_days (t : TempAirspaceType) (d : AirspaceActivity) : TempAirspaceType :=
  mkTemp (Waiting t) (Name t) (Radio t) (Type_ t) (Base t) (Top t)
         d (points t) (Center t) (Radius t) (Rotation t).

(** [Type = c; Waiting = false], as the [AC] and [TYPE=] lines end *)
Definition start_record (t : TempAirspaceType) (c : AirspaceClass) : TempAirspaceType :=
  mkTemp false (Name t) (Radio t) c (Base t) (Top t)
         (days_of_operation t) (points t) (Center t) (Radius t) (Rotation t).

Definition set_Type (t : TempAirspaceType) (c : AirspaceClass) : TempAirspaceType :=
  mkTemp (Waiting t) (Name t) (Radio t) c (Base t) (Top t)
         (days_of_operation t) (points t) (Center t) (Radius t) (Rotation t).

Definition push_back (t : TempAirspaceType) (p : GeoPoint) : TempAirspaceType :=
  set_points t (points t ++ [p]).

(** ** The arc and sector tessellator *)

Definition fixed_7_5 : fixed := 7.5%Q.

(** 5 or -5 degrees, depending on the direction *)
Definition BearingStep (t : TempAirspaceType) : Angle :=
  Angle_degrees (fmul (inject_Z (Rotation t)) 5%Q).

(** [(EndBearing - StartBearing).magnitude_degrees() > fixed_7_5] *)
Definition arc_continues (EndBearing StartBearing : Angle) : bool :=
  fgt (magnitude_degrees (fsub EndBearing StartBearing)) fixed_7_5.

(** The loop of [CalculateSector]: project, then advance. *)
Fixpoint sector_loop (fuel : nat) (Center : GeoPoint) (Radius : fixed)
    (Step EndBearing StartBearing : Angle) (pts : list GeoPoint)
  : outcome (list GeoPoint) :=
  match fuel with
  | O => OutOfFuel
  | S fuel' =>
      if arc_continues EndBearing StartBearing then
        sector_loop fuel' Center Radius Step EndBearing
          (as_bearing (fadd StartBearing Step))
          (pts ++ [FindLatitudeLongitude Center StartBearing Radius])
      else Ret pts
  end.

Definition CalculateSector (fuel : nat) (Text : list ascii)
    (temp_area : TempAirspaceType) : outcome TempAirspaceType :=
  let '(r, Stop) := tcstod (skipn 2 Text) in
  let Radius := ToSysUnit r unNauticalMiles in
  match Stop with
  | [] => OutOfString
  | _ :: Stop1 =>
      let '(sb, Stop) := tcstod Stop1 in
      let StartBearing := as_bearing (Angle_degrees sb) in
      match Stop with
      | [] => OutOfString
      | _ :: Stop1 =>
          let '(eb, _) := tcstod Stop1 in
          let EndBearing := as_bearing (Angle_degrees eb) in
          do pts <- sector_loop fuel (Center temp_area) Radius
                      (BearingStep temp_area) EndBearing StartBearing
                      (points temp_area);
          Ret (set_points temp_area
                 (pts ++ [FindLatitudeLongitude (Center temp_area) EndBearing Radius]))
      end
  end.

(** The loop of [AddArc]: advance, then project. *)
Fixpoint arc_loop (fuel : nat) (Center : GeoPoint) (Radius : fixed)
    (Step EndBearing StartBearing : Angle) (pts : list GeoPoint)
  : outcome (list GeoPoint) :=
  match fuel with
  | O => OutOfFuel
  | S fuel' =>
      if arc_continues EndBearing StartBearing then
        let StartBearing' := as_bearing (fadd StartBearing Step) in
        arc_loop fuel' Center Radius Step EndBearing StartBearing'
          (pts ++ [FindLatitudeLongitude Center StartBearing' Radius])
      else Ret pts
  end.

Definition AddArc (fuel : nat) (Start End_ : GeoPoint)
    (temp_area : TempAirspaceType) : outcome TempAirspaceType :=
  let v := distance_bearing (Center temp_area) Start in
  let StartBearing := vBearing v in
  let Radius := Distance v in
  let EndBearing := Bearing (Center temp_area) End_ in
  do pts <- arc_loop fuel (Center temp_area) Radius (BearingStep temp_area)
              EndBearing StartBearing (points temp_area ++ [Start]);
  Ret (set_points temp_area (pts ++ [End_])).

(** A point that was declared and not yet assigned; [ReadCoords] either
    assigns both members or fails. *)
Definition GeoPoint_blank : GeoPoint := mkGeoPoint Angle_zero Angle_zero.

Definition CalculateArc (fuel : nat) (Text : list ascii)
    (temp_area : TempAirspaceType) : outcome TempAirspaceType :=
  match skipn 2 Text with
  | [] => OutOfString
  | _ :: Text3 =>
      let '(ok, Start) := ReadCoords Text3 GeoPoint_blank in
      if negb ok then Ret temp_area
      else
        match tcschr Text "," with
        | None => Ret temp_area
        | Some Comma =>
            let '(ok, End_) := ReadCoords (tl Comma) GeoPoint_blank in
            if negb ok then Ret temp_area
            else AddArc fuel Start End_ temp_area
        end
  end.

(** ** The OpenAir line parser *)

Definition airspace_class_strings : list (list ascii * AirspaceClass) :=
  [ (cs "R", RESTRICT); (cs "Q", DANGER); (cs "P", PROHIBITED);
    (cs "CTR", CTR); (cs "A", CLASSA); (cs "B", CLASSB); (cs "C", CLASSC);
    (cs "D", CLASSD); (cs "GP", NOGLIDER); (cs "W", WAVE); (cs "E", CLASSE);
    (cs "F", CLASSF); (cs "TMZ", TMZ); (cs "G", CLASSG) ].

Fixpoint ParseType_from (table : list (list ascii * AirspaceClass))
    (text : list ascii) : AirspaceClass :=
  match table with
  | [] => OTHER
  | (s, c) :: table' =>
      match string_after_prefix text s with
      | Some _ => c
      | None => ParseType_from table' text
      end
  end.

Definition ParseType (text : list ascii) : AirspaceClass :=
  ParseType_from airspace_class_strings text.

(** The value behind one space; the empty rest itself; [None] (NULL) when
    something other than a space follows the directive. *)
Definition value_after_space (p : list ascii) : option (list ascii) :=
  if string_is_empty p then Some p
  else if negb (Ascii.eqb (deref p) " ") then None
  else Some (tl p).

(** The pending record together with the database the records go to *)
Record PState : Type := mkPState {
  temp_area : TempAirspaceType;
  airspace_database : Airspaces
}.

Definition with_temp (s : PState) (t : TempAirspaceType) : PState :=
  mkPState t (airspace_database s).

Definition is_one_of (c a b : ascii) : bool := (Ascii.eqb c a || Ascii.eqb c b)%bool.

(** [ParseLine]: the returned flag and the state the call leaves. *)
Definition ParseLine (fuel : nat) (line : list ascii) (s : PState)
  : outcome (bool * PState) :=
  let t := temp_area s in
  let line0 := deref line in
  let line1 := deref (tl line) in
  let line2 := skipn 2 line in
  if is_one_of line0 "D" "d" then
    if is_one_of line1 "P" "p" then
      match value_after_space line2 with
      | None => Ret (true, s)
      | Some value =>
          let '(ok, TempPoint) := ReadCoords value GeoPoint_blank in
          if negb ok then Ret (false, s)
          else Ret (true, with_temp s (push_back t TempPoint))
      end
    else if is_one_of line1 "C" "c" then
      let t1 := set_Radius t (ToSysUnit (fst (tcstod line2)) unNauticalMiles) in
      Ret (true, mkPState (reset t1) (AddCircle t1 (airspace_database s)))
    else if is_one_of line1 "A" "a" then
      do t1 <- CalculateSector fuel line t;
      Ret (true, with_temp s t1)
    else if is_one_of line1 "B" "b" then
      do t1 <- CalculateArc fuel line t;
      Ret (true, with_temp s t1)
    else Ret (true, s)
  else if is_one_of line0 "V" "v" then
    match tl line with
    | [] => OutOfString
    | _ :: line2 =>
        match string_after_prefix_ci line2 (cs "X=") with
        | Some line4 =>
            let '(ok, c) := ReadCoords line4 (Center t) in
            Ret (ok, with_temp s (set_Center t c))
        | None =>
            if tcsnicmp0 line2 (cs "D=-") then
              Ret (true, with_temp s (set_Rotation t (-1)))
            else if tcsnicmp0 line2 (cs "D=+") then
              Ret (true, with_temp s (set_Rotation t 1))
            else Ret (true, s)
        end
    end
  else if is_one_of line0 "A" "a" then
    if is_one_of line1 "C" "c" then
      match value_after_space line2 with
      | None => Ret (true, s)
      | Some value =>
          let db := if negb (Waiting t)
                    then AddPolygon t (airspace_database s)
                    else airspace_database s in
          Ret (true, mkPState (start_record (reset t) (ParseType value)) db)
      end
    else if is_one_of line1 "N" "n" then
      match value_after_space line2 with
      | Some value => Ret (true, with_temp s (set_Name t (c_str value)))
      | None => Ret (true, s)
      end
    else if is_one_of line1 "L" "l" then
      match value_after_space line2 with
      | Some value =>
          do a <- ReadAltitude value;
          Ret (true, with_temp s (set_Base t a))
      | None => Ret (true, s)
      end
    else if is_one_of line1 "H" "h" then
      match value_after_space line2 with
      | Some value =>
          do a <- ReadAltitude value;
          Ret (true, with_temp s (set_Top t a))
      | None => Ret (true, s)
      end
    else if is_one_of line1 "R" "r" then
      match value_after_space line2 with
      | Some value => Ret (true, with_temp s (set_Radio t (c_str value)))
      | None => Ret (true, s)
      end
    else Ret (true, s)
  else Ret (true, s).

(** ** The TNP line parser *)

Definition ParseClassTNP (text : list ascii) : AirspaceClass :=
  let c := deref text in
  if Ascii.eqb c "A" then CLASSA
  else if Ascii.eqb c "B" then CLASSB
  else if Ascii.eqb c "C" then CLASSC
  else if Ascii.eqb c "D" then CLASSD
  else if Ascii.eqb c "E" then CLASSE
  else if Ascii.eqb c "F" then CLASSF
  else if Ascii.eqb c "G" then CLASSG
  else OTHER.

Definition ParseTypeTNP (text : list ascii) : AirspaceClass :=
  if (tcsicmp0 text (cs "C") || tcsicmp0 text (cs "CTA")
      || tcsicmp0 text (cs "CTA") || tcsicmp0 text (cs "CTA/CTR"))%bool
  then CTR
  else if (tcsicmp0 text (cs "R") || tcsicmp0 text (cs "RESTRICTED"))%bool
  then RESTRICT
  else if (tcsicmp0 text (cs "P") || tcsicmp0 text (cs "PROHIBITED"))%bool
  then RESTRICT
  else if (tcsicmp0 text (cs "D") || tcsicmp0 text (cs "DANGER"))%bool
  then RESTRICT
  else if (tcsicmp0 text (cs "G") || tcsicmp0 text (cs "GSEC"))%bool
  then WAVE
  else OTHER.

(** [_tcsstr(p, " ")] *)
Definition find_space (p : list ascii) : option (list ascii) := tcschr p " ".

(** The flag and the record as the call leaves it. *)
Definition ParseArcTNP (fuel : nat) (Text : list ascii) (t : TempAirspaceType)
  : outcome (bool * TempAirspaceType) :=
  match rev (points t) with
  | [] => Ret (false, t)
  | from :: _ =>
      match find_space Text with
      | None => Ret (false, t)
      | Some parameter =>
          match string_after_prefix_ci parameter (cs " CENTRE=") with
          | None => Ret (false, t)
          | Some parameter =>
              do (_, c) <- ParseCoordsTNP parameter;
              let t := set_Center t c in
              match find_space parameter with
              | None => Ret (false, t)
              | Some parameter =>
                  match find_space (tl parameter) with
                  | None => Ret (false, t)
                  | Some parameter =>
                      match string_after_prefix_ci parameter (cs " TO=") with
                      | None => Ret (false, t)
                      | Some parameter =>
                          do (_, to) <- ParseCoordsTNP parameter;
                          do t1 <- AddArc fuel from to t;
                          Ret (true, t1)
                      end
                  end
              end
          end
      end
  end.

Definition ParseCircleTNP (Text : list ascii) (t : TempAirspaceType)
  : outcome (bool * TempAirspaceType) :=
  match string_after_prefix_ci Text (cs "RADIUS=") with
  | None => Ret (false, t)
  | Some parameter =>
      let t := set_Radius t (ToSysUnit (fst (tcstod parameter)) unNauticalMiles) in
      match find_space parameter with
      | None => Ret (false, t)
      | Some parameter =>
          match string_after_prefix_ci parameter (cs " CENTRE=") with
          | None => Ret (false, t)
          | Some parameter =>
              do (_, c) <- ParseCoordsTNP parameter;
              Ret (true, set_Center t c)
          end
      end
  end.

(** [ParseLineTNP]: the returned flag, the state and the [ignore] flag as
    the call leaves them. *)
Definition ParseLineTNP (fuel : nat) (line : list ascii) (s : PState)
    (ignore : bool) : outcome (bool * PState * bool) :=
  let t := temp_area s in
  match string_after_prefix_ci line (cs "INCLUDE=") with
  | Some parameter =>
      if tcsicmp0 parameter (cs "YES") then Ret (true, s, false)
      else if tcsicmp0 parameter (cs "NO") then Ret (true, s, true)
      else Ret (true, s, ignore)
  | None =>
  if ignore then Ret (true, s, ignore) else
  match string_after_prefix_ci line (cs "POINT=") with
  | Some parameter =>
      do (ok, TempPoint) <- ParseCoordsTNP parameter;
      if negb ok then Ret (false, s, ignore)
      else Ret (true, with_temp s (push_back t TempPoint), ignore)
  | None =>
  match string_after_prefix_ci line (cs "CIRCLE ") with
  | Some parameter =>
      do (ok, t1) <- ParseCircleTNP parameter t;
      if negb ok then Ret (false, with_temp s t1, ignore)
      else Ret (true, mkPState t1 (AddCircle t1 (airspace_database s)), ignore)
  | None =>
  match string_after_prefix_ci line (cs "CLOCKWISE ") with
  | Some parameter =>
      do (ok, t1) <- ParseArcTNP fuel parameter (set_Rotation t 1);
      Ret (ok, with_temp s t1, ignore)
  | None =>
  match string_after_prefix_ci line (cs "ANTI-CLOCKWISE ") with
  | Some parameter =>
      do (ok, t1) <- ParseArcTNP fuel parameter (set_Rotation t (-1));
      Ret (ok, with_temp s t1, ignore)
  | None =>
  match string_after_prefix_ci line (cs "TITLE=") with
  | Some parameter => Ret (true, with_temp s (set_Name t (c_str parameter)), ignore)
  | None =>
  match string_after_prefix_ci line (cs "TYPE=") with
  | Some parameter =>
      let db := if negb (Waiting t)
                then AddPolygon t (airspace_database s)
                else airspace_database s in
      Ret (true, mkPState (start_record (reset t) (ParseTypeTNP parameter)) db,
           ignore)
  | None =>
  match string_after_prefix_ci line (cs "CLASS=") with
  | Some parameter =>
      if AirspaceClass_eqb (Type_ t) OTHER
      then Ret (true, with_temp s (set_Type t (ParseClassTNP parameter)), ignore)
      else Ret (true, s, ignore)
  | None =>
  match string_after_prefix_ci line (cs "TOPS=") with
  | Some parameter =>
      do a <- ReadAltitude parameter;
      Ret (true, with_temp s (set_Top t a), ignore)
  | None =>
  match string_after_prefix_ci line (cs "BASE=") with
  | Some parameter =>
      do a <- ReadAltitude parameter;
      Ret (true, with_temp s (set_Base t a), ignore)
  | None =>
  match string_after_prefix_ci line (cs "RADIO=") with
  | Some parameter => Ret (true, with_temp s (set_Radio t (c_str parameter)), ignore)
  | None =>
  match string_after_prefix_ci line (cs "ACTIVE=") with
  | Some parameter =>
      if tcsicmp0 parameter (cs "WEEKEND")
      then Ret (true, with_temp s (set_days t set_weekend), ignore)
      else if tcsicmp0 parameter (cs "WEEKDAY")
      then Ret (true, with_temp s (set_days t set_weekdays), ignore)
      else if tcsicmp0 parameter (cs "EVERYDAY")
      then Ret (true, with_temp s (set_days t set_all), ignore)
      else Ret (true, s, ignore)
  | None => Ret (true, s, ignore)
  end end end end end end end end end end end end.

(** ** The file driver *)

Inductive AirspaceFileType : Type := AFT_UNKNOWN | AFT_OPENAIR | AFT_TNP.

Definition is_some {A : Type} (o : option A) : bool :=
  match o with Some _ => true | None => false end.

Definition DetectFileType (line : list ascii) : AirspaceFileType :=
  if (is_some (string_after_prefix_ci line (cs "INCLUDE="))
      || is_some (string_after_prefix_ci line (cs "TYPE=")))%bool
  then AFT_TNP
  else
    match string_after_prefix_ci line (cs "AC") with
    | Some p =>
        if (string_is_empty p || Ascii.eqb (deref p) " ")%bool
        then AFT_OPENAIR else AFT_UNKNOWN
    | None => AFT_UNKNOWN
    end.

(** The comment is cut by writing a NUL over the first asterisk; what
    followed it stays in the buffer. *)
Fixpoint strip_comment (line : list ascii) : list ascii :=
  match line with
  | [] => []
  | c :: r =>
      if is_nul c then line
      else if Ascii.eqb c "*" then NUL :: r
      else c :: strip_comment r
  end.

(** The answer of the operator to [ShowParseWarning] *)
Variable ShowParseWarning : nat -> list ascii -> bool.

(** The loop of [Parse] over the lines that are left; the progress reports
    do not touch the state and are left out.  The flag is false for the
    early [return false], and true when the lines are used up. *)
Fixpoint Parse_loop (fuel : nat) (lines : list (list ascii)) (LineCount : nat)
    (filetype : AirspaceFileType) (s : PState) (ignore : bool)
  : outcome (bool * AirspaceFileType * PState) :=
  match lines with
  | [] => Ret (true, filetype, s)
  | raw :: rest =>
      let line := strip_comment raw in
      if string_is_empty line then
        Parse_loop fuel rest (S LineCount) filetype s ignore
      else
        let filetype :=
          match filetype with
          | AFT_UNKNOWN => DetectFileType line
          | _ => filetype
          end in
        match filetype with
        | AFT_UNKNOWN => Parse_loop fuel rest (S LineCount) filetype s ignore
        | AFT_OPENAIR =>
            do (ok, s1) <- ParseLine fuel line s;
            if (negb ok && negb (ShowParseWarning LineCount line))%bool
            then Ret (false, filetype, s1)
            else Parse_loop fuel rest (S LineCount) filetype s1 ignore
        | AFT_TNP =>
            do (ok, s1, ignore1) <- ParseLineTNP fuel line s ignore;
            if (negb ok && negb (ShowParseWarning LineCount line))%bool
            then Ret (false, filetype, s1)
            else Parse_loop fuel rest (S LineCount) filetype s1 ignore1
        end
  end.

(** [AirspaceParser::Parse] on a database: the result and the database. *)
Definition Parse (fuel : nat) (lines : list (list ascii)) (airspaces : Airspaces)
  : outcome (bool * Airspaces) :=
  do (ok, filetype, s) <-
    Parse_loop fuel lines 1 AFT_UNKNOWN
               (mkPState TempAirspaceType_new airspaces) false;
  if negb ok then Ret (false, airspace_database s)
  else
    match filetype with
    | AFT_UNKNOWN => Ret (false, airspace_database s)
    | _ =>
        if negb (Waiting (temp_area s))
        then Ret (true, AddPolygon (temp_area s) (airspace_database s))
        else Ret (true, airspace_database s)
    end.

End Parser.

(** ** Concrete collaborators, to run the parser on concrete files *)

(** Modelled from the spec: the unit conversion service (Units/Units.hpp is
    not part of these sources), which converts feet and nautical miles to
    system units and an altitude to a flight level.  System units are taken
    as metres: a foot is 0.3048 m, a nautical mile 1852 m, a flight level
    100 ft. *)
Definition si_units : UnitsService :=
  {| ToSysUnit x u :=
       match u with
       | unFeet => fmul x 0.3048%Q
       | unNauticalMiles => fmul x 1852%Q
       | unFlightLevel => fmul x 30.48%Q
       end;
     ToUserUnit x u :=
       match u with
       | unFeet => fdiv x 0.3048%Q
       | unNauticalMiles => fdiv x 1852%Q
       | unFlightLevel => fdiv x 30.48%Q
       end |}.

(** A stand-in for the geodesy of Math/Earth.hpp on a flat grid, without
    trigonometry: the bearing of a point is its longitude taken as a bearing,
    the distance the difference of the latitudes.  It only serves to run
    the tessellator on concrete input. *)
Definition grid_geodesy : Geodesy :=
  {| FindLatitudeLongitude c b r := mkGeoPoint (fadd (Latitude c) r) b;
     distance_bearing c p :=
       mkGeoVector (fabs (fsub (Latitude p) (Latitude c)))
                   (as_bearing (Longitude p));
     Bearing c p := as_bearing (Longitude p) |}.

(** The operator who lets every flagged line be skipped *)
Definition always_continue (LineCount : nat) (line : list ascii) : bool := true.

(** The file of the example in the specification *)
Definition openair_example : list (list ascii) :=
  map cs [ "AC R"; "AN Test"; "AL SFC"; "AH FL100";
           "DP 50:00:00 N 010:00:00 E";
           "DP 50:10:00 N 010:00:00 E";
           "DP 50:10:00 N 010:10:00 E" ]%string.

(** The same file with one blank behind each altitude *)
Definition openair_example_blank : list (list ascii) :=
  map cs [ "AC R"; "AN Test"; "AL SFC "; "AH FL100 ";
           "DP 50:00:00 N 010:00:00 E";
           "DP 50:10:00 N 010:00:00 E";
           "DP 50:10:00 N 010:10:00 E" ]%string.

Definition example_vertices : list GeoPoint :=
  [ mkGeoPoint 50%Q 10%Q; mkGeoPoint (301 # 6)%Q 10%Q;
    mkGeoPoint (301 # 6)%Q (61 # 6)%Q ].

(** The bearing at which the [k]-th intermediate vertex of [AddArc] is
    projected: the start bearing after [k] signed steps. *)
Definition turn (step b : Q) : Q := as_bearing (fadd b step).


(** The number a run of decimal digits writes *)
Definition digits_value (ds : list ascii) : Z :=
  fold_left (fun acc c => 10 * acc + digit_val c) ds 0.

(** The sign a hemisphere letter gives an axis *)
Definition hemisphere (negative : bool) (a : Angle) : Angle :=
  if negative then flip a else a.

(** The pending record of the example file once its lines are read (with
    the blank behind each altitude) *)
Definition example_pending : TempAirspaceType :=
  mkTemp false (cs "Test") [] RESTRICT
         (mkAlt fixed_zero fixed_zero fixed_minus_one AGL)
         (mkAlt fixed_zero fixed_zero fixed_zero FL)
         set_all example_vertices (mkGeoPoint Angle_zero Angle_zero)
         fixed_zero 1.

(** A pending record with a center, for the arc examples *)
Definition arc_pending : TempAirspaceType :=
  set_Center TempAirspaceType_new (mkGeoPoint 50%Q 10%Q).

(** ** Notions for the properties of the whole parser *)

(** The rotation of a record is a sign. *)
Definition Rotation_ok (t : TempAirspaceType) : Prop :=
  Rotation t = 1 \/ Rotation t = -1.

(** A line that does not tell the dialect: empty once its comment is cut,
    or not recognised by [DetectFileType] *)
Definition undetected (raw : list ascii) : Prop :=
  string_is_empty (strip_comment raw) = true \/
  DetectFileType (strip_comment raw) = AFT_UNKNOWN.

(** The characters of a C string before its first asterisk *)
Fixpoint before_star (p : list ascii) : list ascii :=
  match p with
  | [] => []
  | c :: r => if Ascii.eqb c "*" then [] else c :: before_star r
  end.

(** Two keywords that differ, without regard to case, at a place both
    have *)
Fixpoint ci_clash (a b : list ascii) : bool :=
  match a, b with
  | x :: a', y :: b' => if eqb_ci x y then ci_clash a' b' else true
  | _, _ => false
  end.

(** The text of a coordinate in degrees, minutes and seconds with the
    hemisphere letters behind the numbers, as in 53:20:41 N 010:24:41 E *)
Definition coords_text (d1 m1 s1 : list ascii) (h1 : ascii)
    (d2 m2 s2 : list ascii) (h2 : ascii) : list ascii :=
  (d1 ++ ":" :: m1 ++ ":" :: s1 ++ " " :: h1 :: " "
      :: d2 ++ ":" :: m2 ++ ":" :: s2 ++ [" "; h2])%char.

(** A run of decimal digits that is not empty *)
Definition digit_run (ds : list ascii) : Prop :=
  Forall (fun c => is_digit c = true) ds /\ ds <> [].

(** A character that is no NUL, no blank and no asterisk *)
Definition plain_char (x : ascii) : bool :=
  (negb (is_nul x) && negb (Ascii.eqb x " ") && negb (Ascii.eqb x "*"))%bool.

(** A file with a sector: a class, a center and a [DA] line *)
Definition sector_example : list (list ascii) :=
  map cs [ "AC R"; "V X=50:00:00 N 010:00:00 E"; "DA 10,350,20" ]%string.

(** The pending record before any line is read, with an empty database *)
Definition start_state : PState := mkPState TempAirspaceType_new [].

(** ** The units panel (src/Dialogs/ConfigPanels/UnitsConfigPanel.cpp)

    The panel shows the unit settings in the fields of a form and stores
    what the operator picked.  The form, the profile and the settings
    structure are code of XCSoar outside this file; they are modelled by
    what the panel does with them. *)

Module UnitsConfigPanel.

(** [(unsigned)z] and [(int)z] at 32 bits *)
Definition to_unsigned (z : Z) : Z := z mod 2 ^ 32.

Definition to_int (z : Z) : Z :=
  let u := z mod 2 ^ 32 in if u <? 2 ^ 31 then u else u - 2 ^ 32.

(** The values of the enumeration [Units_t] that the panel names.  The
    enumeration is declared in Units/Units.hpp, which is not part of these
    sources: the values are integers that are a parameter here. *)
Class UnitIds : Type := {
  unStatuteMilesPerHour : Z;
  unKnots : Z;
  unKiloMeterPerHour : Z;
  unStatuteMiles : Z;
  unNauticalMiles : Z;
  unKiloMeter : Z;
  unFeet : Z;
  unMeter : Z;
  unGradCelcius : Z;
  unGradFahrenheit : Z;
  unMeterPerSecond : Z;
  unFeetPerMinute : Z
}.

(** The members of [UnitSetting] that the panel reads or writes *)
Record UnitSetting : Type := mkUnitSetting {
  coordinate_format : Z;
  speed_unit : Z;
  wind_speed_unit : Z;
  task_speed_unit : Z;
  distance_unit : Z;
  altitude_unit : Z;
  temperature_unit : Z;
  vertical_speed_unit : Z;
  pressure_unit : Z
}.

(** The variables of the file: the entry each field showed when it was
    loaded or saved last ([unsigned]), and the flag of [Init]. *)
Record Statics : Type := mkStatics {
  SpeedUnits : Z;
  TaskSpeedUnits : Z;
  DistanceUnits : Z;
  LiftUnits : Z;
  AltitudeUnits : Z;
  TemperatureUnits : Z;
  loading : bool
}.

(** The values the variables are initialized with *)
Definition Statics_init : Statics := mkStatics 1 2 2 0 0 0 false.

(** Modelled from the spec: the form is the external collaborator that
    holds the values shown; a property keeps the integer that was loaded
    into it last, and [GetFormValueInteger] reads it. *)
Definition Form : Type := string -> Z.

Definition LoadFormProperty (wf : Form) (name : string) (value : Z) : Form :=
  fun n => if String.eqb n name then value else wf n.

Definition GetFormValueInteger (wf : Form) (name : string) : Z := wf name.

(** The profile keys the panel writes *)
Inductive ProfileKey : Type :=
| szProfileSpeedUnitsValue
| szProfileLatLonUnits
| szProfileTaskSpeedUnitsValue
| szProfileDistanceUnitsValue
| szProfileLiftUnitsValue
| szProfilePressureUnitsValue
| szProfileAltitudeUnitsValue
| szProfileTemperatureUnitsValue.

(** Modelled from the spec: profile persistence is an external
    collaborator; it is held as the calls of [Profile::Set] it received, in
    their order. *)
Definition Profile : Type := list (ProfileKey * Z).

Definition Profile_Set (p : Profile) (key : ProfileKey) (value : Z) : Profile :=
  p ++ [(key, value)].

Section Panel.

Context {ids : UnitIds}.

(** [SaveFormPropertyEnum] of Form/Util.hpp is not part of these sources.
    It is given the form, the name of the field, the profile key and the
    value in the settings; it answers whether it changed something and
    leaves a value and a profile. *)
Variable SaveFormPropertyEnum :
  Form -> string -> ProfileKey -> Z -> Profile -> bool * Z * Profile.

(** The entry a unit is shown as, one function for each conditional
    expression of [UpdateUnitFields] *)
Definition speed_index (u : Z) : Z :=
  if u =? unStatuteMilesPerHour then 0 else if u =? unKnots then 1 else 2.

Definition distance_index (u : Z) : Z :=
  if u =? unStatuteMiles then 0 else if u =? unNauticalMiles then 1 else 2.

Definition altitude_index (u : Z) : Z :=
  if u =? unFeet then 0 else 1.

Definition temperature_index (u : Z) : Z :=
  if u =? unGradFahrenheit then 1 else 0.

Definition lift_index (u : Z) : Z :=
  if u =? unKnots then 0 else if u =? unFeetPerMinute then 2 else 1.

Definition set_SpeedUnits (s : Statics) (v : Z) : Statics :=
  mkStatics v (TaskSpeedUnits s) (DistanceUnits s) (LiftUnits s)
            (AltitudeUnits s) (TemperatureUnits s) (loading s).

Definition set_TaskSpeedUnits (s : Statics) (v : Z) : Statics :=
  mkStatics (SpeedUnits s) v (DistanceUnits s) (LiftUnits s)
            (AltitudeUnits s) (TemperatureUnits s) (loading s).

Definition set_DistanceUnits (s : Statics) (v : Z) : Statics :=
  mkStatics (SpeedUnits s) (TaskSpeedUnits s) v (LiftUnits s)
            (AltitudeUnits s) (TemperatureUnits s) (loading s).

Definition set_LiftUnits (s : Statics) (v : Z) : Statics :=
  mkStatics (SpeedUnits s) (TaskSpeedUnits s) (DistanceUnits s) v
            (AltitudeUnits s) (TemperatureUnits s) (loading s).

Definition set_AltitudeUnits (s : Statics) (v : Z) : Statics :=
  mkStatics (SpeedUnits s) (TaskSpeedUnits s) (DistanceUnits s) (LiftUnits s)
            v (TemperatureUnits s) (loading s).

Definition set_TemperatureUnits (s : Statics) (v : Z) : Statics :=
  mkStatics (SpeedUnits s) (TaskSpeedUnits s) (DistanceUnits s) (LiftUnits s)
            (AltitudeUnits s) v (loading s).

Definition set_loading (s : Statics) (b : bool) : Statics :=
  mkStatics (SpeedUnits s) (TaskSpeedUnits s) (DistanceUnits s) (LiftUnits s)
            (AltitudeUnits s) (TemperatureUnits s) b.

(** [UpdateUnitFields]: the variables and the form as the call leaves
    them. *)
Definition UpdateUnitFields (units : UnitSetting) (s : Statics) (wf : Form)
  : Statics * Form :=
  let wf := LoadFormProperty wf "prpUnitsLatLon" (coordinate_format units) in
  let index := speed_index (speed_unit units) in
  let wf := LoadFormProperty wf "prpUnitsSpeed" index in
  let s := if loading s then set_SpeedUnits s index else s in
  let index := speed_index (task_speed_unit units) in
  let wf := LoadFormProperty wf "prpUnitsTaskSpeed" index in
  let s := if loading s then set_TaskSpeedUnits s index else s in
  let index := distance_index (distance_unit units) in
  let wf := LoadFormProperty wf "prpUnitsDistance" index in
  let s := if loading s then set_DistanceUnits s index else s in
  let index := altitude_index (altitude_unit units) in
  let wf := LoadFormProperty wf "prpUnitsAltitude" index in
  let s := if loading s then set_AltitudeUnits s index else s in
  let index := temperature_index (temperature_unit units) in
  let wf := LoadFormProperty wf "prpUnitsTemperature" index in
  let s := if loading s then set_TemperatureUnits s index else s in
  let index := lift_index (vertical_speed_unit units) in
  let wf := LoadFormProperty wf "prpUnitsLift" index in
  let s := if loading s then set_LiftUnits s index else s in
  let wf := LoadFormProperty wf "prpUnitsPressure" (pressure_unit units) in
  (s, wf).

(** [Init], without the lists of labels it gives the fields: the flag is
    set while the fields are loaded from the settings. *)
Definition Init (units : UnitSetting) (s : Statics) (wf : Form)
  : Statics * Form :=
  let s := set_loading s true in
  let '(s, wf) := UpdateUnitFields units s wf in
  let wf := LoadFormProperty wf "prpUnitsPressure" (pressure_unit units) in
  (set_loading s false, wf).

(** The unit an entry stands for, one function for each [switch] of
    [Save] *)
Definition speed_unit_of (index : Z) : Z :=
  match index with
  | 0 => unStatuteMilesPerHour
  | 1 => unKnots
  | _ => unKiloMeterPerHour
  end.

Definition distance_unit_of (index : Z) : Z :=
  match index with
  | 0 => unStatuteMiles
  | 1 => unNauticalMiles
  | _ => unKiloMeter
  end.

Definition lift_unit_of (index : Z) : Z :=
  match index with
  | 0 => unKnots
  | 2 => unFeetPerMinute
  | _ => unMeterPerSecond
  end.

Definition altitude_unit_of (index : Z) : Z :=
  match index with
  | 0 => unFeet
  | _ => unMeter
  end.

Definition temperature_unit_of (index : Z) : Z :=
  match index with
  | 0 => unGradCelcius
  | _ => unGradFahrenheit
  end.

Definition set_speed_units (c : UnitSetting) (u : Z) : UnitSetting :=
  mkUnitSetting (coordinate_format c) u u (task_speed_unit c) (distance_unit c)
                (altitude_unit c) (temperature_unit c) (vertical_speed_unit c)
                (pressure_unit c).

Definition set_coordinate_format (c : UnitSetting) (v : Z) : UnitSetting :=
  mkUnitSetting v (speed_unit c) (wind_speed_unit c) (task_speed_unit c)
                (distance_unit c) (altitude_unit c) (temperature_unit c)
                (vertical_speed_unit c) (pressure_unit c).

Definition set_task_speed_unit (c : UnitSetting) (u : Z) : UnitSetting :=
  mkUnitSetting (coordinate_format c) (speed_unit c) (wind_speed_unit c) u
                (distance_unit c) (altitude_unit c) (temperature_unit c)
                (vertical_speed_unit c) (pressure_unit c).

Definition set_distance_unit (c : UnitSetting) (u : Z) : UnitSetting :=
  mkUnitSetting (coordinate_format c) (speed_unit c) (wind_speed_unit c)
                (task_speed_unit c) u (altitude_unit c) (temperature_unit c)
                (vertical_speed_unit c) (pressure_unit c).

Definition set_altitude_unit (c : UnitSetting) (u : Z) : UnitSetting :=
  mkUnitSetting (coordinate_format c) (speed_unit c) (wind_speed_unit c)
                (task_speed_unit c) (distance_unit c) u (temperature_unit c)
                (vertical_speed_unit c) (pressure_unit c).

Definition set_temperature_unit (c : UnitSetting) (u : Z) : UnitSetting :=
  mkUnitSetting (coordinate_format c) (speed_unit c) (wind_speed_unit c)
                (task_speed_unit c) (distance_unit c) (altitude_unit c) u
                (vertical_speed_unit c) (pressure_unit c).

Definition set_vertical_speed_unit (c : UnitSetting) (u : Z) : UnitSetting :=
  mkUnitSetting (coordinate_format c) (speed_unit c) (wind_speed_unit c)
                (task_speed_unit c) (distance_unit c) (altitude_unit c)
                (temperature_unit c) u (pressure_unit c).

Definition set_pressure_unit (c : UnitSetting) (u : Z) : UnitSetting :=
  mkUnitSetting (coordinate_format c) (speed_unit c) (wind_speed_unit c)
                (task_speed_unit c) (distance_unit c) (altitude_unit c)
                (temperature_unit c) (vertical_speed_unit c) u.

(** What [Save] works on: the settings, the variables of the file, the
    profile and the flag it returns *)
Record Saving : Type := mkSaving {
  config : UnitSetting;
  statics : Statics;
  profile : Profile;
  changed : bool
}.

(** The steps of [Save], in the order of the source *)
Definition Save_speed (wf : Form) (a : Saving) : Saving :=
  let tmp := GetFormValueInteger wf "prpUnitsSpeed" in
  if negb (to_int (SpeedUnits (statics a)) =? tmp) then
    let s := set_SpeedUnits (statics a) (to_unsigned tmp) in
    mkSaving (set_speed_units (config a) (speed_unit_of (SpeedUnits s))) s
             (Profile_Set (profile a) szProfileSpeedUnitsValue (SpeedUnits s))
             true
  else a.

Definition Save_lat_lon (wf : Form) (a : Saving) : Saving :=
  let tmp := GetFormValueInteger wf "prpUnitsLatLon" in
  if negb (coordinate_format (config a) =? tmp) then
    let c := set_coordinate_format (config a) tmp in
    mkSaving c (statics a)
             (Profile_Set (profile a) szProfileLatLonUnits (coordinate_format c))
             true
  else a.

Definition Save_task_speed (wf : Form) (a : Saving) : Saving :=
  let tmp := GetFormValueInteger wf "prpUnitsTaskSpeed" in
  if negb (to_int (TaskSpeedUnits (statics a)) =? tmp) then
    let s := set_TaskSpeedUnits (statics a) (to_unsigned tmp) in
    mkSaving (set_task_speed_unit (config a) (speed_unit_of (TaskSpeedUnits s))) s
             (Profile_Set (profile a) szProfileTaskSpeedUnitsValue
                          (TaskSpeedUnits s))
             true
  else a.

Definition Save_distance (wf : Form) (a : Saving) : Saving :=
  let tmp := GetFormValueInteger wf "prpUnitsDistance" in
  if negb (to_int (DistanceUnits (statics a)) =? tmp) then
    let s := set_DistanceUnits (statics a) (to_unsigned tmp) in
    mkSaving (set_distance_unit (config a) (distance_unit_of (DistanceUnits s))) s
             (Profile_Set (profile a) szProfileDistanceUnitsValue
                          (DistanceUnits s))
             true
  else a.

Definition Save_lift (wf : Form) (a : Saving) : Saving :=
  let tmp := GetFormValueInteger wf "prpUnitsLift" in
  if negb (to_int (LiftUnits (statics a)) =? tmp) then
    let s := set_LiftUnits (statics a) (to_unsigned tmp) in
    mkSaving (set_vertical_speed_unit (config a) (lift_unit_of (LiftUnits s))) s
             (Profile_Set (profile a) szProfileLiftUnitsValue (LiftUnits s))
             true
  else a.

Definition Save_pressure (wf : Form) (a : Saving) : Saving :=
  let '(c, value, p) :=
    SaveFormPropertyEnum wf "prpUnitsPressure" szProfilePressureUnitsValue
                         (pressure_unit (config a)) (profile a) in
  mkSaving (set_pressure_unit (config a) value) (statics a) p
           (changed a || c)%bool.

Definition Save_altitude (wf : Form) (a : Saving) : Saving :=
  let tmp := GetFormValueInteger wf "prpUnitsAltitude" in
  if negb (to_int (AltitudeUnits (statics a)) =? tmp) then
    let s := set_AltitudeUnits (statics a) (to_unsigned tmp) in
    mkSaving (set_altitude_unit (config a) (altitude_unit_of (AltitudeUnits s))) s
             (Profile_Set (profile a) szProfileAltitudeUnitsValue
                          (AltitudeUnits s))
             true
  else a.

Definition Save_temperature (wf : Form) (a : Saving) : Saving :=
  let tmp := GetFormValueInteger wf "prpUnitsTemperature" in
  if negb (to_int (TemperatureUnits (statics a)) =? tmp) then
    let s := set_TemperatureUnits (statics a) (to_unsigned tmp) in
    mkSaving (set_temperature_unit (config a)
                (temperature_unit_of (TemperatureUnits s))) s
             (Profile_Set (profile a) szProfileTemperatureUnitsValue
                          (TemperatureUnits s))
             true
  else a.

(** [Save]: the settings, the variables and the profile as the call
    leaves them, with the flag it returns. *)
Definition Save (wf : Form) (c : UnitSetting) (s : Statics) (p : Profile)
  : Saving :=
  Save_temperature wf
    (Save_altitude wf
       (Save_pressure wf
          (Save_lift wf
             (Save_distance wf
                (Save_task_speed wf
                   (Save_lat_lon wf
                      (Save_speed wf (mkSaving c s p false)))))))).

(** The fields [Save] reads with [GetFormValueInteger] *)
Definition index_fields : list string :=
  [ "prpUnitsSpeed"; "prpUnitsLatLon"; "prpUnitsTaskSpeed"; "prpUnitsDistance";
    "prpUnitsLift"; "prpUnitsAltitude"; "prpUnitsTemperature" ]%string.

(** An [int] *)
Definition is_int (z : Z) : Prop := - 2 ^ 31 <= z < 2 ^ 31.

(** The unit identifiers are values of one enumeration. *)
Definition distinct_ids : Prop :=
  NoDup [ unStatuteMilesPerHour; unKnots; unKiloMeterPerHour; unStatuteMiles;
          unNauticalMiles; unKiloMeter; unFeet; unMeter; unGradCelcius;
          unGradFahrenheit; unMeterPerSecond; unFeetPerMinute ].

End Panel.

(** The condition under which [Save] finds nothing to store in the fields
    it compares itself *)
Definition settled (wf : Form) (c : UnitSetting) (s : Statics) : Prop :=
  to_int (SpeedUnits s) = GetFormValueInteger wf "prpUnitsSpeed" /\
  coordinate_format c = GetFormValueInteger wf "prpUnitsLatLon" /\
  to_int (TaskSpeedUnits s) = GetFormValueInteger wf "prpUnitsTaskSpeed" /\
  to_int (DistanceUnits s) = GetFormValueInteger wf "prpUnitsDistance" /\
  to_int (LiftUnits s) = GetFormValueInteger wf "prpUnitsLift" /\
  to_int (AltitudeUnits s) = GetFormValueInteger wf "prpUnitsAltitude" /\
  to_int (TemperatureUnits s) = GetFormValueInteger wf "prpUnitsTemperature".

(** A numbering of the unit identifiers, to run the panel *)
Definition example_ids : UnitIds :=
  {| unStatuteMilesPerHour := 1; unKnots := 2; unKiloMeterPerHour := 3;
     unStatuteMiles := 4; unNauticalMiles := 5; unKiloMeter := 6;
     unFeet := 7; unMeter := 8; unGradCelcius := 9; unGradFahrenheit := 10;
     unMeterPerSecond := 11; unFeetPerMinute := 12 |}.

(** A [SaveFormPropertyEnum] that compares the field with the value, and
    stores and reports a difference *)
Definition example_SaveFormPropertyEnum (wf : Form) (name : string)
    (key : ProfileKey) (value : Z) (p : Profile) : bool * Z * Profile :=
  let tmp := GetFormValueInteger wf name in
  if value =? tmp then (false, value, p)
  else (true, tmp, Profile_Set p key tmp).

(** Settings in metric units, and an empty form *)
Definition example_units : UnitSetting := mkUnitSetting 0 3 3 3 6 8 9 11 0.

Definition example_form : Form := fun _ => 0.

(** The form as [Init] leaves it for these settings, with the second
    entry (knots) picked in the speed field *)
Definition example_picked : Form :=
  LoadFormProperty
    (snd (Init (ids := example_ids) example_units Statics_init example_form))
    "prpUnitsSpeed" 1.

End UnitsConfigPanel.

(** * Properties *)

Section Properties.

Context {U : UnitsService} {G : Geodesy}.
Variable ShowParseWarning : nat -> list ascii -> bool.

(** ** The scan of ReadAltitude moves forward and ends *)

Lemma scan_digits_length (p : list ascii) : forall acc n,
  (length (snd (scan_digits acc n p)) <= length p)%nat.
Proof.
  induction p as [|c r IH]; intros acc n; cbn [scan_digits].
  - simpl. lia.
  - destruct (is_digit c).
    + specialize (IH (10 * acc + digit_val c) (S n)). cbn [length]. lia.
    + cbn [snd length]. lia.
Qed.

Lemma skip_ws_length (p : list ascii) : (length (skip_ws p) <= length p)%nat.
Proof.
  induction p as [|c r IH]; simpl; [lia|].
  destruct (is_space c); simpl; lia.
Qed.

Lemma skip_spaces_length (p : list ascii) : (length (skip_spaces p) <= length p)%nat.
Proof.
  induction p as [|c r IH]; simpl; [lia|].
  destruct (Ascii.eqb c " "); simpl; lia.
Qed.

Lemma scan_sign_length (p : list ascii) : (length (snd (scan_sign p)) <= length p)%nat.
Proof.
  destruct p as [|c r]; simpl; [lia|].
  destruct (Ascii.eqb c "-"); simpl; [lia|].
  destruct (Ascii.eqb c "+"); simpl; lia.
Qed.

Lemma scan_exponent_length (p : list ascii) :
  (length (snd (scan_exponent p)) <= length p)%nat.
Proof.
  destruct p as [|c r]; simpl; [lia|].
  destruct (eqb_ci c "e"); simpl; [|lia].
  destruct (scan_sign r) as [neg r1] eqn:Hs.
  destruct (scan_digits 0 0 r1) as [[e n] r2] eqn:Hd.
  pose proof (scan_sign_length r) as H1. rewrite Hs in H1.
  pose proof (scan_digits_length r1 0 0%nat) as H2. rewrite Hd in H2.
  simpl in *. destruct (Nat.eqb n 0); simpl; lia.
Qed.

Lemma tcstod_length (p : list ascii) : (length (snd (tcstod p)) <= length p)%nat.
Proof.
  unfold tcstod.
  destruct (scan_sign (skip_ws p)) as [neg p2] eqn:Hs.
  destruct (scan_digits 0 0 p2) as [[ip ni] p3] eqn:Hd.
  pose proof (skip_ws_length p) as H0.
  pose proof (scan_sign_length (skip_ws p)) as H1. rewrite Hs in H1.
  pose proof (scan_digits_length p2 0 0%nat) as H2. rewrite Hd in H2.
  simpl in H1, H2.
  assert (H3 : forall m nf p4,
    (length p4 <= length p3)%nat ->
    (length (snd (if Nat.eqb (ni + nf) 0 then (fixed_zero, p)
                  else let '(e, p5) := scan_exponent p4 in
                       ((if neg then fneg (fmul (inject_Z m) (pow10 (e - Z.of_nat nf)))
                         else fmul (inject_Z m) (pow10 (e - Z.of_nat nf))), p5)))
     <= length p)%nat).
  { intros m nf p4 H4. destruct (Nat.eqb (ni + nf) 0); simpl; [lia|].
    pose proof (scan_exponent_length p4) as H5.
    destruct (scan_exponent p4) as [e p5]. simpl in *. lia. }
  destruct p3 as [|c r].
  - apply H3. simpl. lia.
  - destruct (Ascii.eqb c ".").
    + destruct (scan_digits ip 0 r) as [[m nf] p4] eqn:Hf.
      pose proof (scan_digits_length r ip 0%nat) as H4. rewrite Hf in H4.
      apply H3. simpl in *. lia.
    + apply H3. lia.
Qed.

Lemma skipn_length_le {A : Type} (n : nat) (p : list A) :
  (length (skipn n p) <= length p)%nat.
Proof. rewrite length_skipn. lia. Qed.

Lemma tl_length_le {A : Type} (p : list A) : (length (tl p) <= length p)%nat.
Proof. destruct p; simpl; lia. Qed.

Lemma scan_token_length (a : AirspaceAltitude) (u : bool) (p : list ascii) :
  (length (snd (scan_token a u p)) <= length p)%nat.
Proof.
  unfold scan_token.
  pose proof (tcstod_length p) as Hd.
  pose proof (skipn_length_le 3 p) as H3.
  pose proof (skipn_length_le 2 p) as H2.
  pose proof (tl_length_le p) as H1.
  pose proof (tl_length_le (tl p)) as H1'.
  repeat match goal with
  | |- context [let '(_, _) := tcstod ?q in _] => destruct (tcstod q)
  | |- context [if ?b then _ else _] => destruct b
  end; simpl in *; lia.
Qed.

Lemma scan_loop_fuel (fuel : nat) : forall a u p,
  (length p < fuel)%nat -> scan_loop fuel a u p <> ScanFuel.
Proof.
  induction fuel as [|fuel IH]; intros a u p Hlt; [lia|].
  simpl. destruct (is_nul (deref p)) eqn:Hn; [discriminate|].
  pose proof (scan_token_length a u (skip_spaces p)) as Ht.
  pose proof (skip_spaces_length p) as Hs.
  destruct (scan_token a u (skip_spaces p)) as [[a' u'] q]. simpl in Ht.
  destruct q as [|c q']; [discriminate|].
  apply IH. simpl in Ht. lia.
Qed.

(** [ReadAltitude] never runs out of rounds: its loop ends, at the NUL or
    beyond it. *)
Lemma ReadAltitude_total (Text : list ascii) :
  ReadAltitude Text <> OutOfFuel.
Proof.
  unfold ReadAltitude.
  pose proof (scan_loop_fuel (S (length Text)) AirspaceAltitude_init false Text) as H.
  unfold ReadAltitude_scan.
  destruct (scan_loop (S (length Text)) AirspaceAltitude_init false Text);
    try discriminate.
  exfalso. apply H; [lia|reflexivity].
Qed.

(** ** The altitude scan and the end of the string *)

(** C10.  The scan of [ReadAltitude] does not stay inside its string: the
    increment of the [for] loop steps over the character behind every token,
    so when a token (or a run of blanks) ends at the terminating NUL the
    loop condition reads the position behind the NUL.  This happens for
    "SFC", "GND", "FL100", a text that ends in a digit run, and a lone
    blank. *)
Theorem ReadAltitude_reads_behind_NUL :
  ReadAltitude (cs "SFC") = OutOfString /\
  ReadAltitude (cs "GND") = OutOfString /\
  ReadAltitude (cs "FL100") = OutOfString /\
  ReadAltitude (cs "1500") = OutOfString /\
  ReadAltitude (cs " ") = OutOfString /\
  ReadAltitude_scan (cs "SFC")
  = ScanOverrun (mkAlt fixed_zero fixed_zero fixed_minus_one AGL) true.
Proof. repeat split; vm_compute; reflexivity. Qed.

(** C1.  On the file of the example the parser does not deliver the record
    of the specification: in "FL100" the loop increment steps over the "1",
    the flight level read is 0, and for "SFC" and "FL100" the scan then reads
    behind the NUL.  With one blank behind each altitude the scan stays in
    the strings, and the one polygon that is emitted has the class, the
    name, the base and the three vertices of the example, but flight level 0
    as its top. *)
Theorem Parse_openair_example_flight_level :
  ReadAltitude_scan (cs "FL100")
  = ScanOverrun (mkAlt fixed_zero fixed_zero fixed_zero FL) true /\
  (forall fuel db, Parse ShowParseWarning fuel openair_example db = OutOfString) /\
  (forall fuel,
     Parse ShowParseWarning fuel openair_example_blank []
     = Ret (true,
            [ mkAirspace (Polygon example_vertices) (cs "Test") RESTRICT
                (mkAlt fixed_zero fixed_zero fixed_minus_one AGL)
                (mkAlt fixed_zero fixed_zero fixed_zero FL)
                [] set_all ])).
Proof.
  split; [vm_compute; reflexivity|].
  split; intros; vm_compute; reflexivity.
Qed.

(** ** Coordinates that do not parse *)

(** C2.  A [DB] line whose first or second coordinate does not parse is
    reported as parsed, with the state untouched, where the same text on a
    [DP] line is reported as failed. *)
Theorem ParseLine_DB_hides_bad_coordinate : forall fuel s,
  fst (ReadCoords (cs "x") GeoPoint_blank) = false /\
  ParseLine fuel (cs "DB x, 50:00:00 N 010:00:00 E") s = Ret (true, s) /\
  ParseLine fuel (cs "DB 50:00:00 N 010:00:00 E, x") s = Ret (true, s) /\
  ParseLine fuel (cs "DP x") s = Ret (false, s).
Proof.
  intros fuel [t db]. repeat split; vm_compute; reflexivity.
Qed.

(** C4.  A longitude without digits is not rejected: the scan of the
    longitude does not advance on " E", the test behind it compares the end
    of the scan with the start of the whole text, and the call succeeds with
    longitude zero. *)
Theorem ReadCoords_accepts_missing_longitude : forall point,
  tcstod (cs " E") = (fixed_zero, cs " E") /\
  ReadCoords (cs "50 N E") point = (true, mkGeoPoint 50%Q 0%Q) /\
  ReadCoords (cs "N 10 E") point = (false, point).
Proof.
  intros [lat lon]. repeat split; vm_compute; reflexivity.
Qed.

(** ** Tokens of the altitude scan *)

Ltac ascii_cases c H :=
  destruct c as [[|] [|] [|] [|] [|] [|] [|] [|]]; try discriminate H; clear H.

(** A text that matches a three letter token without regard to case *)
Lemma tcsnicmp0_three (p : list ascii) (x y z : ascii) :
  tcsnicmp0 p [x; y; z] = true ->
  exists c1 c2 c3 r,
    p = c1 :: c2 :: c3 :: r /\
    eqb_ci c1 x = true /\ eqb_ci c2 y = true /\ eqb_ci c3 z = true.
Proof.
  unfold tcsnicmp0. intros H.
  destruct p as [|c1 [|c2 [|c3 r]]]; cbn in H.
  - discriminate H.
  - destruct (eqb_ci c1 x); discriminate H.
  - destruct (eqb_ci c1 x); [destruct (eqb_ci c2 y)|]; discriminate H.
  - destruct (eqb_ci c1 x) eqn:E1; [|discriminate H].
    destruct (eqb_ci c2 y) eqn:E2; [|discriminate H].
    destruct (eqb_ci c3 z) eqn:E3; [|discriminate H].
    exists c1, c2, c3, r. repeat split; assumption.
Qed.



(** C5, as the code has it.  The token UNL (in any case of the letters) sets
    the datum to MSL, the field above terrain to the sentinel -1 and the
    altitude to 50000, and leaves the unit flag as it is.  A scan that saw no
    unit marker ends by converting the altitude and the field above terrain
    from feet, so the text "UNL " yields datum MSL, the altitude
    [ToSysUnit 50000 unFeet] and above terrain [ToSysUnit (-1) unFeet]. *)
Theorem scan_token_UNL : forall a u p,
  tcsnicmp0 p (cs "UNL") = true ->
  scan_token a u p
  = (mkAlt 50000%Q (flight_level a) fixed_minus_one MSL, u, skipn 3 p) /\
  ReadAltitude_finish (mkAlt 50000%Q (flight_level a) fixed_minus_one MSL) false
  = mkAlt (ToSysUnit 50000%Q unFeet) (flight_level a)
          (ToSysUnit fixed_minus_one unFeet) MSL /\
  ReadAltitude (cs "UNL ")
  = Ret (mkAlt (ToSysUnit 50000%Q unFeet) fixed_zero
               (ToSysUnit fixed_minus_one unFeet) MSL).
Proof.
  intros a u p H.
  destruct (tcsnicmp0_three _ _ _ _ H) as (c1 & c2 & c3 & r & -> & H1 & H2 & H3).
  split; [|split; reflexivity].
  unfold scan_token. rewrite H.
  ascii_cases c1 H1; reflexivity.
Qed.

(** ** The TNP ignore flag *)

Lemma strip_comment_keeps_mismatch (pat : list ascii) :
  Forall (fun c => eqb_ci NUL c = false) pat ->
  forall line,
    string_after_prefix_ci line pat = None ->
    string_after_prefix_ci (strip_comment line) pat = None.
Proof.
  induction 1 as [|c pat Hc Hpat IH]; intros line Hl;
    [destruct line; discriminate Hl|].
  destruct line as [|d r]; [reflexivity|].
  cbn [strip_comment].
  destruct (is_nul d); [exact Hl|].
  destruct (Ascii.eqb d "*").
  - cbn [string_after_prefix_ci]. rewrite Hc. reflexivity.
  - cbn [string_after_prefix_ci] in *.
    destruct (eqb_ci d c); [apply IH; exact Hl|reflexivity].
Qed.

Lemma INCLUDE_has_no_NUL :
  Forall (fun c => eqb_ci NUL c = false) (cs "INCLUDE=").
Proof. repeat constructor. Qed.

Lemma ParseLineTNP_ignore (fuel : nat) (line : list ascii) (s : PState) :
  string_after_prefix_ci line (cs "INCLUDE=") = None ->
  ParseLineTNP fuel line s true = Ret (true, s, true).
Proof. intros H. unfold ParseLineTNP. rewrite H. reflexivity. Qed.

Lemma Parse_loop_ignored_span (fuel : nat) (s : PState) (rest : list (list ascii)) :
  forall span LineCount,
    Forall (fun l => string_after_prefix_ci l (cs "INCLUDE=") = None) span ->
    Parse_loop ShowParseWarning fuel (span ++ rest) LineCount AFT_TNP s true
    = Parse_loop ShowParseWarning fuel rest (LineCount + length span) AFT_TNP s true.
Proof.
  induction span as [|l span IH]; intros n Hall.
  - cbn [app length]. rewrite Nat.add_0_r. reflexivity.
  - inversion Hall as [|? ? Hl Hspan]; subst.
    cbn [app length Parse_loop].
    replace (n + S (length span))%nat with (S n + length span)%nat by lia.
    destruct (string_is_empty (strip_comment l)); [apply IH; assumption|].
    rewrite ParseLineTNP_ignore
      by (apply strip_comment_keeps_mismatch;
          [apply INCLUDE_has_no_NUL|assumption]).
    cbn [bind negb andb]. apply IH; assumption.
Qed.

(** C8.  While the ignore flag is set, a line that does not start with
    INCLUDE= returns success and leaves the pending record, the database and
    the flag as they are.  INCLUDE=NO sets the flag and INCLUDE=YES clears
    it, both without touching the state.  So the driver, in a TNP file, goes
    through INCLUDE=NO, any lines without INCLUDE=, and INCLUDE=YES with the
    pending record and the database unchanged: nothing is emitted for the
    span. *)
Theorem ParseLineTNP_ignores_span : forall fuel s,
  (forall line,
     string_after_prefix_ci line (cs "INCLUDE=") = None ->
     ParseLineTNP fuel line s true = Ret (true, s, true)) /\
  (forall ignore,
     ParseLineTNP fuel (cs "INCLUDE=NO") s ignore = Ret (true, s, true) /\
     ParseLineTNP fuel (cs "INCLUDE=YES") s ignore = Ret (true, s, false)) /\
  (forall span rest LineCount ignore,
     Forall (fun l => string_after_prefix_ci l (cs "INCLUDE=") = None) span ->
     Parse_loop ShowParseWarning fuel
       (cs "INCLUDE=NO" :: span ++ cs "INCLUDE=YES" :: rest)
       LineCount AFT_TNP s ignore
     = Parse_loop ShowParseWarning fuel rest
         (LineCount + 2 + length span) AFT_TNP s false).
Proof.
  intros fuel s. split; [intros line H; apply ParseLineTNP_ignore; exact H|].
  split; [intros ignore; split; reflexivity|].
  intros span rest n ignore Hall.
  change (Parse_loop ShowParseWarning fuel
            (cs "INCLUDE=NO" :: span ++ cs "INCLUDE=YES" :: rest) n AFT_TNP s ignore)
    with (Parse_loop ShowParseWarning fuel
            (span ++ cs "INCLUDE=YES" :: rest) (S n) AFT_TNP s true).
  rewrite Parse_loop_ignored_span by assumption.
  change (Parse_loop ShowParseWarning fuel (cs "INCLUDE=YES" :: rest)
            (S n + length span) AFT_TNP s true)
    with (Parse_loop ShowParseWarning fuel rest
            (S (S n + length span)) AFT_TNP s false).
  f_equal. lia.
Qed.

(** ** Emission and reset *)

Lemma prefix_ci_head_mismatch (c x : ascii) (r pat : list ascii) :
  eqb_ci c x = false -> string_after_prefix_ci (c :: r) (x :: pat) = None.
Proof. intros H. cbn [string_after_prefix_ci]. rewrite H. reflexivity. Qed.

(** A line that starts with TYPE= starts with none of the keywords that
    [ParseLineTNP] tries before it. *)
Lemma TYPE_line_is_no_other (line parameter : list ascii) :
  string_after_prefix_ci line (cs "TYPE=") = Some parameter ->
  string_after_prefix_ci line (cs "INCLUDE=") = None /\
  string_after_prefix_ci line (cs "POINT=") = None /\
  string_after_prefix_ci line (cs "CIRCLE ") = None /\
  string_after_prefix_ci line (cs "CLOCKWISE ") = None /\
  string_after_prefix_ci line (cs "ANTI-CLOCKWISE ") = None /\
  string_after_prefix_ci line (cs "TITLE=") = None.
Proof.
  intros H.
  destruct line as [|c1 [|c2 r]]; [discriminate H| |].
  - cbn in H. destruct (eqb_ci c1 "T"); discriminate H.
  - cbn [cs list_ascii_of_string string_after_prefix_ci] in H.
    destruct (eqb_ci c1 "T") eqn:E1; [|discriminate H].
    destruct (eqb_ci c2 "Y") eqn:E2; [|discriminate H].
    clear H.
    ascii_cases c1 E1; ascii_cases c2 E2; repeat split; reflexivity.
Qed.

(** C3, as the code has it.  The OpenAir [AC] line with a record pending,
    the OpenAir [DC] line and the TNP [TYPE=] line with a record pending
    emit the record and go on from [reset] of it ([AC] and [TYPE=] then store
    the class they parsed and clear [Waiting]).  [reset] brings the radio,
    the class, the vertex list, the center, the radius, the rotation and the
    days of operation back to their defaults and keeps the name and the base
    and top altitudes. *)
Theorem emission_then_reset : forall fuel s,
  let t := temp_area s in
  let db := airspace_database s in
  (forall line value,
     is_one_of (deref line) "A" "a" = true ->
     is_one_of (deref (tl line)) "C" "c" = true ->
     value_after_space (skipn 2 line) = Some value ->
     Waiting t = false ->
     ParseLine fuel line s
     = Ret (true, mkPState (start_record (reset t) (ParseType value))
                           (AddPolygon t db))) /\
  (forall line,
     is_one_of (deref line) "D" "d" = true ->
     is_one_of (deref (tl line)) "C" "c" = true ->
     let t1 := set_Radius t (ToSysUnit (fst (tcstod (skipn 2 line)))
                                       unNauticalMiles) in
     ParseLine fuel line s
     = Ret (true, mkPState (reset t1) (AddCircle t1 db))) /\
  (forall line parameter,
     string_after_prefix_ci line (cs "TYPE=") = Some parameter ->
     Waiting t = false ->
     ParseLineTNP fuel line s false
     = Ret (true, mkPState (start_record (reset t) (ParseTypeTNP parameter))
                           (AddPolygon t db), false)) /\
  (forall t0,
     Radio (reset t0) = [] /\ Type_ (reset t0) = OTHER /\
     points (reset t0) = [] /\
     Center (reset t0) = mkGeoPoint Angle_zero Angle_zero /\
     Radius (reset t0) = fixed_zero /\ Rotation (reset t0) = 1 /\
     days_of_operation (reset t0) = set_all /\ Waiting (reset t0) = true /\
     Name (reset t0) = Name t0 /\ Base (reset t0) = Base t0 /\
     Top (reset t0) = Top t0).
Proof.
  intros fuel s t db. repeat apply conj.
  - intros line value H0 H1 Hv Hw.
    destruct line as [|c0 [|c1 r]]; try discriminate H0; try discriminate H1.
    cbn [deref tl] in H0, H1. cbn [skipn] in Hv.
    unfold ParseLine. cbn [deref tl skipn].
    fold t. fold db. rewrite Hw.
    ascii_cases c0 H0; ascii_cases c1 H1;
      cbv beta iota delta [is_one_of Ascii.eqb Bool.eqb orb]; rewrite Hv; reflexivity.
  - intros line H0 H1 t1.
    destruct line as [|c0 [|c1 r]]; try discriminate H0; try discriminate H1.
    cbn [deref tl] in H0, H1. subst t1. cbn [skipn].
    unfold ParseLine. cbn [deref tl skipn]. fold t. fold db.
    ascii_cases c0 H0; ascii_cases c1 H1; reflexivity.
  - intros line parameter Hp Hw.
    destruct (TYPE_line_is_no_other _ _ Hp) as (E1 & E2 & E3 & E4 & E5 & E6).
    unfold ParseLineTNP. rewrite E1, E2, E3, E4, E5, E6, Hp.
    fold t. fold db. rewrite Hw. reflexivity.
  - intros t0. repeat split.
Qed.

(** ** Compact coordinates *)

Lemma digit_val_range (c : ascii) : is_digit c = true -> 0 <= digit_val c <= 9.
Proof.
  unfold is_digit, digit_val. intros H.
  apply andb_true_iff in H. destruct H as [H1 H2].
  apply Nat.leb_le in H1. apply Nat.leb_le in H2. lia.
Qed.

Lemma fold_digits_app (ds : list ascii) : forall acc,
  fold_left (fun a c => 10 * a + digit_val c) ds acc
  = acc * 10 ^ Z.of_nat (length ds) + digits_value ds.
Proof.
  unfold digits_value.
  induction ds as [|c ds IH]; intros acc.
  - cbn [fold_left length]. change (10 ^ Z.of_nat 0) with 1. lia.
  - cbn [fold_left length]. rewrite IH. rewrite (IH (10 * 0 + digit_val c)).
    rewrite Nat2Z.inj_succ, Z.pow_succ_r by lia. ring.
Qed.

Lemma digits_value_app (a b : list ascii) :
  digits_value (a ++ b) = digits_value a * 10 ^ Z.of_nat (length b) + digits_value b.
Proof.
  unfold digits_value at 1. rewrite fold_left_app.
  fold (digits_value a). apply fold_digits_app.
Qed.

Lemma digits_value_bound (ds : list ascii) :
  Forall (fun c => is_digit c = true) ds ->
  0 <= digits_value ds < 10 ^ Z.of_nat (length ds).
Proof.
  induction ds as [|c ds IH] using rev_ind; intros H.
  - cbn. lia.
  - apply Forall_app in H. destruct H as [H1 H2].
    inversion H2 as [|? ? Hc _]; subst.
    specialize (IH H1). pose proof (digit_val_range c Hc) as Hd.
    rewrite digits_value_app, length_app. cbn [length].
    change (digits_value [c]) with (10 * 0 + digit_val c).
    rewrite Nat2Z.inj_add, Z.pow_add_r by lia.
    change (Z.of_nat 1) with 1. rewrite Z.pow_1_r. lia.
Qed.

Lemma scan_digits_run (ds rest : list ascii) :
  Forall (fun c => is_digit c = true) ds ->
  is_digit (deref rest) = false ->
  forall acc n,
    scan_digits acc n (ds ++ rest)
    = (fold_left (fun a c => 10 * a + digit_val c) ds acc,
       (n + length ds)%nat, rest).
Proof.
  intros Hds Hrest. induction Hds as [|c ds Hc _ IH]; intros acc n.
  - cbn [app fold_left length]. rewrite Nat.add_0_r.
    destruct rest as [|d r]; [reflexivity|].
    cbn [scan_digits]. cbn [deref] in Hrest. rewrite Hrest. reflexivity.
  - cbn [app scan_digits fold_left length]. rewrite Hc, IH.
    f_equal. f_equal. lia.
Qed.

Lemma digit_is_no_space_or_sign (c : ascii) :
  is_digit c = true ->
  is_space c = false /\ Ascii.eqb c "-" = false /\ Ascii.eqb c "+" = false.
Proof. intros H. ascii_cases c H; repeat split; reflexivity. Qed.

(** [_tcstol] on a run of at most nine digits *)
Lemma tcstol_run (ds rest : list ascii) :
  Forall (fun c => is_digit c = true) ds ->
  ds <> [] -> (length ds <= 9)%nat ->
  is_digit (deref rest) = false ->
  tcstol (ds ++ rest) = (digits_value ds, rest).
Proof.
  intros Hds Hne Hlen Hrest.
  pose proof (digits_value_bound ds Hds) as Hb.
  destruct ds as [|c ds]; [contradiction|].
  inversion Hds as [|? ? Hc Hds']; subst.
  destruct (digit_is_no_space_or_sign c Hc) as (E1 & E2 & E3).
  unfold tcstol. cbn [app skip_ws]. rewrite E1.
  cbn [scan_sign]. rewrite E2, E3.
  change (c :: ds ++ rest) with ((c :: ds) ++ rest).
  rewrite scan_digits_run by assumption.
  fold (digits_value (c :: ds)). cbn [length Nat.add Nat.eqb].
  f_equal. unfold clamp_long, LONG_MIN, LONG_MAX.
  assert (10 ^ Z.of_nat (length (c :: ds)) <= 10 ^ 9)
    by (apply Z.pow_le_mono_r; lia).
  change (10 ^ 9) with 1000000000 in *.
  change (2 ^ 31) with 2147483648. lia.
Qed.

Lemma split_dms_nonneg (v : Z) :
  0 <= v <= LONG_MAX ->
  split_dms v = Ret (v / 10000, v mod 10000 / 100, v mod 100).
Proof.
  unfold LONG_MAX. change (2 ^ 31 - 1) with 2147483647. intros Hv.
  unfold split_dms, labs, in_long, LONG_MIN, LONG_MAX.
  change (2 ^ 31 - 1) with 2147483647. change (- 2 ^ 31) with (-2147483648).
  rewrite Z.quot_div_nonneg by lia.
  pose proof (Z.div_pos v 10000 ltac:(lia) ltac:(lia)) as Hd0.
  rewrite (Z.abs_eq (v / 10000)) by exact Hd0.
  assert (E1 : v - v / 10000 * 10000 = v mod 10000)
    by (rewrite Z.mod_eq by lia; ring).
  rewrite E1.
  pose proof (Z.mod_pos_bound v 10000 ltac:(lia)) as Hm.
  rewrite Z.quot_div_nonneg by lia.
  pose proof (Z.div_pos (v mod 10000) 100 ltac:(lia) ltac:(lia)) as Hd1.
  rewrite (Z.abs_eq (v mod 10000 / 100)) by exact Hd1.
  assert (E2 : v - v mod 10000 / 100 * 100 - v / 10000 * 10000 = v mod 100).
  { assert (Hmm : (v mod 10000) mod 100 = v mod 100).
    { apply Z.mod_mod_divide. exists 100. reflexivity. }
    rewrite <- Hmm. rewrite (Z.mod_eq (v mod 10000) 100) by lia.
    rewrite <- E1 at 2. ring. }
  rewrite E2.
  pose proof (Z.mod_pos_bound v 100 ltac:(lia)) as Hm2.
  assert (Hq : v mod 10000 / 100 * 100 <= v mod 10000)
    by (rewrite Z.mul_comm; apply Z.mul_div_le; lia).
  replace ((-2147483648 <=? v mod 10000) && (v mod 10000 <=? 2147483647))%bool
    with true by (symmetry; apply andb_true_iff; split; apply Z.leb_le; lia).
  replace ((-2147483648 <=? v - v mod 10000 / 100 * 100)
           && (v - v mod 10000 / 100 * 100 <=? 2147483647))%bool
    with true by (symmetry; apply andb_true_iff; split; apply Z.leb_le; lia).
  replace ((-2147483648 <=? v mod 100) && (v mod 100 <=? 2147483647))%bool
    with true by (symmetry; apply andb_true_iff; split; apply Z.leb_le; lia).
  reflexivity.
Qed.

Lemma div_mod_unique_pos (a b q r : Z) :
  0 <= r < b -> a = b * q + r -> a / b = q /\ a mod b = r.
Proof.
  intros Hr Ha. split.
  - symmetry. apply (Z.div_unique a b q r); [left; exact Hr|exact Ha].
  - symmetry. apply (Z.mod_unique a b q r); [left; exact Hr|exact Ha].
Qed.

(** Degrees, minutes and seconds of a packed number, from its high part
    [hi], its middle pair [mid] and its low pair [lo] *)
Lemma packed_split (hi mid lo : Z) :
  0 <= mid <= 99 -> 0 <= lo <= 99 ->
  let v := (hi * 100 + mid) * 100 + lo in
  v / 10000 = hi /\ v mod 10000 / 100 = mid /\ v mod 100 = lo.
Proof.
  intros Hm Hl v.
  destruct (div_mod_unique_pos v 10000 hi (mid * 100 + lo)) as [E1 E2];
    [lia | unfold v; ring |].
  destruct (div_mod_unique_pos (mid * 100 + lo) 100 mid lo) as [E3 _];
    [lia | ring |].
  destruct (div_mod_unique_pos v 100 (hi * 100 + mid) lo) as [_ E4];
    [lia | unfold v; ring |].
  rewrite E1, E2, E3, E4. repeat split.
Qed.

Lemma normalize_longitude (lat lon : Angle) :
  Latitude (normalize (mkGeoPoint lat lon)) = lat /\
  (-180 <= Longitude (normalize (mkGeoPoint lat lon)))%Q /\
  (Longitude (normalize (mkGeoPoint lat lon)) < 180)%Q /\
  exists k : Z,
    (Longitude (normalize (mkGeoPoint lat lon)) == lon - 360 * inject_Z k)%Q.
Proof.
  unfold normalize. cbn [Latitude Longitude].
  split; [reflexivity|].
  set (x := ((lon + 180) / 360)%Q).
  assert (Hx : (x * 360 == lon + 180)%Q) by (unfold x; field).
  pose proof (Qfloor_le x) as H1.
  pose proof (Qlt_floor x) as H2.
  rewrite inject_Z_plus in H2. change (inject_Z 1) with 1%Q in H2.
  assert (E : (fsub lon (fmul 360 (inject_Z (Qfloor x)))
               == lon - 360 * inject_Z (Qfloor x))%Q).
  { unfold fsub, fmul. rewrite !Qred_correct. reflexivity. }
  split; [rewrite E; lra|].
  split; [rewrite E; lra|].
  exists (Qfloor x). exact E.
Qed.

(** C9.  For a compact coordinate text made of N or S, six digits, a blank,
    E or W and seven digits: the call succeeds; each axis is the value of
    degrees, minutes and seconds obtained from the packed number [v] as
    [v / 10000], [v mod 10000 / 100] and [v mod 100], which are the numbers
    written by the leading two (three) digits, the next two and the last two
    digits of the run; the axis is negated exactly for S and for W; the
    longitude is then brought into [-180, 180) by whole turns and the
    latitude is left as it is.  In numbers: with [deg v] the degrees
    [v / 10000 + (v mod 10000 / 100) / 60 + (v mod 100) / 3600], which are
    not negative, the latitude is [deg v1] for N and [- deg v1] for S, and
    the longitude is [deg v2] for E and [- deg v2] for W, up to whole
    turns. *)
Theorem ParseCoordsTNP_compact : forall h1 h2 d1 d2,
  h1 = "N"%char \/ h1 = "S"%char ->
  h2 = "E"%char \/ h2 = "W"%char ->
  Forall (fun c => is_digit c = true) d1 -> length d1 = 6%nat ->
  Forall (fun c => is_digit c = true) d2 -> length d2 = 7%nat ->
  let v1 := digits_value d1 in
  let v2 := digits_value d2 in
  let lat := hemisphere (Ascii.eqb h1 "S")
               (Angle_dms (of_Z (v1 / 10000)) (of_Z (v1 mod 10000 / 100))
                          (of_Z (v1 mod 100))) in
  let lon := hemisphere (Ascii.eqb h2 "W")
               (Angle_dms (of_Z (v2 / 10000)) (of_Z (v2 mod 10000 / 100))
                          (of_Z (v2 mod 100))) in
  let point := normalize (mkGeoPoint lat lon) in
  let deg := fun v : Z =>
    (inject_Z (v / 10000) + inject_Z (v mod 10000 / 100) / 60
     + inject_Z (v mod 100) / 3600)%Q in
  ParseCoordsTNP (h1 :: d1 ++ " "%char :: h2 :: d2) = Ret (true, point) /\
  (v1 / 10000 = digits_value (firstn 2 d1) /\
   v1 mod 10000 / 100 = digits_value (firstn 2 (skipn 2 d1)) /\
   v1 mod 100 = digits_value (skipn 4 d1)) /\
  (v2 / 10000 = digits_value (firstn 3 d2) /\
   v2 mod 10000 / 100 = digits_value (firstn 2 (skipn 3 d2)) /\
   v2 mod 100 = digits_value (skipn 5 d2)) /\
  Latitude point = lat /\
  (-180 <= Longitude point)%Q /\ (Longitude point < 180)%Q /\
  (exists k : Z, (Longitude point == lon - 360 * inject_Z k)%Q) /\
  (0 <= deg v1)%Q /\ (0 <= deg v2)%Q /\
  (h1 = "N"%char -> (Latitude point == deg v1)%Q) /\
  (h1 = "S"%char -> (Latitude point == - deg v1)%Q) /\
  (h2 = "E"%char ->
   exists k : Z, (Longitude point == deg v2 - 360 * inject_Z k)%Q) /\
  (h2 = "W"%char ->
   exists k : Z, (Longitude point == - deg v2 - 360 * inject_Z k)%Q).
Proof.
  intros h1 h2 d1 d2 Hh1 Hh2 Hd1 Hl1 Hd2 Hl2 v1 v2 lat lon point deg.
  pose proof (digits_value_bound d1 Hd1) as Hb1. rewrite Hl1 in Hb1.
  pose proof (digits_value_bound d2 Hd2) as Hb2. rewrite Hl2 in Hb2.
  change (10 ^ Z.of_nat 6) with 1000000 in Hb1.
  change (10 ^ Z.of_nat 7) with 10000000 in Hb2.
  fold v1 in Hb1. fold v2 in Hb2.
  split.
  - unfold ParseCoordsTNP.
    rewrite (tcstol_run d1 (" "%char :: h2 :: d2)); try assumption;
      [| intros ->; discriminate Hl1 | lia | reflexivity].
    fold v1.
    rewrite split_dms_nonneg
      by (unfold LONG_MAX; change (2 ^ 31 - 1) with 2147483647; lia).
    cbn [bind]. unfold skip_one_space. cbn [deref tl]. cbn [Ascii.eqb Bool.eqb].
    rewrite <- (app_nil_r d2) at 1.
    rewrite (tcstol_run d2 []); try assumption;
      [| intros ->; discriminate Hl2 | lia | reflexivity].
    fold v2.
    rewrite split_dms_nonneg
      by (unfold LONG_MAX; change (2 ^ 31 - 1) with 2147483647; lia).
    cbn [bind]. unfold point, lat, lon, hemisphere.
    destruct Hh1 as [-> | ->]; destruct Hh2 as [-> | ->]; reflexivity.
  - split.
    { clear Hb1. subst v1.
      destruct d1 as [|a [|b [|c [|d [|e [|f [|g r]]]]]]]; try discriminate Hl1.
      repeat match goal with
      | H : Forall _ (_ :: _) |- _ => inversion H; subst; clear H
      end.
      repeat match goal with
      | H : is_digit _ = true |- _ => apply digit_val_range in H
      end.
      unfold digits_value. cbn [firstn skipn fold_left].
      pose proof (packed_split (10 * (10 * 0 + digit_val a) + digit_val b)
                    (10 * (10 * 0 + digit_val c) + digit_val d)
                    (10 * (10 * 0 + digit_val e) + digit_val f)
                    ltac:(lia) ltac:(lia)) as Hs.
      cbv zeta in Hs.
      match type of Hs with
      | ?x / _ = _ /\ _ =>
          match goal with
          | |- ?y / _ = _ /\ _ => replace y with x by ring
          end
      end.
      exact Hs. }
    split.
    { clear Hb2. subst v2.
      destruct d2 as [|a [|b [|c [|d [|e [|f [|g [|h r]]]]]]]]; try discriminate Hl2.
      repeat match goal with
      | H : Forall _ (_ :: _) |- _ => inversion H; subst; clear H
      end.
      repeat match goal with
      | H : is_digit _ = true |- _ => apply digit_val_range in H
      end.
      unfold digits_value. cbn [firstn skipn fold_left].
      pose proof (packed_split
                    (10 * (10 * (10 * 0 + digit_val a) + digit_val b) + digit_val c)
                    (10 * (10 * 0 + digit_val d) + digit_val e)
                    (10 * (10 * 0 + digit_val f) + digit_val g)
                    ltac:(lia) ltac:(lia)) as Hs.
      cbv zeta in Hs.
      match type of Hs with
      | ?x / _ = _ /\ _ =>
          match goal with
          | |- ?y / _ = _ /\ _ => replace y with x by ring
          end
      end.
      exact Hs. }
    destruct (normalize_longitude lat lon) as (N1 & N2 & N3 & k & N4).
    fold point in N1, N2, N3, N4.
    assert (Hdeg : forall v : Z,
              (Angle_dms (of_Z (v / 10000)) (of_Z (v mod 10000 / 100))
                         (of_Z (v mod 100)) == deg v)%Q).
    { intros v. unfold Angle_dms, Angle_degrees, of_Z, fadd, fdiv, deg.
      rewrite !Qred_correct. reflexivity. }
    assert (Hpos : forall v : Z, 0 <= v -> (0 <= deg v)%Q).
    { intros v Hv. unfold deg.
      assert (A : (0 <= inject_Z (v / 10000))%Q).
      { change 0%Q with (inject_Z 0). rewrite <- Zle_Qle.
        apply Z.div_pos; lia. }
      assert (B : (0 <= inject_Z (v mod 10000 / 100))%Q).
      { change 0%Q with (inject_Z 0). rewrite <- Zle_Qle.
        apply Z.div_pos; [apply Z.mod_pos_bound|]; lia. }
      assert (C : (0 <= inject_Z (v mod 100))%Q).
      { change 0%Q with (inject_Z 0). rewrite <- Zle_Qle.
        apply Z.mod_pos_bound. lia. }
      assert (B' : (0 <= inject_Z (v mod 10000 / 100) / 60)%Q)
        by (apply Qle_shift_div_l; [reflexivity|lra]).
      assert (C' : (0 <= inject_Z (v mod 100) / 3600)%Q)
        by (apply Qle_shift_div_l; [reflexivity|lra]).
      lra. }
    assert (Hflip : forall a : Q, (flip a == - a)%Q)
      by (intros a; unfold flip, fneg; apply Qred_correct).
    split; [exact N1|]. split; [exact N2|]. split; [exact N3|].
    split; [exists k; exact N4|].
    split; [apply Hpos; lia|]. split; [apply Hpos; lia|].
    split; [|split; [|split]].
    + intros ->. rewrite N1. unfold lat, hemisphere. cbn [Ascii.eqb Bool.eqb].
      apply Hdeg.
    + intros ->. rewrite N1. unfold lat, hemisphere. cbn [Ascii.eqb Bool.eqb].
      rewrite Hflip, Hdeg. reflexivity.
    + intros ->. exists k. rewrite N4. unfold lon, hemisphere.
      cbn [Ascii.eqb Bool.eqb]. rewrite Hdeg. reflexivity.
    + intros ->. exists k. rewrite N4. unfold lon, hemisphere.
      cbn [Ascii.eqb Bool.eqb]. rewrite Hflip, Hdeg. reflexivity.
Qed.

(** ** The arc between two points *)

Lemma fgt_spec (x y : fixed) : fgt x y = true <-> (y < x)%Q.
Proof.
  unfold fgt. rewrite negb_true_iff.
  destruct (Qle_bool x y) eqn:E.
  - apply Qle_bool_iff in E. split; [discriminate|]. intros H. lra.
  - split; [|reflexivity]. intros _.
    destruct (Qlt_le_dec y x) as [H|H]; [assumption|].
    apply Qle_bool_iff in H. congruence.
Qed.

Lemma as_bearing_eq (x : Angle) :
  (as_bearing x == x - 360 * inject_Z (Qfloor (x / 360)))%Q.
Proof. unfold as_bearing, fsub, fmul. rewrite !Qred_correct. reflexivity. Qed.

Lemma floor_bounds (x c : Q) :
  (0 < c)%Q ->
  (c * inject_Z (Qfloor (x / c)) <= x)%Q /\
  (x < c * inject_Z (Qfloor (x / c)) + c)%Q.
Proof.
  intros Hc.
  set (y := (x / c)%Q).
  assert (Hy : (y * c == x)%Q) by (unfold y; field; lra).
  pose proof (Qfloor_le y) as H1.
  pose proof (Qlt_floor y) as H2.
  rewrite inject_Z_plus in H2. change (inject_Z 1) with 1%Q in H2.
  split; nra.
Qed.

Lemma as_bearing_range (x : Angle) :
  (0 <= as_bearing x)%Q /\ (as_bearing x < 360)%Q.
Proof.
  rewrite as_bearing_eq.
  destruct (floor_bounds x 360 ltac:(lra)) as [H1 H2]. split; lra.
Qed.

Lemma inject_Z_between (a b : Z) :
  (inject_Z a < inject_Z b + 1)%Q -> (inject_Z b < inject_Z a + 1)%Q -> a = b.
Proof.
  intros H1 H2.
  change 1%Q with (inject_Z 1) in H1, H2.
  rewrite <- inject_Z_plus in H1, H2.
  rewrite <- Zlt_Qlt in H1, H2. lia.
Qed.

Lemma as_bearing_unique (x z : Angle) (j : Z) :
  (0 <= z)%Q -> (z < 360)%Q -> (z == x - 360 * inject_Z j)%Q ->
  (as_bearing x == z)%Q.
Proof.
  intros H0 H1 Hz.
  destruct (as_bearing_range x) as [R0 R1].
  pose proof (as_bearing_eq x) as He.
  assert (Hj : Qfloor (x / 360) = j).
  { apply inject_Z_between; lra. }
  rewrite He, Hj, Hz. reflexivity.
Qed.

Lemma iter_form (S0 step : Q) : forall k,
  exists j : Z,
    (Nat.iter k (turn step) S0
     == S0 + inject_Z (Z.of_nat k) * step - 360 * inject_Z j)%Q.
Proof.
  induction k as [|k [j IH]].
  - exists 0. unfold Nat.iter. cbn [nat_rect Z.of_nat].
    change (inject_Z 0) with 0%Q. ring.
  - exists (j + Qfloor (fadd (Nat.iter k (turn step) S0) step / 360)).
    rewrite Nat.iter_succ. unfold turn at 1.
    rewrite as_bearing_eq.
    set (f := Qfloor (fadd (Nat.iter k (turn step) S0) step / 360)).
    unfold fadd. rewrite Qred_correct, IH.
    rewrite Nat2Z.inj_succ. unfold Z.succ. rewrite !inject_Z_plus.
    change (inject_Z 1) with 1%Q. ring.
Qed.

Lemma iter_reach (S0 step : Q) (m : nat) (z : Q) (J : Z) :
  (1 <= m)%nat -> (0 <= z)%Q -> (z < 360)%Q ->
  (z == S0 + inject_Z (Z.of_nat m) * step - 360 * inject_Z J)%Q ->
  (Nat.iter m (turn step) S0 == z)%Q.
Proof.
  intros Hm H0 H1 Hz.
  destruct m as [|k]; [lia|].
  destruct (iter_form S0 step k) as [j Hk].
  rewrite Nat.iter_succ. unfold turn at 1.
  apply (as_bearing_unique _ _ (J - j)); try assumption.
  unfold fadd. rewrite Qred_correct, Hk, Hz.
  rewrite Nat2Z.inj_succ. unfold Z.succ, Z.sub. rewrite !inject_Z_plus, inject_Z_opp.
  change (inject_Z 1) with 1%Q. ring.
Qed.

Lemma floor_range (d : Q) :
  (0 <= d)%Q -> (d < 360)%Q ->
  0 <= Qfloor (d / 5) <= 71.
Proof.
  intros H0 H1.
  destruct (floor_bounds d 5 ltac:(lra)) as [F1 F2].
  assert (A : (inject_Z (-1) < inject_Z (Qfloor (d / 5)))%Q).
  { change (inject_Z (-1)) with (-1)%Q. lra. }
  assert (B : (inject_Z (Qfloor (d / 5)) < inject_Z 72)%Q).
  { change (inject_Z 72) with 72%Q. lra. }
  rewrite <- Zlt_Qlt in A, B. lia.
Qed.

Lemma arc_stop_exists (S0 E step : Q) :
  step = 5%Q \/ step = (-5)%Q ->
  (0 <= E)%Q -> (E < 360)%Q ->
  exists m, (1 <= m <= 72)%nat /\
            (Qabs (E - Nat.iter m (turn step) S0) <= 5)%Q.
Proof.
  intros Hstep E0 E1.
  destruct Hstep as [-> | ->].
  - set (d := as_bearing (E - S0)%Q).
    destruct (as_bearing_range (E - S0)%Q) as [D0 D1]. fold d in D0, D1.
    pose proof (as_bearing_eq (E - S0)%Q) as Hd. fold d in Hd.
    set (j0 := Qfloor ((E - S0) / 360)%Q) in Hd.
    destruct (floor_bounds d 5 ltac:(lra)) as [F1 F2].
    pose proof (floor_range d D0 D1) as Hk.
    set (k0 := Qfloor (d / 5)%Q) in *.
    destruct (Qlt_le_dec (E - (d - 5 * inject_Z k0))%Q 0%Q) as [Hneg | Hpos].
    + exists (Z.to_nat (k0 + 1)). split; [lia|].
      rewrite (iter_reach S0 (5)%Q (Z.to_nat (k0 + 1)) (E - (d - 5 * inject_Z k0) + 5)%Q (- j0)).
      * apply Qabs_Qle_condition. split; lra.
      * lia.
      * lra.
      * lra.
      * rewrite Z2Nat.id by lia. rewrite inject_Z_plus, inject_Z_opp.
        change (inject_Z 1) with 1%Q. rewrite Hd. ring.
    + destruct (Z.eq_dec k0 0) as [Hz | Hnz].
      * exists 72%nat. split; [lia|].
        rewrite (iter_reach S0 (5)%Q 72 (E - (d - 5 * inject_Z k0))%Q (1 - j0)).
        -- apply Qabs_Qle_condition. split; lra.
        -- lia.
        -- lra.
        -- lra.
        -- rewrite Hz. unfold Z.sub. rewrite inject_Z_plus, inject_Z_opp.
           change (inject_Z (Z.of_nat 72)) with 72%Q.
           change (inject_Z 1) with 1%Q. change (inject_Z 0) with 0%Q.
           rewrite Hd. ring.
      * exists (Z.to_nat k0). split; [lia|].
        rewrite (iter_reach S0 (5)%Q (Z.to_nat k0) (E - (d - 5 * inject_Z k0))%Q (- j0)).
        -- apply Qabs_Qle_condition. split; lra.
        -- lia.
        -- lra.
        -- lra.
        -- rewrite Z2Nat.id by lia. rewrite inject_Z_opp. rewrite Hd. ring.
  - set (d := as_bearing (S0 - E)%Q).
    destruct (as_bearing_range (S0 - E)%Q) as [D0 D1]. fold d in D0, D1.
    pose proof (as_bearing_eq (S0 - E)%Q) as Hd. fold d in Hd.
    set (j0 := Qfloor ((S0 - E) / 360)%Q) in Hd.
    destruct (floor_bounds d 5 ltac:(lra)) as [F1 F2].
    pose proof (floor_range d D0 D1) as Hk.
    set (k0 := Qfloor (d / 5)%Q) in *.
    destruct (Qlt_le_dec (E + (d - 5 * inject_Z k0))%Q 360%Q) as [Hlt | Hge].
    + destruct (Z.eq_dec k0 0) as [Hz | Hnz].
      * exists 72%nat. split; [lia|].
        rewrite (iter_reach S0 (-5)%Q 72 (E + (d - 5 * inject_Z k0))%Q (j0 - 1)).
        -- apply Qabs_Qle_condition. split; lra.
        -- lia.
        -- lra.
        -- lra.
        -- rewrite Hz. unfold Z.sub. rewrite inject_Z_plus, inject_Z_opp.
           change (inject_Z (Z.of_nat 72)) with 72%Q.
           change (inject_Z 1) with 1%Q. change (inject_Z 0) with 0%Q.
           rewrite Hd. ring.
      * exists (Z.to_nat k0). split; [lia|].
        rewrite (iter_reach S0 (-5)%Q (Z.to_nat k0) (E + (d - 5 * inject_Z k0))%Q j0).
        -- apply Qabs_Qle_condition. split; lra.
        -- lia.
        -- lra.
        -- lra.
        -- rewrite Z2Nat.id by lia. rewrite Hd. ring.
    + exists (Z.to_nat (k0 + 1)). split; [lia|].
      rewrite (iter_reach S0 (-5)%Q (Z.to_nat (k0 + 1)) (E + (d - 5 * inject_Z k0) - 5)%Q j0).
      * apply Qabs_Qle_condition. split; lra.
      * lia.
      * lra.
      * lra.
      * rewrite Z2Nat.id by lia. rewrite inject_Z_plus.
        change (inject_Z 1) with 1%Q. rewrite Hd. ring.
Qed.

Lemma arc_continues_false (E b : Q) :
  arc_continues E b = false <-> (Qabs (E - b) <= 7.5)%Q.
Proof.
  unfold arc_continues, magnitude_degrees, fixed_7_5.
  assert (Hm : (fabs (fsub E b) == Qabs (E - b))%Q).
  { unfold fabs, fsub. rewrite Qred_correct.
    apply Qabs_wd. apply Qred_correct. }
  pose proof (fgt_spec (fabs (fsub E b)) 7.5%Q) as Hs.
  destruct (fgt (fabs (fsub E b)) 7.5%Q).
  - split; [discriminate|]. intros H.
    assert (7.5 < fabs (fsub E b))%Q by (apply Hs; reflexivity). lra.
  - split; [|reflexivity]. intros _.
    destruct (Qlt_le_dec 7.5%Q (Qabs (E - b))) as [H|H]; [|exact H].
    assert (Hc : false = true) by (apply Hs; lra). discriminate Hc.
Qed.


(** The first round at which a test fails, when it fails at some round *)
Lemma first_false (P : nat -> bool) : forall m,
  P m = false ->
  exists n, (n <= m)%nat /\ P n = false /\ forall k, (k < n)%nat -> P k = true.
Proof.
  induction m as [m IH] using lt_wf_ind. intros Hm.
  destruct (forallb P (seq 0 m)) eqn:Hall.
  - exists m. split; [lia|]. split; [exact Hm|].
    intros k Hk. rewrite forallb_forall in Hall.
    apply Hall. apply in_seq. lia.
  - assert (Hex : exists k, (k < m)%nat /\ P k = false).
    { clear IH Hm. induction m as [|m IHm]; [discriminate Hall|].
      rewrite seq_S, forallb_app in Hall. cbn [forallb Nat.add] in Hall.
      destruct (forallb P (seq 0 m)) eqn:Hm.
      - exists m. split; [lia|]. destruct (P m); [discriminate Hall|reflexivity].
      - destruct (IHm eq_refl) as (k & Hk & Hp). exists k. split; [lia|exact Hp]. }
    destruct Hex as (k & Hk & Hp).
    destruct (IH k Hk Hp) as (n & Hn & Hpn & Hbefore).
    exists n. split; [lia|]. split; assumption.
Qed.


Lemma arc_loop_run (C : GeoPoint) (R : fixed) (step E : Q) : forall n fuel b pts,
  (forall k, (k < n)%nat -> arc_continues E (Nat.iter k (turn step) b) = true) ->
  arc_continues E (Nat.iter n (turn step) b) = false ->
  (n < fuel)%nat ->
  arc_loop fuel C R step E b pts
  = Ret (pts ++ map (fun k => FindLatitudeLongitude C (Nat.iter k (turn step) b) R)
                    (seq 1 n)).
Proof.
  induction n as [|n IH]; intros fuel b pts Hbefore Hstop Hfuel.
  - destruct fuel as [|fuel]; [lia|].
    cbn [arc_loop]. change (Nat.iter 0 (turn step) b) with b in Hstop.
    rewrite Hstop. cbn [seq map]. rewrite app_nil_r. reflexivity.
  - destruct fuel as [|fuel]; [lia|].
    cbn [arc_loop].
    pose proof (Hbefore 0%nat ltac:(lia)) as H0.
    change (Nat.iter 0 (turn step) b) with b in H0. rewrite H0.
    fold (turn step b).
    rewrite (IH fuel (turn step b)).
    + rewrite <- app_assoc. f_equal. f_equal.
      cbn [seq map app]. f_equal.
      rewrite <- (seq_shift n 1), map_map.
      apply map_ext. intros k. rewrite Nat.iter_succ_r. reflexivity.
    + intros k Hk. rewrite <- Nat.iter_succ_r. apply Hbefore. lia.
    + rewrite <- Nat.iter_succ_r. exact Hstop.
    + lia.
Qed.

Lemma BearingStep_sign (t : TempAirspaceType) :
  (Rotation t = 1 -> BearingStep t = 5%Q) /\
  (Rotation t = -1 -> BearingStep t = (-5)%Q).
Proof. unfold BearingStep. split; intros ->; reflexivity. Qed.


End Properties.

(** * The theorems at concrete input *)


Lemma scan_token_UNL_witness :
  scan_token (U := si_units) AirspaceAltitude_init false (cs "unl")
  = (mkAlt 50000%Q fixed_zero fixed_minus_one MSL, false, []).
Proof.
  exact (proj1 (scan_token_UNL (U := si_units) AirspaceAltitude_init false
                  (cs "unl") eq_refl)).
Defined.

(** C5 fails as it is stated: on "UNL" the scan reads behind the NUL and
    there is no result; and where the scan ends inside the string, on
    "UNL ", the altitude is 50000 ft in metres, 15240, and the field above
    terrain is -0.3048, not 50000 and -1. *)
Lemma ReadAltitude_UNL_counterexample :
  ~ (exists a,
       ReadAltitude (U := si_units) (cs "UNL") = Ret a /\
       type a = MSL /\ altitude_above_terrain a = fixed_minus_one /\
       altitude a = 50000%Q) /\
  ReadAltitude (U := si_units) (cs "UNL ")
  = Ret (mkAlt 15240%Q fixed_zero (-381 # 1250)%Q MSL).
Proof.
  split; [|vm_compute; reflexivity].
  intros (a & H & _). vm_compute in H. discriminate H.
Qed.

Lemma ParseLineTNP_ignores_span_witness :
  Parse_loop (U := si_units) (G := grid_geodesy) always_continue 0
    (cs "INCLUDE=NO"
     :: map cs ["POINT=N542500 E0105000"; "TYPE=R"; "TITLE=X"]%string
     ++ cs "INCLUDE=YES" :: [])
    1 AFT_TNP (mkPState TempAirspaceType_new []) false
  = Ret (true, AFT_TNP, mkPState TempAirspaceType_new []).
Proof.
  apply (proj2 (proj2 (ParseLineTNP_ignores_span (U := si_units)
                         (G := grid_geodesy) always_continue 0
                         (mkPState TempAirspaceType_new [])))
           (map cs ["POINT=N542500 E0105000"; "TYPE=R"; "TITLE=X"]%string)
           [] 1%nat false).
  repeat constructor.
Defined.

Lemma emission_then_reset_witness :
  ParseLine (U := si_units) (G := grid_geodesy) 0 (cs "AC Q")
            (mkPState example_pending [])
  = Ret (true,
         mkPState (start_record (reset example_pending) DANGER)
                  (AddPolygon example_pending [])).
Proof.
  exact (proj1 (emission_then_reset (U := si_units) (G := grid_geodesy) 0
                  (mkPState example_pending []))
           (cs "AC Q") (cs "Q") eq_refl eq_refl eq_refl eq_refl).
Defined.

(** C3 fails as it is stated: the [AC] line that emits the pending record
    of the example leaves its name and its base and top altitudes in the
    accumulator, where a new accumulator has the empty name and undefined
    altitudes. *)
Lemma emission_keeps_name_counterexample :
  exists t',
    ParseLine (U := si_units) (G := grid_geodesy) 0 (cs "AC Q")
              (mkPState example_pending [])
    = Ret (true, mkPState t' (AddPolygon example_pending [])) /\
    Name t' = cs "Test" /\ Name TempAirspaceType_new = [] /\
    Base t' = mkAlt fixed_zero fixed_zero fixed_minus_one AGL /\
    Base TempAirspaceType_new = AirspaceAltitude_init /\
    Top t' = mkAlt fixed_zero fixed_zero fixed_zero FL /\
    Top TempAirspaceType_new = AirspaceAltitude_init /\
    Name t' <> Name TempAirspaceType_new /\
    Base t' <> Base TempAirspaceType_new /\
    Top t' <> Top TempAirspaceType_new.
Proof.
  exists (start_record (reset example_pending) DANGER).
  repeat split; try (vm_compute; reflexivity); vm_compute; discriminate.
Qed.

Lemma ParseCoordsTNP_compact_witness :
  ParseCoordsTNP (cs "S542500 W0105000")
  = Ret (true, mkGeoPoint (- (653 # 12))%Q (- (65 # 6))%Q) /\
  ParseCoordsTNP (cs "N542500 E0105000")
  = Ret (true, mkGeoPoint (653 # 12)%Q (65 # 6)%Q).
Proof.
  split.
  - apply (proj1 (ParseCoordsTNP_compact "S" "W" (cs "542500") (cs "0105000")
                    (or_intror eq_refl) (or_intror eq_refl)
                    ltac:(repeat constructor) eq_refl
                    ltac:(repeat constructor) eq_refl)).
  - apply (proj1 (ParseCoordsTNP_compact "N" "E" (cs "542500") (cs "0105000")
                    (or_introl eq_refl) (or_introl eq_refl)
                    ltac:(repeat constructor) eq_refl
                    ltac:(repeat constructor) eq_refl)).
Defined.


(** * More of the parser *)

Section Coverage.
Context {U : UnitsService} {G : Geodesy}.
Variable ShowParseWarning : nat -> list ascii -> bool.

Ltac break_bind H :=
  match type of H with
  | context [bind ?m _] => let E := fresh "E" in destruct m eqn:E; cbn [bind] in H
  end.

Ltac break_if H :=
  match type of H with
  | context [if ?b then _ else _] => let E := fresh "E" in destruct b eqn:E
  | context [match ?x with _ => _ end] => let E := fresh "E" in destruct x eqn:E
  end.

Lemma arc_loop_Ret_Rotation fuel Start End_ t t1 :
  AddArc fuel Start End_ t = Ret t1 ->
  Rotation t1 = Rotation t /\ Center t1 = Center t /\ Waiting t1 = Waiting t.
Proof.
  unfold AddArc. intros H. break_bind H; try discriminate H.
  inversion H; subst. repeat split.
Qed.

Lemma CalculateSector_keeps fuel Text t t1 :
  CalculateSector fuel Text t = Ret t1 ->
  Rotation t1 = Rotation t /\ Center t1 = Center t /\ Waiting t1 = Waiting t.
Proof.
  unfold CalculateSector. intros H.
  repeat (break_if H; try discriminate H).
  break_bind H; try discriminate H.
  inversion H; subst. repeat split.
Qed.

Lemma CalculateArc_keeps fuel Text t t1 :
  CalculateArc fuel Text t = Ret t1 ->
  Rotation t1 = Rotation t /\ Center t1 = Center t /\ Waiting t1 = Waiting t.
Proof.
  unfold CalculateArc. intros H.
  repeat (break_if H; try discriminate H);
    try (inversion H; subst; repeat split; fail);
    eapply arc_loop_Ret_Rotation; eassumption.
Qed.


Lemma ParseArcTNP_keeps fuel Text t ok t1 :
  ParseArcTNP fuel Text t = Ret (ok, t1) ->
  Rotation t1 = Rotation t /\ Waiting t1 = Waiting t.
Proof.
  unfold ParseArcTNP. intros H.
  repeat first [ break_bind H; try discriminate H
               | break_if H; try discriminate H ];
    try (inversion H; subst; split; reflexivity).
  inversion H; subst.
  match goal with
  | E : AddArc _ _ _ _ = Ret _ |- _ =>
      apply arc_loop_Ret_Rotation in E; destruct E as (R1 & _ & R2)
  end.
  split; [rewrite R1|rewrite R2]; reflexivity.
Qed.

Lemma ParseCircleTNP_keeps Text t ok t1 :
  ParseCircleTNP Text t = Ret (ok, t1) ->
  Rotation t1 = Rotation t /\ Waiting t1 = Waiting t.
Proof.
  unfold ParseCircleTNP. intros H.
  repeat first [ break_bind H; try discriminate H
               | break_if H; try discriminate H ];
    inversion H; subst; split; reflexivity.
Qed.

Lemma line_database fuel line s ok s' :
  (ParseLine fuel line s = Ret (ok, s') \/
   exists ignore ignore',
     ParseLineTNP fuel line s ignore = Ret (ok, s', ignore')) ->
  airspace_database s' = airspace_database s \/
  exists a, airspace_database s' = airspace_database s ++ [a].
Proof.
  intros [H | (ignore & ignore' & H)].
  - unfold ParseLine in H.
    repeat first [ break_bind H; try discriminate H
                 | break_if H; try discriminate H ];
      inversion H; subst; cbn [airspace_database with_temp];
      first [ left; reflexivity | right; eexists; reflexivity ].
  - unfold ParseLineTNP in H.
    repeat first [ break_bind H; try discriminate H
                 | break_if H; try discriminate H ];
      inversion H; subst; cbn [airspace_database with_temp];
      first [ left; reflexivity | right; eexists; reflexivity ].
Qed.


Lemma sector_loop_run (C : GeoPoint) (R : fixed) (step E : Q) : forall n fuel b pts,
  (forall k, (k < n)%nat -> arc_continues E (Nat.iter k (turn step) b) = true) ->
  arc_continues E (Nat.iter n (turn step) b) = false ->
  (n < fuel)%nat ->
  sector_loop fuel C R step E b pts
  = Ret (pts ++ map (fun k => FindLatitudeLongitude C (Nat.iter k (turn step) b) R)
                    (seq 0 n)).
Proof.
  induction n as [|n IH]; intros fuel b pts Hbefore Hstop Hfuel.
  - destruct fuel as [|fuel]; [lia|].
    cbn [sector_loop]. change (Nat.iter 0 (turn step) b) with b in Hstop.
    rewrite Hstop. cbn [seq map]. rewrite app_nil_r. reflexivity.
  - destruct fuel as [|fuel]; [lia|].
    cbn [sector_loop].
    pose proof (Hbefore 0%nat ltac:(lia)) as H0.
    change (Nat.iter 0 (turn step) b) with b in H0. rewrite H0.
    fold (turn step b).
    rewrite (IH fuel (turn step b)).
    + rewrite <- app_assoc. f_equal. f_equal.
      cbn [seq map app]. f_equal.
      rewrite <- (seq_shift n 0), map_map.
      apply map_ext. intros k. rewrite Nat.iter_succ_r. reflexivity.
    + intros k Hk. rewrite <- Nat.iter_succ_r. apply Hbefore. lia.
    + rewrite <- Nat.iter_succ_r. exact Hstop.
    + lia.
Qed.

(** The number of rounds after which a stepping loop stops *)
Lemma stepping_stops (S0 E step : Q) :
  step = 5%Q \/ step = (-5)%Q ->
  (0 <= E)%Q -> (E < 360)%Q ->
  exists n, (n <= 72)%nat /\
    arc_continues E (Nat.iter n (turn step) S0) = false /\
    forall k, (k < n)%nat -> arc_continues E (Nat.iter k (turn step) S0) = true.
Proof.
  intros Hstep E0 E1.
  destruct (arc_stop_exists S0 E step Hstep E0 E1) as (m & Hm & Hclose).
  assert (Hstop : arc_continues E (Nat.iter m (turn step) S0) = false)
    by (apply arc_continues_false; lra).
  destruct (first_false (fun k => arc_continues E (Nat.iter k (turn step) S0))
              m Hstop) as (n & Hn & Hpn & Hbefore).
  exists n. split; [lia|]. split; assumption.
Qed.

Lemma BearingStep_of_Rotation_ok (t : TempAirspaceType) :
  Rotation_ok t -> BearingStep t = 5%Q \/ BearingStep t = (-5)%Q.
Proof.
  destruct (BearingStep_sign t) as [H1 H2].
  intros [H | H]; [left; apply H1|right; apply H2]; exact H.
Qed.

Lemma ParseLine_Rotation_ok fuel line s ok s' :
  ParseLine fuel line s = Ret (ok, s') ->
  Rotation_ok (temp_area s) -> Rotation_ok (temp_area s').
Proof.
  unfold ParseLine. intros H Hr.
  repeat first [ break_bind H; try discriminate H
               | break_if H; try discriminate H ];
    inversion H; subst; cbn [temp_area with_temp]; try exact Hr;
    try (unfold Rotation_ok; cbn; auto; fail);
    repeat match goal with
    | E : CalculateSector _ _ _ = Ret _ |- _ =>
        apply CalculateSector_keeps in E; destruct E as (? & _ & _)
    | E : CalculateArc _ _ _ = Ret _ |- _ =>
        apply CalculateArc_keeps in E; destruct E as (? & _ & _)
    end;
    match goal with
    | R : Rotation ?x = _ |- Rotation_ok ?x =>
        unfold Rotation_ok in *; rewrite R; exact Hr
    end.
Qed.

Lemma ParseLineTNP_Rotation_ok fuel line s ignore ok s' ignore' :
  ParseLineTNP fuel line s ignore = Ret (ok, s', ignore') ->
  Rotation_ok (temp_area s) -> Rotation_ok (temp_area s').
Proof.
  unfold ParseLineTNP. intros H Hr.
  repeat first [ break_bind H; try discriminate H
               | break_if H; try discriminate H ];
    inversion H; subst; cbn [temp_area with_temp]; try exact Hr;
    try (unfold Rotation_ok; cbn; auto; fail);
    repeat match goal with
    | E : ParseArcTNP _ _ _ = Ret _ |- _ =>
        apply ParseArcTNP_keeps in E; destruct E as (? & _)
    | E : ParseCircleTNP _ _ = Ret _ |- _ =>
        apply ParseCircleTNP_keeps in E; destruct E as (? & _)
    end;
    match goal with
    | R : Rotation ?x = _ |- Rotation_ok ?x =>
        unfold Rotation_ok in *; rewrite R; cbn; auto
    end.
Qed.

(** What every line keeps, carried through the loop of the driver *)
Lemma Parse_loop_keeps (fuel : nat) : forall lines LineCount filetype s ignore ok filetype' s',
  Parse_loop ShowParseWarning fuel lines LineCount filetype s ignore
  = Ret (ok, filetype', s') ->
  (Rotation_ok (temp_area s) -> Rotation_ok (temp_area s')) /\
  (filetype <> AFT_UNKNOWN -> filetype' = filetype) /\
  exists l, airspace_database s' = airspace_database s ++ l /\
            (length l <= length lines)%nat.
Proof.
  induction lines as [|raw rest IH]; intros n ft s ig ok ft' s' H.
  - cbn [Parse_loop] in H. inversion H; subst.
    split; [auto|]. split; [auto|]. exists []. rewrite app_nil_r. split; [reflexivity|cbn; lia].
  - cbn [Parse_loop] in H.
    assert (Hskip : forall ft0,
      Parse_loop ShowParseWarning fuel rest (S n) ft0 s ig = Ret (ok, ft', s') ->
      (ft <> AFT_UNKNOWN -> ft0 = ft) ->
      (Rotation_ok (temp_area s) -> Rotation_ok (temp_area s')) /\
      (ft <> AFT_UNKNOWN -> ft' = ft) /\
      exists l, airspace_database s' = airspace_database s ++ l /\
                (length l <= length (raw :: rest))%nat).
    { intros ft0 H0 Hft. destruct (IH _ _ _ _ _ _ _ H0) as (A & B & l & C & D).
      split; [exact A|]. split.
      - intros Hne. specialize (Hft Hne). subst ft0. apply B. exact Hne.
      - exists l. split; [exact C|cbn [length]; lia]. }
    destruct (string_is_empty (strip_comment raw)).
    { apply (Hskip ft H). auto. }
    set (ft1 := match ft with AFT_UNKNOWN => DetectFileType (strip_comment raw) | _ => ft end) in H.
    assert (Hft1 : ft <> AFT_UNKNOWN -> ft1 = ft)
      by (intros Hne; unfold ft1; destruct ft; congruence).
    destruct ft1 eqn:E1.
    + apply (Hskip AFT_UNKNOWN H). exact Hft1.
    + destruct (ParseLine fuel (strip_comment raw) s) as [[ok1 s1]| | |] eqn:EL;
        cbn [bind] in H; try discriminate H.
      pose proof (ParseLine_Rotation_ok _ _ _ _ _ EL) as HR.
      pose proof (line_database _ _ _ _ _ (or_introl EL)) as HD.
      destruct (negb ok1 && negb (ShowParseWarning n (strip_comment raw)))%bool.
      * inversion H; subst. split; [exact HR|]. split; [exact Hft1|].
        destruct HD as [HD | [a HD]]; rewrite HD.
        -- exists []. rewrite app_nil_r. split; [reflexivity|cbn; lia].
        -- exists [a]. split; [reflexivity|cbn; lia].
      * destruct (IH _ _ _ _ _ _ _ H) as (A & B & l & C & D).
        split; [auto|]. split.
        -- intros Hne. rewrite (B ltac:(discriminate)). apply Hft1. exact Hne.
        -- destruct HD as [HD | [a HD]]; rewrite C, HD.
           ++ exists l. split; [reflexivity|cbn [length]; lia].
           ++ exists (a :: l). rewrite <- app_assoc. split; [reflexivity|cbn [length]; lia].
    + destruct (ParseLineTNP fuel (strip_comment raw) s ig) as [[[ok1 s1] ig1]| | |] eqn:EL;
        cbn [bind] in H; try discriminate H.
      pose proof (ParseLineTNP_Rotation_ok _ _ _ _ _ _ _ EL) as HR.
      pose proof (line_database _ _ _ _ _
                    (or_intror (ex_intro _ ig (ex_intro _ ig1 EL)))) as HD.
      destruct (negb ok1 && negb (ShowParseWarning n (strip_comment raw)))%bool.
      * inversion H; subst. split; [exact HR|]. split; [exact Hft1|].
        destruct HD as [HD | [a HD]]; rewrite HD.
        -- exists []. rewrite app_nil_r. split; [reflexivity|cbn; lia].
        -- exists [a]. split; [reflexivity|cbn; lia].
      * destruct (IH _ _ _ _ _ _ _ H) as (A & B & l & C & D).
        split; [auto|]. split.
        -- intros Hne. rewrite (B ltac:(discriminate)). apply Hft1. exact Hne.
        -- destruct HD as [HD | [a HD]]; rewrite C, HD.
           ++ exists l. split; [reflexivity|cbn [length]; lia].
           ++ exists (a :: l). rewrite <- app_assoc. split; [reflexivity|cbn [length]; lia].
Qed.

Lemma Parse_loop_skips_undetected (fuel : nat) (rest : list (list ascii))
    (s : PState) (ignore : bool) : forall pre LineCount,
  Forall undetected pre ->
  Parse_loop ShowParseWarning fuel (pre ++ rest) LineCount AFT_UNKNOWN s ignore
  = Parse_loop ShowParseWarning fuel rest (LineCount + length pre)
      AFT_UNKNOWN s ignore.
Proof.
  induction pre as [|raw pre IH]; intros n Hall.
  - cbn [app length]. rewrite Nat.add_0_r. reflexivity.
  - inversion Hall as [|? ? Hraw Hpre]; subst.
    cbn [app length Parse_loop].
    replace (n + S (length pre))%nat with (S n + length pre)%nat by lia.
    destruct Hraw as [He | Hd].
    + rewrite He. apply IH. exact Hpre.
    + rewrite Hd. destruct (string_is_empty (strip_comment raw)); apply IH; exact Hpre.
Qed.

Lemma Parse_loop_unknown_end (fuel : nat) : forall lines LineCount s ignore ok s',
  Parse_loop ShowParseWarning fuel lines LineCount AFT_UNKNOWN s ignore
  = Ret (ok, AFT_UNKNOWN, s') ->
  Forall undetected lines /\ s' = s /\ ok = true.
Proof.
  induction lines as [|raw rest IH]; intros n s ig ok s' H.
  - cbn [Parse_loop] in H. inversion H; subst. repeat split. constructor.
  - cbn [Parse_loop] in H.
    destruct (string_is_empty (strip_comment raw)) eqn:He.
    { destruct (IH _ _ _ _ _ H) as (A & B & C).
      repeat split; try assumption. constructor; [left; exact He|exact A]. }
    destruct (DetectFileType (strip_comment raw)) eqn:Hd.
    + destruct (IH _ _ _ _ _ H) as (A & B & C).
      repeat split; try assumption. constructor; [right; exact Hd|exact A].
    + exfalso.
      destruct (ParseLine fuel (strip_comment raw) s) as [[ok1 s1]| | |];
        cbn [bind] in H; try discriminate H.
      destruct (negb ok1 && negb (ShowParseWarning n (strip_comment raw)))%bool;
        [discriminate H|].
      apply Parse_loop_keeps in H. destruct H as (_ & B & _).
      specialize (B ltac:(discriminate)). discriminate B.
    + exfalso.
      destruct (ParseLineTNP fuel (strip_comment raw) s ig) as [[[ok1 s1] ig1]| | |];
        cbn [bind] in H; try discriminate H.
      destruct (negb ok1 && negb (ShowParseWarning n (strip_comment raw)))%bool;
        [discriminate H|].
      apply Parse_loop_keeps in H. destruct H as (_ & B & _).
      specialize (B ltac:(discriminate)). discriminate B.
Qed.

Lemma Parse_loop_continue (fuel : nat) :
  (forall n l, ShowParseWarning n l = true) ->
  forall lines LineCount filetype s ignore ok filetype' s',
    Parse_loop ShowParseWarning fuel lines LineCount filetype s ignore
    = Ret (ok, filetype', s') ->
    ok = true.
Proof.
  intros Hw. induction lines as [|raw rest IH]; intros n ft s ig ok ft' s' H.
  - cbn [Parse_loop] in H. inversion H; reflexivity.
  - cbn [Parse_loop] in H.
    destruct (string_is_empty (strip_comment raw)); [eapply IH; exact H|].
    destruct (match ft with
              | AFT_UNKNOWN => DetectFileType (strip_comment raw)
              | _ => ft
              end).
    + eapply IH; exact H.
    + destruct (ParseLine fuel (strip_comment raw) s) as [[ok1 s1]| | |];
        cbn [bind] in H; try discriminate H.
      rewrite Hw, andb_false_r in H. eapply IH; exact H.
    + destruct (ParseLineTNP fuel (strip_comment raw) s ig) as [[[ok1 s1] ig1]| | |];
        cbn [bind] in H; try discriminate H.
      rewrite Hw, andb_false_r in H. eapply IH; exact H.
Qed.

(** X1.  A file without a line that tells the dialect fails and emits nothing;
    with an operator who lets every flagged line be skipped this is the only
    way for [Parse] to fail. *)
Theorem Parse_unknown_file_type : forall fuel lines db,
  (Forall undetected lines ->
   Parse ShowParseWarning fuel lines db = Ret (false, db)) /\
  ((forall n l, ShowParseWarning n l = true) ->
   forall db', Parse ShowParseWarning fuel lines db = Ret (false, db') ->
   Forall undetected lines /\ db' = db).
Proof.
  intros fuel lines db. split.
  - intros Hall. unfold Parse.
    rewrite <- (app_nil_r lines).
    rewrite Parse_loop_skips_undetected by exact Hall.
    reflexivity.
  - intros Hw db' H. unfold Parse in H.
    destruct (Parse_loop ShowParseWarning fuel lines 1 AFT_UNKNOWN
                {| temp_area := TempAirspaceType_new; airspace_database := db |}
                false) as [[[ok ft] s]| | |] eqn:E; cbn [bind] in H;
      try discriminate H.
    pose proof (Parse_loop_continue fuel Hw _ _ _ _ _ _ _ _ E) as Hok. subst ok.
    cbn [negb] in H.
    destruct ft.
    + apply Parse_loop_unknown_end in E. destruct E as (A & B & _). subst s.
      inversion H; subst. split; [exact A|reflexivity].
    + destruct (negb (Waiting (temp_area s))); discriminate H.
    + destruct (negb (Waiting (temp_area s))); discriminate H.
Qed.

Section Ends.

(** The contract of [Bearing]: a bearing is in [0, 360). *)
Hypothesis Bearing_range : forall c p,
  (0 <= Bearing c p)%Q /\ (Bearing c p < 360)%Q.

Lemma arc_loop_ends C R step E b pts fuel :
  step = 5%Q \/ step = (-5)%Q -> (0 <= E)%Q -> (E < 360)%Q ->
  (72 < fuel)%nat ->
  arc_loop fuel C R step E b pts <> OutOfFuel /\
  sector_loop fuel C R step E b pts <> OutOfFuel.
Proof.
  intros Hstep E0 E1 Hfuel.
  destruct (stepping_stops b E step Hstep E0 E1) as (n & Hn & Hstop & Hbefore).
  rewrite (arc_loop_run C R step E n) by (assumption || lia).
  rewrite (sector_loop_run C R step E n) by (assumption || lia).
  split; discriminate.
Qed.

Lemma AddArc_ends fuel Start End_ t :
  Rotation_ok t -> (72 < fuel)%nat -> AddArc fuel Start End_ t <> OutOfFuel.
Proof.
  intros Hr Hfuel. unfold AddArc.
  destruct (Bearing_range (Center t) End_) as [E0 E1].
  pose proof (proj1 (arc_loop_ends (Center t)
                (Distance (distance_bearing (Center t) Start))
                (BearingStep t) (Bearing (Center t) End_)
                (vBearing (distance_bearing (Center t) Start))
                (points t ++ [Start]) fuel
                (BearingStep_of_Rotation_ok t Hr) E0 E1 Hfuel)) as H.
  destruct (arc_loop fuel _ _ _ _ _ _); cbn [bind]; congruence.
Qed.

Lemma CalculateSector_ends fuel Text t :
  Rotation_ok t -> (72 < fuel)%nat -> CalculateSector fuel Text t <> OutOfFuel.
Proof.
  intros Hr Hfuel. unfold CalculateSector.
  destruct (tcstod (skipn 2 Text)) as [r Stop].
  destruct Stop as [|c1 Stop1]; [discriminate|].
  destruct (tcstod Stop1) as [sb Stop].
  destruct Stop as [|c2 Stop2]; [discriminate|].
  destruct (tcstod Stop2) as [eb rest].
  destruct (as_bearing_range (Angle_degrees eb)) as [E0 E1].
  pose proof (proj2 (arc_loop_ends (Center t) (ToSysUnit r unNauticalMiles)
                (BearingStep t) (as_bearing (Angle_degrees eb))
                (as_bearing (Angle_degrees sb)) (points t) fuel
                (BearingStep_of_Rotation_ok t Hr) E0 E1 Hfuel)) as H.
  destruct (sector_loop fuel _ _ _ _ _ _); cbn [bind]; congruence.
Qed.

Lemma CalculateArc_ends fuel Text t :
  Rotation_ok t -> (72 < fuel)%nat -> CalculateArc fuel Text t <> OutOfFuel.
Proof.
  intros Hr Hfuel. unfold CalculateArc.
  repeat match goal with
  | |- context [match ?x with _ => _ end] => destruct x
  end; try discriminate; apply AddArc_ends; assumption.
Qed.

Lemma ParseCoordsTNP_ends Text : ParseCoordsTNP Text <> OutOfFuel.
Proof.
  unfold ParseCoordsTNP, split_dms.
  repeat match goal with
  | |- context [match ?x with _ => _ end] => destruct x; cbn [bind]
  end; discriminate.
Qed.

Lemma ParseArcTNP_ends fuel Text t :
  Rotation_ok t -> (72 < fuel)%nat -> ParseArcTNP fuel Text t <> OutOfFuel.
Proof.
  intros Hr Hfuel H. unfold ParseArcTNP in H.
  repeat first [ break_bind H; try discriminate H
               | break_if H; try discriminate H ];
    try (eapply ParseCoordsTNP_ends; eassumption).
  eapply AddArc_ends; [| exact Hfuel | eassumption].
  exact Hr.
Qed.

Lemma ParseLine_ends fuel line s :
  Rotation_ok (temp_area s) -> (72 < fuel)%nat ->
  ParseLine fuel line s <> OutOfFuel.
Proof.
  intros Hr Hfuel H. unfold ParseLine in H.
  repeat first [ break_bind H; try discriminate H
               | break_if H; try discriminate H ];
    first [ eapply CalculateSector_ends; eassumption
          | eapply CalculateArc_ends; eassumption
          | eapply ReadAltitude_total; eassumption ].
Qed.

Lemma ParseCircleTNP_ends Text t : ParseCircleTNP Text t <> OutOfFuel.
Proof.
  intros H. unfold ParseCircleTNP in H.
  repeat first [ break_bind H; try discriminate H
               | break_if H; try discriminate H ].
  eapply ParseCoordsTNP_ends; eassumption.
Qed.

Lemma ParseLineTNP_ends fuel line s ignore :
  (72 < fuel)%nat -> ParseLineTNP fuel line s ignore <> OutOfFuel.
Proof.
  intros Hfuel H. unfold ParseLineTNP in H.
  repeat first [ break_bind H; try discriminate H
               | break_if H; try discriminate H ];
    first [ eapply ParseCoordsTNP_ends; eassumption
          | eapply ReadAltitude_total; eassumption
          | eapply ParseCircleTNP_ends; eassumption
          | eapply ParseArcTNP_ends; [| exact Hfuel | eassumption];
            unfold Rotation_ok; cbn; auto ].
Qed.


Lemma Parse_loop_ends (fuel : nat) : (72 < fuel)%nat ->
  forall lines LineCount filetype s ignore,
    Rotation_ok (temp_area s) ->
    Parse_loop ShowParseWarning fuel lines LineCount filetype s ignore
    <> OutOfFuel.
Proof.
  intros Hfuel. induction lines as [|raw rest IH]; intros n ft s ig Hr.
  - cbn [Parse_loop]. discriminate.
  - cbn [Parse_loop].
    destruct (string_is_empty (strip_comment raw)); [apply IH; exact Hr|].
    destruct (match ft with
              | AFT_UNKNOWN => DetectFileType (strip_comment raw)
              | _ => ft
              end).
    + apply IH; exact Hr.
    + pose proof (ParseLine_ends fuel (strip_comment raw) s Hr Hfuel) as HE.
      destruct (ParseLine fuel (strip_comment raw) s) as [[ok1 s1]| | |] eqn:EL;
        cbn [bind]; try discriminate; [|congruence].
      destruct (negb ok1 && negb (ShowParseWarning n (strip_comment raw)))%bool;
        [discriminate|].
      apply IH. eapply ParseLine_Rotation_ok; eassumption.
    + pose proof (ParseLineTNP_ends fuel (strip_comment raw) s ig Hfuel) as HE.
      destruct (ParseLineTNP fuel (strip_comment raw) s ig) as [[[ok1 s1] ig1]| | |] eqn:EL;
        cbn [bind]; try discriminate; [|congruence].
      destruct (negb ok1 && negb (ShowParseWarning n (strip_comment raw)))%bool;
        [discriminate|].
      apply IH. eapply ParseLineTNP_Rotation_ok; eassumption.
Qed.

(** X2.  Every loop of the parser ends.  With bearings in [0, 360), no arc
    or sector of any file takes more than 72 steps, so [Parse] given room
    for 73 rounds never runs out of them, whatever the file. *)
Theorem Parse_ends : forall fuel lines db,
  (72 < fuel)%nat ->
  Parse ShowParseWarning fuel lines db <> OutOfFuel.
Proof.
  intros fuel lines db Hfuel. unfold Parse.
  pose proof (Parse_loop_ends fuel Hfuel lines 1%nat AFT_UNKNOWN
                {| temp_area := TempAirspaceType_new; airspace_database := db |}
                false (or_introl eq_refl)) as H.
  destruct (Parse_loop ShowParseWarning fuel lines 1 AFT_UNKNOWN _ false)
    as [[[ok ft] s]| | |]; cbn [bind]; try discriminate; [|congruence].
  destruct (negb ok); [discriminate|].
  destruct ft; [discriminate| |]; destruct (negb (Waiting (temp_area s)));
    discriminate.
Qed.

End Ends.

(** X4.  The database only grows.  A line adds at most one record; [Parse]
    returns the database it was given with the emitted records appended, at
    most one per line and one at the end of the file. *)
Theorem Parse_database_grows : forall fuel,
  (forall line s ok s',
     ParseLine fuel line s = Ret (ok, s') ->
     airspace_database s' = airspace_database s \/
     exists a, airspace_database s' = airspace_database s ++ [a]) /\
  (forall line s ignore ok s' ignore',
     ParseLineTNP fuel line s ignore = Ret (ok, s', ignore') ->
     airspace_database s' = airspace_database s \/
     exists a, airspace_database s' = airspace_database s ++ [a]) /\
  (forall lines db ok db',
     Parse ShowParseWarning fuel lines db = Ret (ok, db') ->
     exists l, db' = db ++ l /\ (length l <= S (length lines))%nat).
Proof.
  intros fuel.
  split; [intros line s ok s' H; apply (line_database fuel line s ok s');
          left; exact H|].
  split; [intros line s ig ok s' ig' H; apply (line_database fuel line s ok s');
          right; exists ig, ig'; exact H|].
  intros lines db ok db' H. unfold Parse in H.
  destruct (Parse_loop ShowParseWarning fuel lines 1 AFT_UNKNOWN
              {| temp_area := TempAirspaceType_new; airspace_database := db |}
              false) as [[[ok1 ft] s]| | |] eqn:E; cbn [bind] in H;
    try discriminate H.
  apply Parse_loop_keeps in E. destruct E as (_ & _ & l & Hl & Hlen).
  cbn [airspace_database] in Hl.
  assert (Hsame : exists l0, airspace_database s = db ++ l0 /\
                             (length l0 <= S (length lines))%nat)
    by (exists l; split; [exact Hl|lia]).
  assert (Hadd : exists l0, AddPolygon (temp_area s) (airspace_database s) = db ++ l0 /\
                            (length l0 <= S (length lines))%nat).
  { unfold AddPolygon, insert. rewrite Hl, <- app_assoc.
    eexists. split; [reflexivity|]. rewrite length_app. cbn [length]. lia. }
  destruct (negb ok1); [inversion H; subst; exact Hsame|].
  destruct ft; [inversion H; subst; exact Hsame| |];
    destruct (negb (Waiting (temp_area s))); inversion H; subst; assumption.
Qed.

(** X5.  The rotation of the pending record is 1 or -1 at all times: it is 1
    in a new record, and every line of either dialect and the loop of the
    driver keep the property. *)
Theorem Rotation_is_a_sign : forall fuel,
  Rotation_ok TempAirspaceType_new /\
  (forall line s ok s',
     ParseLine fuel line s = Ret (ok, s') ->
     Rotation_ok (temp_area s) -> Rotation_ok (temp_area s')) /\
  (forall line s ignore ok s' ignore',
     ParseLineTNP fuel line s ignore = Ret (ok, s', ignore') ->
     Rotation_ok (temp_area s) -> Rotation_ok (temp_area s')) /\
  (forall lines LineCount filetype s ignore ok filetype' s',
     Parse_loop ShowParseWarning fuel lines LineCount filetype s ignore
     = Ret (ok, filetype', s') ->
     Rotation_ok (temp_area s) -> Rotation_ok (temp_area s')).
Proof.
  intros fuel. split; [left; reflexivity|].
  split; [intros; eapply ParseLine_Rotation_ok; eassumption|].
  split; [intros; eapply ParseLineTNP_Rotation_ok; eassumption|].
  intros lines n ft s ig ok ft' s' H. apply (Parse_loop_keeps fuel _ _ _ _ _ _ _ _ H).
Qed.

(** X6.  The dialect is decided once.  From the first line that tells it, the
    loop of the driver keeps the file type to the end, whatever the later
    lines look like. *)
Theorem filetype_is_kept : forall fuel lines LineCount filetype s ignore ok filetype' s',
  filetype <> AFT_UNKNOWN ->
  Parse_loop ShowParseWarning fuel lines LineCount filetype s ignore
  = Ret (ok, filetype', s') ->
  filetype' = filetype.
Proof.
  intros fuel lines n ft s ig ok ft' s' Hne H.
  apply (Parse_loop_keeps fuel _ _ _ _ _ _ _ _ H). exact Hne.
Qed.

Ltac ascii_cases c H :=
  destruct c as [[|] [|] [|] [|] [|] [|] [|] [|]]; try discriminate H; clear H.

(** X7.  Cutting the comment.  The line the parsers see is the text before
    the first asterisk; the buffer keeps its length, and a line without an
    asterisk is left as it is. *)
Theorem strip_comment_cuts_at_star : forall line,
  c_str (strip_comment line) = before_star (c_str line) /\
  ~ In "*"%char (c_str (strip_comment line)) /\
  length (strip_comment line) = length line /\
  (~ In "*"%char (c_str line) -> strip_comment line = line).
Proof.
  induction line as [|c r (IH1 & IH2 & IH3 & IH4)].
  - cbn. repeat split; auto.
  - cbn [strip_comment c_str].
    destruct (is_nul c) eqn:En.
    + cbn [c_str]. rewrite En. cbn. repeat split; auto.
    + destruct (Ascii.eqb c "*") eqn:Es.
      * cbn [c_str before_star]. rewrite Es.
        change (is_nul NUL) with true. cbn [length].
        repeat split; auto.
        intros Hno. exfalso. apply Hno. left.
        symmetry. apply Ascii.eqb_eq. exact Es.
      * cbn [c_str before_star length]. rewrite En, Es.
        split; [f_equal; exact IH1|].
        split; [intros [Hc | Hin]; [subst c; discriminate Es|contradiction]|].
        split; [f_equal; exact IH3|].
        intros Hno. f_equal. apply IH4. intros Hin. apply Hno. right. exact Hin.
Qed.

(** X8.  The class of an [AC] line is decided by the leading capital letters
    of its value, whatever follows them: CTR before C, GP before G, T only
    as TMZ; a value that starts with any other character, a small letter
    included, is OTHER. *)
Theorem ParseType_by_prefix : forall rest,
  ParseType (cs "R" ++ rest) = RESTRICT /\
  ParseType (cs "Q" ++ rest) = DANGER /\
  ParseType (cs "P" ++ rest) = PROHIBITED /\
  ParseType (cs "A" ++ rest) = CLASSA /\
  ParseType (cs "B" ++ rest) = CLASSB /\
  ParseType (cs "D" ++ rest) = CLASSD /\
  ParseType (cs "W" ++ rest) = WAVE /\
  ParseType (cs "E" ++ rest) = CLASSE /\
  ParseType (cs "F" ++ rest) = CLASSF /\
  ParseType (cs "C" ++ rest)
  = (if is_some (string_after_prefix rest (cs "TR")) then CTR else CLASSC) /\
  ParseType (cs "G" ++ rest)
  = (if is_some (string_after_prefix rest (cs "P")) then NOGLIDER else CLASSG) /\
  ParseType (cs "T" ++ rest)
  = (if is_some (string_after_prefix rest (cs "MZ")) then TMZ else OTHER) /\
  ParseType [] = OTHER /\
  (forall c,
     forallb (fun x => negb (Ascii.eqb c x)) (cs "RQPCABDGWEFT") = true ->
     ParseType (c :: rest) = OTHER).
Proof.
  intros rest.
  assert (Hnil : forall p, string_after_prefix p [] = Some p)
    by (intros [|? ?]; reflexivity).
  repeat apply conj;
    try (unfold ParseType; cbn; rewrite ?Hnil; reflexivity).
  - destruct rest as [|d [|e r]]; cbn; try reflexivity;
      repeat (match goal with
              | |- context [if Ascii.eqb ?a ?b then _ else _] =>
                  destruct (Ascii.eqb a b)
              end; cbn; rewrite ?Hnil); reflexivity.
  - destruct rest as [|d r]; cbn; try reflexivity;
      repeat (match goal with
              | |- context [if Ascii.eqb ?a ?b then _ else _] =>
                  destruct (Ascii.eqb a b)
              end; cbn; rewrite ?Hnil); reflexivity.
  - destruct rest as [|d [|e r]]; cbn; try reflexivity;
      repeat (match goal with
              | |- context [if Ascii.eqb ?a ?b then _ else _] =>
                  destruct (Ascii.eqb a b)
              end; cbn; rewrite ?Hnil); reflexivity.
  - intros c H. ascii_cases c H; reflexivity.
Qed.

(** X9.  Lines [ParseLine] has no directive for.  A line whose first letter is
    none of D, V, A, or whose second letter is none of the directives of its
    first, is accepted and changes nothing. *)
Theorem ParseLine_ignores_unknown : forall fuel line s,
  (is_one_of (deref line) "D" "d" = false ->
   is_one_of (deref line) "V" "v" = false ->
   is_one_of (deref line) "A" "a" = false ->
   ParseLine fuel line s = Ret (true, s)) /\
  (is_one_of (deref line) "D" "d" = true ->
   forallb (fun x => negb (Ascii.eqb (deref (tl line)) x)) (cs "PpCcAaBb") = true ->
   ParseLine fuel line s = Ret (true, s)) /\
  (is_one_of (deref line) "A" "a" = true ->
   forallb (fun x => negb (Ascii.eqb (deref (tl line)) x)) (cs "CcNnLlHhRr") = true ->
   ParseLine fuel line s = Ret (true, s)).
Proof.
  intros fuel line s. repeat apply conj.
  - intros HD HV HA. unfold ParseLine. rewrite HD, HV, HA. reflexivity.
  - intros HD H2. unfold ParseLine. rewrite HD.
    destruct line as [|c0 [|c1 r]]; try discriminate HD;
      cbn [deref tl] in *; [reflexivity|].
    ascii_cases c1 H2; reflexivity.
  - intros HA H2. unfold ParseLine.
    destruct line as [|c0 [|c1 r]]; try discriminate HA; cbn [deref tl] in *.
    + ascii_cases c0 HA; reflexivity.
    + ascii_cases c0 HA; ascii_cases c1 H2; reflexivity.
Qed.

(** X10.  A directive that takes a value and is followed at once by a
    character other than a blank (and not by the end of the line) is
    skipped: the line is accepted and changes nothing.  This holds for DP,
    AC, AN, AL, AH and AR in either case of the letters. *)
Theorem ParseLine_skips_directive_without_blank : forall fuel c0 c1 c2 rest s,
  (is_one_of c0 "D" "d" && is_one_of c1 "P" "p"
   || is_one_of c0 "A" "a"
      && negb (forallb (fun x => negb (Ascii.eqb c1 x)) (cs "CcNnLlHhRr")))%bool
  = true ->
  is_nul c2 = false ->
  Ascii.eqb c2 " " = false ->
  ParseLine fuel (c0 :: c1 :: c2 :: rest) s = Ret (true, s).
Proof.
  intros fuel c0 c1 c2 rest s H Hn Hb.
  assert (Hv : value_after_space (c2 :: rest) = None).
  { unfold value_after_space, string_is_empty. cbn [deref]. rewrite Hn, Hb.
    reflexivity. }
  unfold ParseLine. cbn [deref tl skipn]. rewrite Hv.
  apply orb_true_iff in H.
  destruct H as [H | H]; apply andb_true_iff in H; destruct H as [H0 H1];
    ascii_cases c0 H0; ascii_cases c1 H1; reflexivity.
Qed.

Lemma prefix_ci_excludes (a b : list ascii) : forall line p,
  ci_clash a b = true ->
  string_after_prefix_ci line a = Some p ->
  string_after_prefix_ci line b = None.
Proof.
  revert b. induction a as [|x a IH]; intros [|y b] line p Hc Hp;
    try discriminate Hc.
  destruct line as [|d l]; [reflexivity|].
  cbn [string_after_prefix_ci ci_clash] in *.
  destruct (eqb_ci d x) eqn:Edx; [|discriminate Hp].
  unfold eqb_ci in *. apply Ascii.eqb_eq in Edx. rewrite Edx.
  destruct (Ascii.eqb (to_lower x) (to_lower y)); [|reflexivity].
  eapply IH; eassumption.
Qed.

Ltac no_prefix_of Hp pat :=
  match type of Hp with
  | string_after_prefix_ci ?l ?a = Some ?p =>
      rewrite (prefix_ci_excludes a (cs pat) l p eq_refl Hp)
  end.

Lemma ParseTypeTNP_range (text : list ascii) :
  In (ParseTypeTNP text) [CTR; RESTRICT; WAVE; OTHER].
Proof.
  unfold ParseTypeTNP.
  repeat match goal with
  | |- context [if ?b then _ else _] => destruct b
  end; cbn; auto.
Qed.

Lemma ParseClassTNP_range (text : list ascii) :
  In (ParseClassTNP text)
     [CLASSA; CLASSB; CLASSC; CLASSD; CLASSE; CLASSF; CLASSG; OTHER].
Proof.
  unfold ParseClassTNP.
  repeat match goal with
  | |- context [if ?b then _ else _] => destruct b
  end; cbn; auto 10.
Qed.

(** X11.  The class of a TNP record.  A [TYPE=] line starts a record whose
    class is CTR, RESTRICT, WAVE or OTHER, never anything else.  A [CLASS=]
    line changes nothing when the class of the pending record is not OTHER;
    when it is OTHER it stores a class A to G or OTHER, by the first
    character of its value, and touches nothing else. *)
Theorem TNP_class_rules : forall fuel line parameter s,
  let t := temp_area s in
  (string_after_prefix_ci line (cs "TYPE=") = Some parameter ->
   exists db,
     ParseLineTNP fuel line s false
     = Ret (true, mkPState (start_record (reset t) (ParseTypeTNP parameter)) db,
            false) /\
     In (ParseTypeTNP parameter) [CTR; RESTRICT; WAVE; OTHER]) /\
  (string_after_prefix_ci line (cs "CLASS=") = Some parameter ->
   Type_ t <> OTHER ->
   ParseLineTNP fuel line s false = Ret (true, s, false)) /\
  (string_after_prefix_ci line (cs "CLASS=") = Some parameter ->
   Type_ t = OTHER ->
   ParseLineTNP fuel line s false
   = Ret (true, with_temp s (set_Type t (ParseClassTNP parameter)), false) /\
   In (ParseClassTNP parameter)
      [CLASSA; CLASSB; CLASSC; CLASSD; CLASSE; CLASSF; CLASSG; OTHER]).
Proof.
  intros fuel line parameter s t.
  assert (Hclass : string_after_prefix_ci line (cs "CLASS=") = Some parameter ->
    ParseLineTNP fuel line s false
    = if AirspaceClass_eqb (Type_ t) OTHER
      then Ret (true, with_temp s (set_Type t (ParseClassTNP parameter)), false)
      else Ret (true, s, false)).
  { intros Hp. unfold ParseLineTNP.
    no_prefix_of Hp "INCLUDE="%string. no_prefix_of Hp "POINT="%string.
    no_prefix_of Hp "CIRCLE "%string. no_prefix_of Hp "CLOCKWISE "%string.
    no_prefix_of Hp "ANTI-CLOCKWISE "%string. no_prefix_of Hp "TITLE="%string.
    no_prefix_of Hp "TYPE="%string. rewrite Hp. reflexivity. }
  repeat apply conj.
  - intros Hp. eexists. split; [|apply ParseTypeTNP_range].
    unfold ParseLineTNP.
    no_prefix_of Hp "INCLUDE="%string. no_prefix_of Hp "POINT="%string.
    no_prefix_of Hp "CIRCLE "%string. no_prefix_of Hp "CLOCKWISE "%string.
    no_prefix_of Hp "ANTI-CLOCKWISE "%string. no_prefix_of Hp "TITLE="%string.
    rewrite Hp. reflexivity.
  - intros Hp Hne. rewrite (Hclass Hp).
    destruct (Type_ t); try reflexivity. contradiction.
  - intros Hp He. split; [|apply ParseClassTNP_range].
    rewrite (Hclass Hp), He. reflexivity.
Qed.

(** X12.  A TNP arc needs a point to start from.  A [CLOCKWISE] or
    [ANTI-CLOCKWISE] line met while the pending record has no vertex fails;
    it has set the rotation and nothing else, and emits nothing. *)
Theorem TNP_arc_without_point_fails : forall fuel line parameter s,
  points (temp_area s) = [] ->
  (string_after_prefix_ci line (cs "CLOCKWISE ") = Some parameter ->
   ParseLineTNP fuel line s false
   = Ret (false, with_temp s (set_Rotation (temp_area s) 1), false)) /\
  (string_after_prefix_ci line (cs "ANTI-CLOCKWISE ") = Some parameter ->
   ParseLineTNP fuel line s false
   = Ret (false, with_temp s (set_Rotation (temp_area s) (-1)), false)).
Proof.
  intros fuel line parameter s Hpts. split; intros Hp; unfold ParseLineTNP.
  - no_prefix_of Hp "INCLUDE="%string. no_prefix_of Hp "POINT="%string.
    no_prefix_of Hp "CIRCLE "%string. rewrite Hp.
    unfold ParseArcTNP. cbn [points set_Rotation]. rewrite Hpts. reflexivity.
  - no_prefix_of Hp "INCLUDE="%string. no_prefix_of Hp "POINT="%string.
    no_prefix_of Hp "CIRCLE "%string. no_prefix_of Hp "CLOCKWISE "%string.
    rewrite Hp.
    unfold ParseArcTNP. cbn [points set_Rotation]. rewrite Hpts. reflexivity.
Qed.

(** X13.  A [POINT=] line never fails.  [ParseCoordsTNP] has no failing
    result, so whenever the line returns it has appended exactly one vertex
    to the pending record and touched nothing else: the vertex list is the
    old list with the parsed point behind it, and the other members of the
    record, the database and the ignore flag are as they were. *)
Theorem TNP_POINT_appends_one_vertex : forall fuel line parameter s ok s' ignore',
  string_after_prefix_ci line (cs "POINT=") = Some parameter ->
  ParseLineTNP fuel line s false = Ret (ok, s', ignore') ->
  ok = true /\ ignore' = false /\
  airspace_database s' = airspace_database s /\
  exists pt,
    ParseCoordsTNP parameter = Ret (true, pt) /\
    temp_area s' = push_back (temp_area s) pt /\
    points (temp_area s') = points (temp_area s) ++ [pt] /\
    Waiting (temp_area s') = Waiting (temp_area s) /\
    Name (temp_area s') = Name (temp_area s) /\
    Radio (temp_area s') = Radio (temp_area s) /\
    Type_ (temp_area s') = Type_ (temp_area s) /\
    Base (temp_area s') = Base (temp_area s) /\
    Top (temp_area s') = Top (temp_area s) /\
    days_of_operation (temp_area s') = days_of_operation (temp_area s) /\
    Center (temp_area s') = Center (temp_area s) /\
    Radius (temp_area s') = Radius (temp_area s) /\
    Rotation (temp_area s') = Rotation (temp_area s).
Proof.
  intros fuel line parameter s ok s' ig' Hp H.
  unfold ParseLineTNP in H.
  rewrite (prefix_ci_excludes (cs "POINT=") (cs "INCLUDE=") line parameter
             eq_refl Hp) in H.
  rewrite Hp in H.
  assert (Hflag : forall b pt, ParseCoordsTNP parameter = Ret (b, pt) -> b = true).
  { intros b pt Hc. unfold ParseCoordsTNP in Hc.
    repeat first [ break_bind Hc; try discriminate Hc
                 | break_if Hc; try discriminate Hc ];
      inversion Hc; reflexivity. }
  destruct (ParseCoordsTNP parameter) as [[b pt]| | |] eqn:Ec;
    cbn [bind] in H; try discriminate H.
  pose proof (Hflag b pt eq_refl) as Hb. subst b. cbn [negb] in H.
  inversion H; subst. repeat split. exists pt.
  repeat match goal with
         | |- _ /\ _ => split
         end; reflexivity.
Qed.

(** X14.  A compact coordinate with one group only.  When the text ends behind
    the first group of digits, with or without a blank behind it, the second
    group is read from behind the end of the text. *)
Theorem ParseCoordsTNP_one_group : forall h ds,
  Forall (fun c => is_digit c = true) ds -> (length ds <= 9)%nat ->
  ParseCoordsTNP [] = OutOfString /\
  ParseCoordsTNP (h :: ds) = OutOfString /\
  ParseCoordsTNP (h :: ds ++ [" "%char]) = OutOfString.
Proof.
  intros h ds Hds Hlen. split; [reflexivity|].
  destruct ds as [|d ds].
  - split; reflexivity.
  - pose proof (digits_value_bound (d :: ds) Hds) as Hb.
    assert (Hpow : 10 ^ Z.of_nat (length (d :: ds)) <= 10 ^ 9)
      by (apply Z.pow_le_mono_r; lia).
    change (10 ^ 9) with 1000000000 in Hpow.
    assert (Hs : split_dms (digits_value (d :: ds))
                 = Ret (digits_value (d :: ds) / 10000,
                        digits_value (d :: ds) mod 10000 / 100,
                        digits_value (d :: ds) mod 100)).
    { apply split_dms_nonneg. unfold LONG_MAX.
      change (2 ^ 31 - 1) with 2147483647. lia. }
    split.
    + unfold ParseCoordsTNP.
      rewrite <- (app_nil_r (d :: ds)).
      rewrite (tcstol_run (d :: ds) []) by (assumption || discriminate || reflexivity).
      rewrite Hs. reflexivity.
    + unfold ParseCoordsTNP.
      change ((d :: ds) ++ [" "%char]) with ((d :: ds) ++ [" "%char]).
      rewrite (tcstol_run (d :: ds) [" "%char])
        by (assumption || discriminate || reflexivity).
      rewrite Hs. reflexivity.
Qed.

(** ** Numbers written by digits *)

Lemma Qred_inject_Z (z : Z) : Qred (inject_Z z) = inject_Z z.
Proof.
  unfold Qred, inject_Z.
  generalize (Z.ggcd_gcd z 1) (Z.ggcd_correct_divisors z 1).
  destruct (Z.ggcd z 1) as (g, (a, b)). cbn [fst snd].
  rewrite Z.gcd_1_r. intros Hg [Ha Hb]. subst g.
  rewrite Z.mul_1_l in Ha, Hb. subst a b. reflexivity.
Qed.

Lemma skip_ws_blanks (ws p : list ascii) :
  Forall (fun c => is_space c = true) ws ->
  is_space (deref p) = false ->
  skip_ws (ws ++ p) = p.
Proof.
  intros Hws Hp. induction Hws as [|c ws Hc _ IH]; cbn [app skip_ws].
  - destruct p as [|d r]; [reflexivity|]. cbn [skip_ws deref] in *.
    rewrite Hp. reflexivity.
  - rewrite Hc. exact IH.
Qed.

(** [_tcstod] on blanks, a run of digits, and a rest that does not go on
    with the number *)
Lemma tcstod_run (ws ds rest : list ascii) :
  Forall (fun c => is_space c = true) ws ->
  Forall (fun c => is_digit c = true) ds -> ds <> [] ->
  is_digit (deref rest) = false ->
  Ascii.eqb (deref rest) "." = false ->
  eqb_ci (deref rest) "e" = false ->
  tcstod (ws ++ ds ++ rest) = (inject_Z (digits_value ds), rest).
Proof.
  intros Hws Hds Hne Hr1 Hr2 Hr3.
  destruct ds as [|d ds]; [contradiction|].
  inversion Hds as [|? ? Hd Hds']; subst.
  destruct (digit_is_no_space_or_sign d Hd) as (E1 & E2 & E3).
  unfold tcstod.
  rewrite (skip_ws_blanks ws ((d :: ds) ++ rest) Hws) by exact E1.
  cbn [app scan_sign]. rewrite E2, E3.
  change (d :: ds ++ rest) with ((d :: ds) ++ rest).
  rewrite scan_digits_run by assumption.
  fold (digits_value (d :: ds)).
  assert (Hrest : match rest with
                  | c :: r =>
                      if Ascii.eqb c "."
                      then scan_digits (digits_value (d :: ds)) 0 r
                      else (digits_value (d :: ds), 0%nat, rest)
                  | [] => (digits_value (d :: ds), 0%nat, rest)
                  end = (digits_value (d :: ds), 0%nat, rest)).
  { destruct rest as [|c r]; [reflexivity|]. cbn [deref] in Hr2.
    rewrite Hr2. reflexivity. }
  rewrite Hrest. cbn [length Nat.add Nat.eqb].
  assert (Hexp : scan_exponent rest = (0, rest)).
  { destruct rest as [|c r]; [reflexivity|]. cbn [deref] in Hr3.
    unfold scan_exponent. rewrite Hr3. reflexivity. }
  rewrite Hexp. f_equal.
  unfold fmul. change (pow10 (0 - Z.of_nat 0)) with (inject_Z 1).
  generalize (digits_value (d :: ds)). intros v.
  transitivity (Qred (inject_Z v)); [|apply Qred_inject_Z].
  apply Qred_complete. unfold Qeq, Qmult, inject_Z. cbn [Qnum Qden].
  change (Z.pos (1 * 1)) with 1. ring.
Qed.

Lemma tcstod_digits (ds rest : list ascii) :
  digit_run ds ->
  is_digit (deref rest) = false ->
  Ascii.eqb (deref rest) "." = false ->
  eqb_ci (deref rest) "e" = false ->
  tcstod (ds ++ rest) = (inject_Z (digits_value ds), rest) /\
  tcstod (" "%char :: ds ++ rest) = (inject_Z (digits_value ds), rest).
Proof.
  intros [Hds Hne] R1 R2 R3. split.
  - apply (tcstod_run [] ds rest); (assumption || constructor).
  - apply (tcstod_run [" "%char] ds rest); (assumption || (repeat constructor)).
Qed.

Lemma read_min_sec_run (deg : fixed) (m s rest : list ascii) :
  digit_run m -> digit_run s ->
  is_digit (deref rest) = false ->
  Ascii.eqb (deref rest) "." = false ->
  eqb_ci (deref rest) "e" = false ->
  is_nul (deref rest) = false ->
  read_min_sec deg (":" :: m ++ ":" :: s ++ rest)%char
  = Some (fadd (fadd deg (fdiv (inject_Z (digits_value m)) 60))
               (fdiv (inject_Z (digits_value s)) 3600), rest).
Proof.
  intros [Hm Hmne] [Hs Hsne] R1 R2 R3 R4.
  unfold read_min_sec. cbn [deref tl Ascii.eqb Bool.eqb].
  rewrite (proj1 (tcstod_digits m (":" :: s ++ rest)%char
                    (conj Hm Hmne) eq_refl eq_refl eq_refl)).
  cbn [deref is_nul Ascii.eqb Bool.eqb NUL Ascii.zero tl].
  rewrite (proj1 (tcstod_digits s rest (conj Hs Hsne) R1 R2 R3)).
  rewrite R4. reflexivity.
Qed.

Lemma ptr_eqb_shorter (pre p : list ascii) :
  pre <> [] -> ptr_eqb (pre ++ p) p = false.
Proof.
  intros Hne. unfold ptr_eqb. apply Nat.eqb_neq. rewrite length_app.
  destruct pre; [contradiction|cbn [length]; lia].
Qed.

(** X15.  A coordinate in degrees, minutes and seconds.  For the text
    D:M:S h D:M:S h, each number a run of digits and each hemisphere letter
    any character but NUL: [ReadCoords] succeeds, whatever point it was
    given; the latitude is D + M/60 + S/3600 degrees, negated exactly when
    its letter is S or s; the longitude likewise, negated for W or w and
    then normalized. *)
Theorem ReadCoords_sexagesimal : forall d1 m1 s1 h1 d2 m2 s2 h2 point,
  digit_run d1 -> digit_run m1 -> digit_run s1 ->
  digit_run d2 -> digit_run m2 -> digit_run s2 ->
  is_nul h1 = false -> is_nul h2 = false ->
  let dms := fun d m s =>
    Angle_dms (inject_Z (digits_value d)) (inject_Z (digits_value m))
              (inject_Z (digits_value s)) in
  ReadCoords (coords_text d1 m1 s1 h1 d2 m2 s2 h2) point
  = (true,
     normalize
       (mkGeoPoint (hemisphere (is_one_of h1 "S" "s") (dms d1 m1 s1))
                   (hemisphere (is_one_of h2 "W" "w") (dms d2 m2 s2)))) /\
  (forall d m s,
     dms d m s == inject_Z (digits_value d) + inject_Z (digits_value m) / 60
                  + inject_Z (digits_value s) / 3600)%Q.
Proof.
  intros d1 m1 s1 h1 d2 m2 s2 h2 point D1 M1 S1 D2 M2 S2 H1 H2 dms.
  split.
  2:{ intros d m s. unfold dms, Angle_dms, Angle_degrees, fadd, fdiv.
      rewrite !Qred_correct. reflexivity. }
  unfold ReadCoords, coords_text.
  rewrite (proj1 (tcstod_digits d1 (":"%char :: _) D1 eq_refl eq_refl eq_refl)).
  rewrite ptr_eqb_shorter by apply D1.
  cbn [orb deref is_nul Ascii.eqb Bool.eqb NUL Ascii.zero].
  rewrite read_min_sec_run by (assumption || reflexivity).
  unfold skip_one_space.
  cbn [deref tl Ascii.eqb Bool.eqb]. rewrite H1.
  cbn [is_nul deref Ascii.eqb Bool.eqb NUL Ascii.zero].
  rewrite (proj2 (tcstod_digits d2 (":"%char :: _) D2 eq_refl eq_refl eq_refl)).
  assert (Hneq : ptr_eqb
            (d1 ++ ":" :: m1 ++ ":" :: s1 ++ " " :: h1 :: " "
                :: d2 ++ ":" :: m2 ++ ":" :: s2 ++ [" "; h2])%char
            (":" :: m2 ++ ":" :: s2 ++ [" "; h2])%char = false).
  { unfold ptr_eqb. apply Nat.eqb_neq.
    repeat (rewrite ?length_app; cbn [length]). lia. }
  rewrite Hneq.
  cbn [orb deref is_nul Ascii.eqb Bool.eqb NUL Ascii.zero].
  rewrite read_min_sec_run by (assumption || reflexivity).
  cbn [deref tl Ascii.eqb Bool.eqb]. rewrite H2.
  unfold dms, Angle_dms, Angle_degrees, hemisphere, is_one_of.
  cbn [Latitude Longitude].
  destruct (Ascii.eqb h1 "S" || Ascii.eqb h1 "s")%bool;
    destruct (Ascii.eqb h2 "W" || Ascii.eqb h2 "w")%bool; reflexivity.
Qed.

Lemma digit_is_plain (c : ascii) :
  is_digit c = true ->
  is_nul c = false /\ Ascii.eqb c " " = false.
Proof. intros H. ascii_cases c H; split; reflexivity. Qed.

Lemma skip_spaces_digit (ds rest : list ascii) :
  digit_run ds -> skip_spaces (ds ++ rest) = ds ++ rest.
Proof.
  intros [Hds Hne]. destruct ds as [|d ds]; [contradiction|].
  inversion Hds as [|? ? Hd _]; subst.
  cbn [app skip_spaces]. rewrite (proj2 (digit_is_plain d Hd)). reflexivity.
Qed.

(** One round of the scan at a run of digits that a blank ends, the last
    characters of the text *)
Lemma scan_loop_last_number (fuel : nat) (a : AirspaceAltitude) (u : bool)
    (ds : list ascii) :
  digit_run ds ->
  scan_loop (S (S fuel)) a u (ds ++ [" "%char])
  = ScanDone
      (match type a with
       | FL => mkAlt (altitude a) (inject_Z (digits_value ds))
                     (altitude_above_terrain a) (type a)
       | AGL => mkAlt (altitude a) (flight_level a)
                      (inject_Z (digits_value ds)) (type a)
       | _ => mkAlt (inject_Z (digits_value ds)) (flight_level a)
                    (altitude_above_terrain a) (type a)
       end) u /\
  scan_loop (S fuel) a u ds
  = ScanOverrun
      (match type a with
       | FL => mkAlt (altitude a) (inject_Z (digits_value ds))
                     (altitude_above_terrain a) (type a)
       | AGL => mkAlt (altitude a) (flight_level a)
                      (inject_Z (digits_value ds)) (type a)
       | _ => mkAlt (inject_Z (digits_value ds)) (flight_level a)
                    (altitude_above_terrain a) (type a)
       end) u.
Proof.
  intros Hrun. pose proof Hrun as [Hds Hne].
  destruct ds as [|d ds]; [contradiction|].
  inversion Hds as [|? ? Hd _]; subst.
  destruct (digit_is_plain d Hd) as [Hn Hb].
  split.
  - cbn [scan_loop]. change (deref ((d :: ds) ++ [" "%char])) with d.
    rewrite Hn, (skip_spaces_digit (d :: ds) _ Hrun).
    unfold scan_token. change (deref ((d :: ds) ++ [" "%char])) with d.
    rewrite Hd.
    rewrite (proj1 (tcstod_digits (d :: ds) [" "%char] Hrun
                      eq_refl eq_refl eq_refl)).
    cbn [deref is_nul Ascii.eqb Bool.eqb NUL Ascii.zero].
    destruct (type a); reflexivity.
  - cbn [scan_loop]. change (deref (d :: ds)) with d.
    rewrite Hn.
    rewrite <- (app_nil_r (d :: ds)) at 1.
    rewrite (skip_spaces_digit (d :: ds) _ Hrun).
    unfold scan_token. change (deref ((d :: ds) ++ [])) with d.
    rewrite Hd.
    rewrite (proj1 (tcstod_digits (d :: ds) [] Hrun eq_refl eq_refl eq_refl)).
    destruct (type a); reflexivity.
Qed.

(** X16.  A bare number.  A text made of digits and one blank behind them is
    an altitude in feet above mean sea level: the datum is MSL and the
    altitude (and the zero above terrain) went through the conversion from
    feet.  Without the blank the scan reads behind the end of the text. *)
Theorem ReadAltitude_bare_number : forall ds,
  digit_run ds ->
  ReadAltitude (ds ++ [" "%char])
  = Ret (mkAlt (ToSysUnit (inject_Z (digits_value ds)) unFeet) fixed_zero
               (ToSysUnit fixed_zero unFeet) MSL) /\
  ReadAltitude ds = OutOfString.
Proof.
  intros ds Hrun. unfold ReadAltitude, ReadAltitude_scan. split.
  - rewrite length_app. cbn [length]. rewrite Nat.add_1_r.
    rewrite (proj1 (scan_loop_last_number _ AirspaceAltitude_init false ds Hrun)).
    reflexivity.
  - rewrite (proj2 (scan_loop_last_number _ AirspaceAltitude_init false ds Hrun)).
    reflexivity.
Qed.

(** X17.  A flight level.  Behind the token FL (in any case of the letters)
    the scan steps over one character, whatever it is, and reads the digits
    that follow as the flight level: "FL 150 " and "FL=150 " give 150, and
    in "FL150 " the 1 is the character stepped over and the level is 50.
    The value is not converted. *)
Theorem ReadAltitude_flight_level : forall f l c ds,
  eqb_ci f "F" = true -> eqb_ci l "L" = true ->
  digit_run ds ->
  ReadAltitude (f :: l :: c :: ds ++ [" "%char])
  = Ret (mkAlt fixed_zero (inject_Z (digits_value ds)) fixed_zero FL).
Proof.
  intros f l c ds Hf Hl Hrun. unfold ReadAltitude, ReadAltitude_scan.
  cbn [length]. rewrite length_app. cbn [length]. rewrite Nat.add_1_r.
  assert (Hstep : forall fuel,
    scan_loop (S fuel) AirspaceAltitude_init false (f :: l :: c :: ds ++ [" "%char])
    = scan_loop fuel (mkAlt fixed_zero fixed_zero fixed_zero FL) true
        (ds ++ [" "%char])).
  { intros fuel. ascii_cases f Hf; ascii_cases l Hl; reflexivity. }
  rewrite Hstep.
  rewrite (proj1 (scan_loop_last_number _ _ true ds Hrun)).
  reflexivity.
Qed.

(** The altitude record with a number stored where the datum says *)
Lemma scan_loop_number (fuel : nat) (a : AirspaceAltitude) (u : bool)
    (ds rest : list ascii) :
  digit_run ds ->
  scan_loop (S fuel) a u (ds ++ " "%char :: rest)
  = scan_loop fuel
      (match type a with
       | FL => mkAlt (altitude a) (inject_Z (digits_value ds))
                     (altitude_above_terrain a) (type a)
       | AGL => mkAlt (altitude a) (flight_level a)
                      (inject_Z (digits_value ds)) (type a)
       | _ => mkAlt (inject_Z (digits_value ds)) (flight_level a)
                    (altitude_above_terrain a) (type a)
       end) u rest.
Proof.
  intros Hrun. pose proof Hrun as [Hds Hne].
  destruct ds as [|d ds]; [contradiction|].
  inversion Hds as [|? ? Hd _]; subst.
  destruct (digit_is_plain d Hd) as [Hn Hb].
  cbn [scan_loop]. change (deref ((d :: ds) ++ " "%char :: rest)) with d.
  rewrite Hn, (skip_spaces_digit (d :: ds) _ Hrun).
  unfold scan_token. change (deref ((d :: ds) ++ " "%char :: rest)) with d.
  rewrite Hd.
  rewrite (proj1 (tcstod_digits (d :: ds) (" "%char :: rest) Hrun
                    eq_refl eq_refl eq_refl)).
  destruct (type a); reflexivity.
Qed.


(** X18.  Units behind a number.  With FT the altitude is converted from feet
    once; with M it is taken as it is; with MSL and no unit it is converted
    from feet by default.  The datum is MSL in all three. *)
Theorem ReadAltitude_units : forall ds,
  digit_run ds ->
  let v := inject_Z (digits_value ds) in
  ReadAltitude (ds ++ cs " FT ")
  = Ret (mkAlt (ToSysUnit v unFeet) fixed_zero fixed_zero MSL) /\
  ReadAltitude (ds ++ cs " M ")
  = Ret (mkAlt v fixed_zero fixed_zero MSL) /\
  ReadAltitude (ds ++ cs " MSL ")
  = Ret (mkAlt (ToSysUnit v unFeet) fixed_zero (ToSysUnit fixed_zero unFeet) MSL).
Proof.
  intros ds Hrun v. unfold ReadAltitude, ReadAltitude_scan.
  repeat split; rewrite length_app; cbn [length cs list_ascii_of_string];
    rewrite Nat.add_comm; cbn [Nat.add];
    rewrite scan_loop_number by exact Hrun; reflexivity.
Qed.


(** ** Whole records *)

Lemma prefix_ci_nil (p : list ascii) : string_after_prefix_ci p [] = Some p.
Proof. destruct p; reflexivity. Qed.

Lemma Parse_loop_DP_lines (fuel : nat) (rest : list (list ascii)) (ignore : bool) :
  forall values pts LineCount s,
    Forall (fun v => strip_comment v = v) values ->
    Forall2 (fun v p => ReadCoords v GeoPoint_blank = (true, p)) values pts ->
    Parse_loop ShowParseWarning fuel
      (map (fun v => cs "DP " ++ v) values ++ rest) LineCount AFT_OPENAIR s ignore
    = Parse_loop ShowParseWarning fuel rest (LineCount + length values)
        AFT_OPENAIR
        (with_temp s (set_points (temp_area s) (points (temp_area s) ++ pts)))
        ignore.
Proof.
  induction values as [|v values IH]; intros pts n s Hclean Hall.
  - inversion Hall; subst. cbn [map app length]. rewrite Nat.add_0_r, app_nil_r.
    destruct s as [[] ?]; reflexivity.
  - inversion Hall as [|? p ? pts' Hv Hrest]; subst.
    inversion Hclean as [|? ? Hcv Hcrest]; subst.
    cbn [map app length Parse_loop].
    change (strip_comment (cs "DP " ++ v))
      with ("D"%char :: "P"%char :: " "%char :: strip_comment v).
    rewrite Hcv.
    change (string_is_empty ("D"%char :: "P"%char :: " "%char :: v)) with false.
    cbv iota.
    assert (HL : ParseLine fuel ("D"%char :: "P"%char :: " "%char :: v) s
                 = Ret (true, with_temp s (push_back (temp_area s) p))).
    { unfold ParseLine.
      cbn [deref tl skipn is_one_of Ascii.eqb Bool.eqb orb value_after_space
           string_is_empty is_nul NUL Ascii.zero negb].
      rewrite Hv. reflexivity. }
    rewrite HL. cbn [bind negb andb].
    rewrite (IH pts') by assumption.
    replace (n + S (length values))%nat with (S n + length values)%nat by lia.
    f_equal. unfold with_temp, push_back, set_points.
    cbn [temp_area airspace_database points Waiting Name Radio Type_ Base Top
         days_of_operation Center Radius Rotation].
    rewrite <- app_assoc. reflexivity.
Qed.

(** X20.  An OpenAir record of points.  A file made of an [AC] line, an [AN]
    line and [DP] lines whose coordinates parse yields, at the end of the
    file, exactly one polygon: its class is that of the [AC] value, its name
    the [AN] value, its vertices the parsed points in the order of the
    lines, its altitudes the undefined ones and its radio empty. *)
Theorem OpenAir_record_of_points : forall fuel value name values pts db,
  strip_comment value = value -> strip_comment name = name ->
  Forall (fun v => strip_comment v = v) values ->
  Forall2 (fun v p => ReadCoords v GeoPoint_blank = (true, p)) values pts ->
  Parse ShowParseWarning fuel
    ((cs "AC " ++ value) :: (cs "AN " ++ name)
     :: map (fun v => cs "DP " ++ v) values) db
  = Ret (true,
         db ++ [mkAirspace (Polygon pts) (c_str name) (ParseType value)
                  AirspaceAltitude_init AirspaceAltitude_init [] set_all]).
Proof.
  intros fuel value name values pts db Hv Hn Hclean Hall.
  unfold Parse. cbn [Parse_loop].
  change (strip_comment (cs "AC " ++ value))
    with ("A"%char :: "C"%char :: " "%char :: strip_comment value).
  change (strip_comment (cs "AN " ++ name))
    with ("A"%char :: "N"%char :: " "%char :: strip_comment name).
  rewrite Hv, Hn.
  change (string_is_empty ("A"%char :: "C"%char :: " "%char :: value)) with false.
  change (string_is_empty ("A"%char :: "N"%char :: " "%char :: name)) with false.
  assert (Hd : DetectFileType ("A"%char :: "C"%char :: " "%char :: value)
               = AFT_OPENAIR).
  { unfold DetectFileType.
    cbn [cs list_ascii_of_string string_after_prefix_ci eqb_ci to_lower
         nat_of_ascii Ascii.eqb Bool.eqb is_some orb].
    cbn. rewrite ?prefix_ci_nil. reflexivity. }
  rewrite Hd. cbv iota.
  change (ParseLine fuel ("A"%char :: "C"%char :: " "%char :: value)
            {| temp_area := TempAirspaceType_new; airspace_database := db |})
    with (Ret (true,
               {| temp_area := start_record (reset TempAirspaceType_new)
                                 (ParseType value);
                  airspace_database := db |})).
  cbn [bind negb andb].
  change (ParseLine fuel ("A"%char :: "N"%char :: " "%char :: name)
            {| temp_area := start_record (reset TempAirspaceType_new)
                              (ParseType value);
               airspace_database := db |})
    with (Ret (true,
               {| temp_area :=
                    set_Name (start_record (reset TempAirspaceType_new)
                                (ParseType value)) (c_str name);
                  airspace_database := db |})).
  cbn [bind negb andb].
  rewrite <- (app_nil_r (map _ values)).
  rewrite (Parse_loop_DP_lines fuel [] false values pts) by assumption.
  reflexivity.
Qed.

Lemma Parse_loop_POINT_lines (fuel : nat) (rest : list (list ascii)) :
  forall values pts LineCount s,
    Forall (fun v => strip_comment v = v) values ->
    Forall2 (fun v p => ParseCoordsTNP v = Ret (true, p)) values pts ->
    Parse_loop ShowParseWarning fuel
      (map (fun v => cs "POINT=" ++ v) values ++ rest) LineCount AFT_TNP s false
    = Parse_loop ShowParseWarning fuel rest (LineCount + length values)
        AFT_TNP
        (with_temp s (set_points (temp_area s) (points (temp_area s) ++ pts)))
        false.
Proof.
  induction values as [|v values IH]; intros pts n s Hclean Hall.
  - inversion Hall; subst. cbn [map app length]. rewrite Nat.add_0_r, app_nil_r.
    destruct s as [[] ?]; reflexivity.
  - inversion Hall as [|? p ? pts' Hv Hrest]; subst.
    inversion Hclean as [|? ? Hcv Hcrest]; subst.
    cbn [map app length Parse_loop].
    change (strip_comment (cs "POINT=" ++ v))
      with ("P"%char :: "O"%char :: "I"%char :: "N"%char :: "T"%char
            :: "="%char :: strip_comment v).
    rewrite Hcv.
    change (string_is_empty ("P"%char :: "O"%char :: "I"%char :: "N"%char
                             :: "T"%char :: "="%char :: v)) with false.
    cbv iota.
    assert (HL : ParseLineTNP fuel
                   ("P"%char :: "O"%char :: "I"%char :: "N"%char :: "T"%char
                    :: "="%char :: v) s false
                 = Ret (true, with_temp s (push_back (temp_area s) p), false)).
    { unfold ParseLineTNP.
      change (string_after_prefix_ci
                ("P"%char :: "O"%char :: "I"%char :: "N"%char :: "T"%char
                 :: "="%char :: v) (cs "INCLUDE=")) with (@None (list ascii)).
      change (string_after_prefix_ci
                ("P"%char :: "O"%char :: "I"%char :: "N"%char :: "T"%char
                 :: "="%char :: v) (cs "POINT="))
        with (string_after_prefix_ci v []).
      rewrite prefix_ci_nil, Hv. reflexivity. }
    rewrite HL. cbn [bind negb andb].
    rewrite (IH pts') by assumption.
    replace (n + S (length values))%nat with (S n + length values)%nat by lia.
    f_equal. unfold with_temp, push_back, set_points.
    cbn [temp_area airspace_database points Waiting Name Radio Type_ Base Top
         days_of_operation Center Radius Rotation].
    rewrite <- app_assoc. reflexivity.
Qed.

(** X21.  A TNP record of points.  A file made of a [TYPE=] line, a [TITLE=]
    line and [POINT=] lines whose coordinates parse yields, at the end of
    the file, exactly one polygon: its class is that of the type, its name
    the title, its vertices the parsed points in the order of the lines. *)
Theorem TNP_record_of_points : forall fuel ty title values pts db,
  strip_comment ty = ty -> strip_comment title = title ->
  Forall (fun v => strip_comment v = v) values ->
  Forall2 (fun v p => ParseCoordsTNP v = Ret (true, p)) values pts ->
  Parse ShowParseWarning fuel
    ((cs "TYPE=" ++ ty) :: (cs "TITLE=" ++ title)
     :: map (fun v => cs "POINT=" ++ v) values) db
  = Ret (true,
         db ++ [mkAirspace (Polygon pts) (c_str title) (ParseTypeTNP ty)
                  AirspaceAltitude_init AirspaceAltitude_init [] set_all]).
Proof.
  intros fuel ty title values pts db Hty Hti Hclean Hall.
  unfold Parse. cbn [Parse_loop].
  change (strip_comment (cs "TYPE=" ++ ty))
    with ("T"%char :: "Y"%char :: "P"%char :: "E"%char :: "="%char
          :: strip_comment ty).
  change (strip_comment (cs "TITLE=" ++ title))
    with ("T"%char :: "I"%char :: "T"%char :: "L"%char :: "E"%char :: "="%char
          :: strip_comment title).
  rewrite Hty, Hti.
  change (string_is_empty ("T"%char :: "Y"%char :: "P"%char :: "E"%char
                           :: "="%char :: ty)) with false.
  change (string_is_empty ("T"%char :: "I"%char :: "T"%char :: "L"%char
                           :: "E"%char :: "="%char :: title)) with false.
  assert (Hd : DetectFileType ("T"%char :: "Y"%char :: "P"%char :: "E"%char
                               :: "="%char :: ty) = AFT_TNP).
  { unfold DetectFileType. cbn. rewrite ?prefix_ci_nil. reflexivity. }
  rewrite Hd. cbv iota.
  assert (H1 : ParseLineTNP fuel
                 ("T"%char :: "Y"%char :: "P"%char :: "E"%char :: "="%char :: ty)
                 {| temp_area := TempAirspaceType_new; airspace_database := db |}
                 false
               = Ret (true,
                      {| temp_area := start_record (reset TempAirspaceType_new)
                                        (ParseTypeTNP ty);
                         airspace_database := db |}, false)).
  { unfold ParseLineTNP. cbn [cs list_ascii_of_string string_after_prefix_ci
      eqb_ci to_lower nat_of_ascii Ascii.eqb Bool.eqb].
    cbn. rewrite ?prefix_ci_nil. reflexivity. }
  rewrite H1. cbn [bind negb andb].
  assert (H2 : ParseLineTNP fuel
                 ("T"%char :: "I"%char :: "T"%char :: "L"%char :: "E"%char
                  :: "="%char :: title)
                 {| temp_area := start_record (reset TempAirspaceType_new)
                                   (ParseTypeTNP ty);
                    airspace_database := db |} false
               = Ret (true,
                      {| temp_area :=
                           set_Name (start_record (reset TempAirspaceType_new)
                                       (ParseTypeTNP ty)) (c_str title);
                         airspace_database := db |}, false)).
  { unfold ParseLineTNP. cbn. rewrite ?prefix_ci_nil. reflexivity. }
  rewrite H2. cbn [bind negb andb].
  rewrite <- (app_nil_r (map _ values)).
  rewrite (Parse_loop_POINT_lines fuel [] values pts) by assumption.
  reflexivity.
Qed.

(** X22.  An OpenAir circle.  A file made of an [AC] line, an [AN] line, a
    [V X=] line whose coordinate parses and a [DC] line yields exactly one
    circle, at the [DC] line: its center is the parsed point, its radius the
    number of the line converted from nautical miles.  The record is
    waiting again afterwards, so the end of the file emits nothing more. *)
Theorem OpenAir_circle : forall fuel value name coords radius c db,
  strip_comment value = value -> strip_comment name = name ->
  strip_comment coords = coords -> strip_comment radius = radius ->
  ReadCoords coords (mkGeoPoint Angle_zero Angle_zero) = (true, c) ->
  Parse ShowParseWarning fuel
    [ cs "AC " ++ value; cs "AN " ++ name; cs "V X=" ++ coords;
      cs "DC " ++ radius ] db
  = Ret (true,
         db ++ [mkAirspace
                  (Circle c (ToSysUnit (fst (tcstod (" "%char :: radius)))
                                       unNauticalMiles))
                  (c_str name) (ParseType value)
                  AirspaceAltitude_init AirspaceAltitude_init [] set_all]).
Proof.
  intros fuel value name coords radius c db Hv Hn Hc Hr Hcoords.
  unfold Parse. cbn [Parse_loop].
  change (strip_comment (cs "AC " ++ value))
    with ("A"%char :: "C"%char :: " "%char :: strip_comment value).
  change (strip_comment (cs "AN " ++ name))
    with ("A"%char :: "N"%char :: " "%char :: strip_comment name).
  change (strip_comment (cs "V X=" ++ coords))
    with ("V"%char :: " "%char :: "X"%char :: "="%char :: strip_comment coords).
  change (strip_comment (cs "DC " ++ radius))
    with ("D"%char :: "C"%char :: " "%char :: strip_comment radius).
  rewrite Hv, Hn, Hc, Hr.
  change (string_is_empty ("A"%char :: "C"%char :: " "%char :: value)) with false.
  change (string_is_empty ("A"%char :: "N"%char :: " "%char :: name)) with false.
  change (string_is_empty ("V"%char :: " "%char :: "X"%char :: "="%char :: coords))
    with false.
  change (string_is_empty ("D"%char :: "C"%char :: " "%char :: radius)) with false.
  assert (Hd : DetectFileType ("A"%char :: "C"%char :: " "%char :: value)
               = AFT_OPENAIR).
  { unfold DetectFileType. cbn. rewrite ?prefix_ci_nil. reflexivity. }
  rewrite Hd. cbv iota.
  change (ParseLine fuel ("A"%char :: "C"%char :: " "%char :: value)
            {| temp_area := TempAirspaceType_new; airspace_database := db |})
    with (Ret (true,
               {| temp_area := start_record (reset TempAirspaceType_new)
                                 (ParseType value);
                  airspace_database := db |})).
  cbn [bind negb andb].
  change (ParseLine fuel ("A"%char :: "N"%char :: " "%char :: name)
            {| temp_area := start_record (reset TempAirspaceType_new)
                              (ParseType value);
               airspace_database := db |})
    with (Ret (true,
               {| temp_area :=
                    set_Name (start_record (reset TempAirspaceType_new)
                                (ParseType value)) (c_str name);
                  airspace_database := db |})).
  cbn [bind negb andb].
  assert (HV : ParseLine fuel
                 ("V"%char :: " "%char :: "X"%char :: "="%char :: coords)
                 {| temp_area :=
                      set_Name (start_record (reset TempAirspaceType_new)
                                  (ParseType value)) (c_str name);
                    airspace_database := db |}
               = Ret (true,
                      {| temp_area :=
                           set_Center
                             (set_Name (start_record (reset TempAirspaceType_new)
                                          (ParseType value)) (c_str name)) c;
                         airspace_database := db |})).
  { unfold ParseLine.
    cbn [deref tl is_one_of Ascii.eqb Bool.eqb orb].
    change (string_after_prefix_ci ("X"%char :: "="%char :: coords) (cs "X="))
      with (string_after_prefix_ci coords []).
    rewrite prefix_ci_nil.
    change (Center (temp_area _)) with (mkGeoPoint Angle_zero Angle_zero).
    rewrite Hcoords. reflexivity. }
  rewrite HV. cbn [bind negb andb].
  reflexivity.
Qed.

Lemma plain_run (r rest : list ascii) :
  forallb plain_char r = true ->
  find_space (r ++ " "%char :: rest) = Some (" "%char :: rest) /\
  strip_comment (r ++ " "%char :: rest) = r ++ " "%char :: strip_comment rest.
Proof.
  unfold find_space. induction r as [|x r IH]; intros Hr.
  - split; reflexivity.
  - cbn [forallb] in Hr. apply andb_true_iff in Hr. destruct Hr as [Hx Hr].
    unfold plain_char in Hx.
    apply andb_true_iff in Hx. destruct Hx as [Hx H3].
    apply andb_true_iff in Hx. destruct Hx as [H1 H2].
    apply negb_true_iff in H1, H2, H3.
    destruct (IH Hr) as [A B].
    cbn [app tcschr strip_comment]. rewrite H1, H2, H3.
    split; [exact A|]. rewrite B. reflexivity.
Qed.

(** X23.  A TNP circle.  A file made of a [TYPE=] line, a [TITLE=] line and a
    [CIRCLE] line whose centre parses emits the circle at the [CIRCLE]
    line.  The line leaves the record pending, so the end of the file emits
    the pending record too, as a polygon of the vertices gathered so far
    (none here). *)
Theorem TNP_circle : forall fuel ty title radius centre c db,
  strip_comment ty = ty -> strip_comment title = title ->
  forallb plain_char radius = true -> strip_comment centre = centre ->
  ParseCoordsTNP centre = Ret (true, c) ->
  Parse ShowParseWarning fuel
    [ cs "TYPE=" ++ ty; cs "TITLE=" ++ title;
      cs "CIRCLE RADIUS=" ++ radius ++ cs " CENTRE=" ++ centre ] db
  = Ret (true,
         db ++ [mkAirspace
                  (Circle c (ToSysUnit
                               (fst (tcstod (radius ++ cs " CENTRE=" ++ centre)))
                               unNauticalMiles))
                  (c_str title) (ParseTypeTNP ty)
                  AirspaceAltitude_init AirspaceAltitude_init [] set_all;
                mkAirspace (Polygon [])
                  (c_str title) (ParseTypeTNP ty)
                  AirspaceAltitude_init AirspaceAltitude_init [] set_all]).
Proof.
  intros fuel ty title radius centre c db Hty Hti Hr Hc Hcentre.
  destruct (plain_run radius (cs "CENTRE=" ++ centre) Hr) as [Hfind Hstrip].
  unfold Parse. cbn [Parse_loop].
  change (strip_comment (cs "TYPE=" ++ ty))
    with ("T"%char :: "Y"%char :: "P"%char :: "E"%char :: "="%char
          :: strip_comment ty).
  change (strip_comment (cs "TITLE=" ++ title))
    with ("T"%char :: "I"%char :: "T"%char :: "L"%char :: "E"%char :: "="%char
          :: strip_comment title).
  change (strip_comment (cs "CIRCLE RADIUS=" ++ radius ++ cs " CENTRE=" ++ centre))
    with (cs "CIRCLE RADIUS="
          ++ strip_comment (radius ++ " "%char :: cs "CENTRE=" ++ centre)).
  rewrite Hty, Hti, Hstrip.
  change (strip_comment (cs "CENTRE=" ++ centre))
    with (cs "CENTRE=" ++ strip_comment centre).
  rewrite Hc.
  change (string_is_empty ("T"%char :: "Y"%char :: "P"%char :: "E"%char
                           :: "="%char :: ty)) with false.
  change (string_is_empty ("T"%char :: "I"%char :: "T"%char :: "L"%char
                           :: "E"%char :: "="%char :: title)) with false.
  change (string_is_empty
            (cs "CIRCLE RADIUS=" ++ radius ++ " "%char :: cs "CENTRE=" ++ centre))
    with false.
  assert (Hd : DetectFileType ("T"%char :: "Y"%char :: "P"%char :: "E"%char
                               :: "="%char :: ty) = AFT_TNP).
  { unfold DetectFileType. cbn. rewrite ?prefix_ci_nil. reflexivity. }
  rewrite Hd. cbv iota.
  assert (H1 : ParseLineTNP fuel
                 ("T"%char :: "Y"%char :: "P"%char :: "E"%char :: "="%char :: ty)
                 {| temp_area := TempAirspaceType_new; airspace_database := db |}
                 false
               = Ret (true,
                      {| temp_area := start_record (reset TempAirspaceType_new)
                                        (ParseTypeTNP ty);
                         airspace_database := db |}, false)).
  { unfold ParseLineTNP. cbn. rewrite ?prefix_ci_nil. reflexivity. }
  rewrite H1. cbn [bind negb andb].
  assert (H2 : ParseLineTNP fuel
                 ("T"%char :: "I"%char :: "T"%char :: "L"%char :: "E"%char
                  :: "="%char :: title)
                 {| temp_area := start_record (reset TempAirspaceType_new)
                                   (ParseTypeTNP ty);
                    airspace_database := db |} false
               = Ret (true,
                      {| temp_area :=
                           set_Name (start_record (reset TempAirspaceType_new)
                                       (ParseTypeTNP ty)) (c_str title);
                         airspace_database := db |}, false)).
  { unfold ParseLineTNP. cbn. rewrite ?prefix_ci_nil. reflexivity. }
  rewrite H2. cbn [bind negb andb].
  set (t2 := set_Name (start_record (reset TempAirspaceType_new)
                         (ParseTypeTNP ty)) (c_str title)).
  set (R := ToSysUnit (fst (tcstod (radius ++ cs " CENTRE=" ++ centre)))
                      unNauticalMiles).
  assert (H3 : ParseLineTNP fuel
                 (cs "CIRCLE RADIUS=" ++ radius ++ " "%char :: cs "CENTRE=" ++ centre)
                 {| temp_area := t2; airspace_database := db |} false
               = Ret (true,
                      {| temp_area := set_Center (set_Radius t2 R) c;
                         airspace_database :=
                           AddCircle (set_Center (set_Radius t2 R) c) db |},
                      false)).
  { unfold ParseLineTNP.
    change (string_after_prefix_ci
              (cs "CIRCLE RADIUS=" ++ radius ++ " "%char :: cs "CENTRE=" ++ centre)
              (cs "INCLUDE=")) with (@None (list ascii)).
    change (string_after_prefix_ci
              (cs "CIRCLE RADIUS=" ++ radius ++ " "%char :: cs "CENTRE=" ++ centre)
              (cs "POINT=")) with (@None (list ascii)).
    change (string_after_prefix_ci
              (cs "CIRCLE RADIUS=" ++ radius ++ " "%char :: cs "CENTRE=" ++ centre)
              (cs "CIRCLE "))
      with (string_after_prefix_ci
              (cs "RADIUS=" ++ radius ++ " "%char :: cs "CENTRE=" ++ centre) []).
    rewrite prefix_ci_nil.
    unfold ParseCircleTNP.
    change (string_after_prefix_ci
              (cs "RADIUS=" ++ radius ++ " "%char :: cs "CENTRE=" ++ centre)
              (cs "RADIUS="))
      with (string_after_prefix_ci
              (radius ++ " "%char :: cs "CENTRE=" ++ centre) []).
    rewrite prefix_ci_nil, Hfind.
    change (string_after_prefix_ci (" "%char :: cs "CENTRE=" ++ centre)
              (cs " CENTRE="))
      with (string_after_prefix_ci centre []).
    rewrite prefix_ci_nil, Hcentre. reflexivity. }
  rewrite H3. cbn [bind negb andb Parse_loop].
  unfold AddPolygon, AddCircle, insert.
  cbn [temp_area airspace_database]. rewrite <- app_assoc. reflexivity.
Qed.

Lemma tcstod_digits_end (ds : list ascii) :
  digit_run ds ->
  tcstod ds = (inject_Z (digits_value ds), []) /\
  tcstod (" "%char :: ds) = (inject_Z (digits_value ds), []).
Proof.
  intros Hrun.
  pose proof (tcstod_digits ds [] Hrun eq_refl eq_refl eq_refl) as H.
  rewrite app_nil_r in H. exact H.
Qed.

Lemma ReadCoords_behind_latitude (d m s : list ascii) (h : ascii)
    (point : GeoPoint) :
  digit_run d -> digit_run m -> digit_run s -> is_nul h = false ->
  ReadCoords (d ++ ":" :: m ++ ":" :: s ++ [" "; h])%char point
  = (false,
     mkGeoPoint
       (hemisphere (is_one_of h "S" "s")
          (Angle_dms (inject_Z (digits_value d)) (inject_Z (digits_value m))
                     (inject_Z (digits_value s))))
       (Longitude point)).
Proof.
  intros D M S Hh. unfold ReadCoords.
  rewrite (proj1 (tcstod_digits d (":"%char :: _) D eq_refl eq_refl eq_refl)).
  rewrite ptr_eqb_shorter by apply D.
  cbn [orb deref is_nul Ascii.eqb Bool.eqb NUL Ascii.zero].
  rewrite read_min_sec_run by (assumption || reflexivity).
  unfold skip_one_space. cbn [deref tl Ascii.eqb Bool.eqb]. rewrite Hh.
  cbn [deref is_nul Ascii.eqb Bool.eqb NUL Ascii.zero].
  unfold hemisphere, is_one_of, Angle_dms, Angle_degrees.
  cbn [Latitude Longitude].
  destruct (Ascii.eqb h "S" || Ascii.eqb h "s")%bool; reflexivity.
Qed.

(** X24.  A coordinate that ends early.  [ReadCoords] fails on the empty text
    and on a text that ends behind the latitude number, leaving the point as
    it was.  On a text that ends behind the latitude letter, or behind the
    longitude number, it fails too, but has stored the latitude by then: the
    point it leaves has the parsed latitude and the old longitude. *)
Theorem ReadCoords_truncated : forall d m s h d2 m2 s2 point,
  digit_run d -> digit_run m -> digit_run s ->
  digit_run d2 -> digit_run m2 -> digit_run s2 ->
  is_nul h = false ->
  let lat := hemisphere (is_one_of h "S" "s")
               (Angle_dms (inject_Z (digits_value d)) (inject_Z (digits_value m))
                          (inject_Z (digits_value s))) in
  ReadCoords [] point = (false, point) /\
  ReadCoords (d ++ ":" :: m ++ ":" :: s)%char point = (false, point) /\
  ReadCoords (d ++ ":" :: m ++ ":" :: s ++ [" "; h])%char point
  = (false, mkGeoPoint lat (Longitude point)) /\
  ReadCoords (d ++ ":" :: m ++ ":" :: s ++ " " :: h :: " "
                :: d2 ++ ":" :: m2 ++ ":" :: s2)%char point
  = (false, mkGeoPoint lat (Longitude point)).
Proof.
  intros d m s h d2 m2 s2 point D M S D2 M2 S2 Hh lat.
  split; [reflexivity|].
  split.
  - unfold ReadCoords.
    rewrite (proj1 (tcstod_digits d (":"%char :: _) D eq_refl eq_refl eq_refl)).
    rewrite ptr_eqb_shorter by apply D.
    cbn [orb deref is_nul Ascii.eqb Bool.eqb NUL Ascii.zero].
    unfold read_min_sec. cbn [deref tl Ascii.eqb Bool.eqb].
    rewrite (proj1 (tcstod_digits m (":"%char :: _) M eq_refl eq_refl eq_refl)).
    cbn [deref is_nul Ascii.eqb Bool.eqb NUL Ascii.zero tl].
    rewrite (proj1 (tcstod_digits_end s S)). reflexivity.
  - split; [apply ReadCoords_behind_latitude; assumption|].
    unfold ReadCoords.
    rewrite (proj1 (tcstod_digits d (":"%char :: _) D eq_refl eq_refl eq_refl)).
    rewrite ptr_eqb_shorter by apply D.
    cbn [orb deref is_nul Ascii.eqb Bool.eqb NUL Ascii.zero].
    rewrite read_min_sec_run by (assumption || reflexivity).
    unfold skip_one_space. cbn [deref tl Ascii.eqb Bool.eqb]. rewrite Hh.
    cbn [deref is_nul Ascii.eqb Bool.eqb NUL Ascii.zero].
    rewrite (proj2 (tcstod_digits d2 (":"%char :: _) D2 eq_refl eq_refl eq_refl)).
    assert (Hneq : ptr_eqb
              (d ++ ":" :: m ++ ":" :: s ++ " " :: h :: " "
                 :: d2 ++ ":" :: m2 ++ ":" :: s2)%char
              (":" :: m2 ++ ":" :: s2)%char = false).
    { unfold ptr_eqb. apply Nat.eqb_neq.
      repeat (rewrite ?length_app; cbn [length]). lia. }
    rewrite Hneq.
    cbn [orb deref is_nul Ascii.eqb Bool.eqb NUL Ascii.zero].
    unfold read_min_sec. cbn [deref tl Ascii.eqb Bool.eqb].
    rewrite (proj1 (tcstod_digits m2 (":"%char :: _) M2 eq_refl eq_refl eq_refl)).
    cbn [deref is_nul Ascii.eqb Bool.eqb NUL Ascii.zero tl].
    rewrite (proj1 (tcstod_digits_end s2 S2)).
    cbn [deref is_nul Ascii.eqb Bool.eqb NUL Ascii.zero].
    unfold lat, hemisphere, is_one_of, Angle_dms, Angle_degrees.
    cbn [Latitude Longitude].
    destruct (Ascii.eqb h "S" || Ascii.eqb h "s")%bool; reflexivity.
Qed.

(** X25.  A coordinate that fails half way.  The [DP] line reads into a point
    of its own, so a coordinate that ends behind the latitude letter fails
    the line and changes nothing.  The [V X=] line reads into the center of
    the pending record: the same text fails the line too, but the center
    keeps the latitude that was read, next to its old longitude. *)
Theorem V_X_failure_moves_center : forall fuel v c d m s h st,
  is_one_of v "V" "v" = true ->
  digit_run d -> digit_run m -> digit_run s -> is_nul h = false ->
  let text := (d ++ ":" :: m ++ ":" :: s ++ [" "; h])%char in
  let lat := hemisphere (is_one_of h "S" "s")
               (Angle_dms (inject_Z (digits_value d)) (inject_Z (digits_value m))
                          (inject_Z (digits_value s))) in
  ParseLine fuel (cs "DP " ++ text) st = Ret (false, st) /\
  ParseLine fuel (v :: c :: cs "X=" ++ text) st
  = Ret (false,
         with_temp st
           (set_Center (temp_area st)
              (mkGeoPoint lat (Longitude (Center (temp_area st)))))).
Proof.
  intros fuel v c d m s h st Hv D M S Hh text lat. split.
  - unfold ParseLine.
    cbn [cs list_ascii_of_string app deref tl skipn is_one_of Ascii.eqb
         Bool.eqb orb].
    unfold value_after_space, string_is_empty.
    cbn [deref is_nul Ascii.eqb Bool.eqb NUL Ascii.zero negb tl].
    unfold text. rewrite ReadCoords_behind_latitude by assumption.
    reflexivity.
  - assert (Hd : is_one_of v "D" "d" = false).
    { unfold is_one_of in *. apply orb_true_iff in Hv.
      destruct Hv as [E | E]; apply Ascii.eqb_eq in E; subst v; reflexivity. }
    unfold ParseLine. cbn [deref tl]. rewrite Hd, Hv.
    cbn [cs list_ascii_of_string app].
    assert (Hx : string_after_prefix_ci ("X" :: "=" :: text)%char (cs "X=")
                 = Some text).
    { cbn. apply prefix_ci_nil. }
    cbn [cs list_ascii_of_string] in Hx. rewrite Hx.
    unfold text. rewrite ReadCoords_behind_latitude by assumption.
    reflexivity.
Qed.


(** X26.  A [DA] line with too few numbers.  When the line ends behind the
    radius, or behind the start bearing, the number that should follow is
    read from behind the end of the line, whatever separates the numbers. *)
Theorem DA_with_too_few_numbers : forall fuel t c0 c1 r sep sb,
  digit_run r -> digit_run sb ->
  is_digit sep = false -> Ascii.eqb sep "." = false -> eqb_ci sep "e" = false ->
  CalculateSector fuel (c0 :: c1 :: " " :: r)%char t = OutOfString /\
  CalculateSector fuel (c0 :: c1 :: " " :: r ++ sep :: sb)%char t = OutOfString.
Proof.
  intros fuel t c0 c1 r sep sb R SB S1 S2 S3. unfold CalculateSector.
  cbn [skipn]. split.
  - rewrite (proj2 (tcstod_digits_end r R)). reflexivity.
  - rewrite (proj2 (tcstod_digits r (sep :: sb) R S1 S2 S3)).
    rewrite (proj1 (tcstod_digits_end sb SB)). reflexivity.
Qed.

Lemma Parse_loop_shift (fuel k : nat) : forall lines n filetype s ignore,
  Parse_loop ShowParseWarning fuel lines (k + n) filetype s ignore
  = Parse_loop (fun i l => ShowParseWarning (k + i)%nat l) fuel lines n
      filetype s ignore.
Proof.
  induction lines as [|raw rest IH]; intros n filetype s ignore; [reflexivity|].
  cbn [Parse_loop]. rewrite <- ?Nat.add_succ_r.
  destruct (string_is_empty (strip_comment raw)); [apply IH|].
  destruct (match filetype with
            | AFT_UNKNOWN => DetectFileType (strip_comment raw)
            | _ => filetype
            end); [apply IH| |].
  - destruct (ParseLine fuel (strip_comment raw) s) as [[ok s1]| | |];
      cbn [bind]; try reflexivity.
    destruct (negb ok && negb (ShowParseWarning (k + n)%nat (strip_comment raw)))%bool;
      [reflexivity|apply IH].
  - destruct (ParseLineTNP fuel (strip_comment raw) s ignore)
      as [[[ok s1] ig1]| | |]; cbn [bind]; try reflexivity.
    destruct (negb ok && negb (ShowParseWarning (k + n)%nat (strip_comment raw)))%bool;
      [reflexivity|apply IH].
Qed.

(** X27.  What stands before the first line that tells the dialect is lost.
    Lines that are empty or that [DetectFileType] does not recognise, an
    [AN] or [DP] line before the first [AC] line for one, are passed over
    while the file type is unknown; the result is that of the file without
    them, except that they count in the line numbers the operator is
    shown. *)
Theorem Parse_skips_leading_lines : forall fuel pre rest db,
  Forall undetected pre ->
  Parse ShowParseWarning fuel (pre ++ rest) db
  = Parse (fun i l => ShowParseWarning (length pre + i)%nat l) fuel rest db.
Proof.
  intros fuel pre rest db Hpre. unfold Parse.
  rewrite Parse_loop_skips_undetected by exact Hpre.
  rewrite (Nat.add_comm 1 (length pre)). rewrite Parse_loop_shift.
  reflexivity.
Qed.
End Coverage.

(** * The further theorems at concrete input *)

Lemma digit_run_intro (ds : list ascii) :
  (forallb is_digit ds && negb (Nat.eqb (length ds) 0))%bool = true ->
  digit_run ds.
Proof.
  intros H. apply andb_true_iff in H. destruct H as [H Hne]. split.
  - apply Forall_forall. intros c Hc.
    exact (proj1 (forallb_forall is_digit ds) H c Hc).
  - intros ->. discriminate Hne.
Qed.

Lemma Parse_ends_witness :
  Parse (U := si_units) (G := grid_geodesy) always_continue 73 sector_example []
  <> OutOfFuel.
Proof.
  apply (Parse_ends (U := si_units) (G := grid_geodesy) always_continue
           (fun c p => as_bearing_range (Longitude p)) 73 sector_example []).
  lia.
Defined.


Lemma filetype_is_kept_witness :
  exists ok filetype' s',
    Parse_loop (U := si_units) (G := grid_geodesy) always_continue 0
      (map cs ["AN Test"; "TYPE=R"; "INCLUDE=NO"]%string) 2 AFT_OPENAIR
      start_state false
    = Ret (ok, filetype', s') /\ filetype' = AFT_OPENAIR.
Proof.
  assert (H : Parse_loop (U := si_units) (G := grid_geodesy) always_continue 0
                (map cs ["AN Test"; "TYPE=R"; "INCLUDE=NO"]%string) 2 AFT_OPENAIR
                start_state false
              = Ret (true, AFT_OPENAIR,
                     mkPState (set_Name TempAirspaceType_new (cs "Test")) []))
    by (vm_compute; reflexivity).
  eexists _, _, _. split; [exact H|].
  eapply (filetype_is_kept (U := si_units) (G := grid_geodesy) always_continue 0);
    [|exact H]; discriminate.
Defined.

Lemma ParseLine_skips_directive_without_blank_witness :
  ParseLine (U := si_units) (G := grid_geodesy) 0 (cs "ANTest") start_state
  = Ret (true, start_state).
Proof.
  exact (ParseLine_skips_directive_without_blank (U := si_units)
           (G := grid_geodesy) 0 "A" "N" "T" (cs "est") start_state
           eq_refl eq_refl eq_refl).
Defined.

Lemma TNP_arc_without_point_fails_witness :
  ParseLineTNP (U := si_units) (G := grid_geodesy) 0
    (cs "CLOCKWISE RADIUS=10 CENTRE=N500000 E0100000 TO=N510000 E0100000")
    start_state false
  = Ret (false, with_temp start_state (set_Rotation TempAirspaceType_new 1),
         false).
Proof.
  exact (proj1 (TNP_arc_without_point_fails (U := si_units) (G := grid_geodesy)
                  0
                  (cs "CLOCKWISE RADIUS=10 CENTRE=N500000 E0100000 TO=N510000 E0100000")
                  (cs "RADIUS=10 CENTRE=N500000 E0100000 TO=N510000 E0100000")
                  start_state eq_refl) eq_refl).
Defined.

Lemma TNP_POINT_appends_one_vertex_witness :
  exists s',
    ParseLineTNP (U := si_units) (G := grid_geodesy) 0
      (cs "POINT=S542500 W0105000") start_state false
    = Ret (true, s', false) /\
    points (temp_area s') = [mkGeoPoint (- (653 # 12))%Q (- (65 # 6))%Q] /\
    airspace_database s' = [].
Proof.
  exists (mkPState
            (mkTemp true [] [] OTHER AirspaceAltitude_init
               AirspaceAltitude_init set_all
               [mkGeoPoint (- (653 # 12))%Q (- (65 # 6))%Q]
               (mkGeoPoint Angle_zero Angle_zero) fixed_zero 1) []).
  assert (H : ParseLineTNP (U := si_units) (G := grid_geodesy) 0
                (cs "POINT=S542500 W0105000") start_state false
              = Ret (true,
                     mkPState
                       (mkTemp true [] [] OTHER AirspaceAltitude_init
                          AirspaceAltitude_init set_all
                          [mkGeoPoint (- (653 # 12))%Q (- (65 # 6))%Q]
                          (mkGeoPoint Angle_zero Angle_zero) fixed_zero 1) [],
                     false))
    by (vm_compute; reflexivity).
  destruct (TNP_POINT_appends_one_vertex (U := si_units) (G := grid_geodesy) 0
              (cs "POINT=S542500 W0105000") (cs "S542500 W0105000")
              start_state true _ false eq_refl H)
    as (_ & _ & Hdb & pt & _ & _ & Hpts & _).
  split; [exact H|]. split; [reflexivity|exact Hdb].
Defined.

Lemma ParseCoordsTNP_one_group_witness :
  ParseCoordsTNP [] = OutOfString /\
  ParseCoordsTNP (cs "N542500") = OutOfString /\
  ParseCoordsTNP (cs "N542500 ") = OutOfString.
Proof.
  apply (ParseCoordsTNP_one_group "N" (cs "542500")).
  - repeat constructor.
  - cbn. lia.
Defined.

Lemma ReadCoords_sexagesimal_witness :
  ReadCoords (cs "50:10:00 S 010:10:00 E") GeoPoint_blank
  = (true, mkGeoPoint (- (301 # 6))%Q (61 # 6)%Q).
Proof.
  exact (proj1 (ReadCoords_sexagesimal (cs "50") (cs "10") (cs "00") "S"
                  (cs "010") (cs "10") (cs "00") "E" GeoPoint_blank
                  (digit_run_intro (cs "50") eq_refl)
                  (digit_run_intro (cs "10") eq_refl)
                  (digit_run_intro (cs "00") eq_refl)
                  (digit_run_intro (cs "010") eq_refl)
                  (digit_run_intro (cs "10") eq_refl)
                  (digit_run_intro (cs "00") eq_refl)
                  eq_refl eq_refl)).
Defined.

Lemma ReadAltitude_bare_number_witness :
  ReadAltitude (U := si_units) (cs "1500 ")
  = Ret (mkAlt (2286 # 5)%Q fixed_zero fixed_zero MSL) /\
  ReadAltitude (U := si_units) (cs "1500") = OutOfString.
Proof.
  exact (ReadAltitude_bare_number (U := si_units) (cs "1500")
           (digit_run_intro (cs "1500") eq_refl)).
Defined.

Lemma ReadAltitude_flight_level_witness :
  ReadAltitude (U := si_units) (cs "FL150 ")
  = Ret (mkAlt fixed_zero 50%Q fixed_zero FL).
Proof.
  exact (ReadAltitude_flight_level (U := si_units) "F" "L" "1" (cs "50")
           eq_refl eq_refl (digit_run_intro (cs "50") eq_refl)).
Defined.

Lemma ReadAltitude_units_witness :
  ReadAltitude (U := si_units) (cs "1500 FT ")
  = Ret (mkAlt (2286 # 5)%Q fixed_zero fixed_zero MSL) /\
  ReadAltitude (U := si_units) (cs "1500 M ")
  = Ret (mkAlt 1500%Q fixed_zero fixed_zero MSL) /\
  ReadAltitude (U := si_units) (cs "1500 MSL ")
  = Ret (mkAlt (2286 # 5)%Q fixed_zero fixed_zero MSL).
Proof.
  exact (ReadAltitude_units (U := si_units) (cs "1500")
           (digit_run_intro (cs "1500") eq_refl)).
Defined.


Lemma OpenAir_record_of_points_witness :
  Parse (U := si_units) (G := grid_geodesy) always_continue 0
    (map cs [ "AC R"; "AN Test";
              "DP 50:00:00 N 010:00:00 E";
              "DP 50:10:00 N 010:00:00 E";
              "DP 50:10:00 N 010:10:00 E" ]%string) []
  = Ret (true,
         [mkAirspace (Polygon example_vertices) (cs "Test") RESTRICT
            AirspaceAltitude_init AirspaceAltitude_init [] set_all]).
Proof.
  apply (OpenAir_record_of_points (U := si_units) (G := grid_geodesy)
           always_continue 0 (cs "R") (cs "Test")
           (map cs [ "50:00:00 N 010:00:00 E"; "50:10:00 N 010:00:00 E";
                     "50:10:00 N 010:10:00 E" ]%string)
           example_vertices []).
  - reflexivity.
  - reflexivity.
  - repeat constructor.
  - repeat constructor.
Defined.

Lemma TNP_record_of_points_witness :
  Parse (U := si_units) (G := grid_geodesy) always_continue 0
    (map cs [ "TYPE=R"; "TITLE=Test";
              "POINT=N500000 E0100000";
              "POINT=N501000 E0100000";
              "POINT=N501000 E0101000" ]%string) []
  = Ret (true,
         [mkAirspace (Polygon example_vertices) (cs "Test") RESTRICT
            AirspaceAltitude_init AirspaceAltitude_init [] set_all]).
Proof.
  apply (TNP_record_of_points (U := si_units) (G := grid_geodesy)
           always_continue 0 (cs "R") (cs "Test")
           (map cs [ "N500000 E0100000"; "N501000 E0100000";
                     "N501000 E0101000" ]%string)
           example_vertices []).
  - reflexivity.
  - reflexivity.
  - repeat constructor.
  - repeat constructor.
Defined.

Lemma OpenAir_circle_witness :
  Parse (U := si_units) (G := grid_geodesy) always_continue 0
    (map cs [ "AC R"; "AN Test"; "V X=50:00:00 N 010:00:00 E";
              "DC 10" ]%string) []
  = Ret (true,
         [mkAirspace (Circle (mkGeoPoint 50%Q 10%Q) 18520%Q) (cs "Test")
            RESTRICT AirspaceAltitude_init AirspaceAltitude_init [] set_all]).
Proof.
  exact (OpenAir_circle (U := si_units) (G := grid_geodesy) always_continue 0
           (cs "R") (cs "Test") (cs "50:00:00 N 010:00:00 E") (cs "10")
           (mkGeoPoint 50%Q 10%Q) [] eq_refl eq_refl eq_refl eq_refl eq_refl).
Defined.

Lemma TNP_circle_witness :
  Parse (U := si_units) (G := grid_geodesy) always_continue 0
    (map cs [ "TYPE=R"; "TITLE=Test";
              "CIRCLE RADIUS=10 CENTRE=N500000 E0100000" ]%string) []
  = Ret (true,
         [mkAirspace (Circle (mkGeoPoint 50%Q 10%Q) 18520%Q) (cs "Test")
            RESTRICT AirspaceAltitude_init AirspaceAltitude_init [] set_all;
          mkAirspace (Polygon []) (cs "Test")
            RESTRICT AirspaceAltitude_init AirspaceAltitude_init [] set_all]).
Proof.
  exact (TNP_circle (U := si_units) (G := grid_geodesy) always_continue 0
           (cs "R") (cs "Test") (cs "10") (cs "N500000 E0100000")
           (mkGeoPoint 50%Q 10%Q) [] eq_refl eq_refl eq_refl eq_refl eq_refl).
Defined.

Lemma ReadCoords_truncated_witness :
  ReadCoords [] GeoPoint_blank = (false, GeoPoint_blank) /\
  ReadCoords (cs "50:10:00") GeoPoint_blank = (false, GeoPoint_blank) /\
  ReadCoords (cs "50:10:00 N") GeoPoint_blank
  = (false, mkGeoPoint (301 # 6)%Q 0%Q) /\
  ReadCoords (cs "50:10:00 N 010:10:00") GeoPoint_blank
  = (false, mkGeoPoint (301 # 6)%Q 0%Q).
Proof.
  exact (ReadCoords_truncated (cs "50") (cs "10") (cs "00") "N"
           (cs "010") (cs "10") (cs "00") GeoPoint_blank
           (digit_run_intro (cs "50") eq_refl)
           (digit_run_intro (cs "10") eq_refl)
           (digit_run_intro (cs "00") eq_refl)
           (digit_run_intro (cs "010") eq_refl)
           (digit_run_intro (cs "10") eq_refl)
           (digit_run_intro (cs "00") eq_refl)
           eq_refl).
Defined.

Lemma V_X_failure_moves_center_witness :
  ParseLine (U := si_units) (G := grid_geodesy) 0 (cs "DP 50:10:00 N")
    start_state
  = Ret (false, start_state) /\
  ParseLine (U := si_units) (G := grid_geodesy) 0 (cs "V X=50:10:00 N")
    start_state
  = Ret (false,
         with_temp start_state
           (set_Center TempAirspaceType_new (mkGeoPoint (301 # 6)%Q 0%Q))).
Proof.
  exact (V_X_failure_moves_center (U := si_units) (G := grid_geodesy) 0
           "V" " " (cs "50") (cs "10") (cs "00") "N" start_state
           eq_refl
           (digit_run_intro (cs "50") eq_refl)
           (digit_run_intro (cs "10") eq_refl)
           (digit_run_intro (cs "00") eq_refl)
           eq_refl).
Defined.

Lemma DA_with_too_few_numbers_witness :
  CalculateSector (U := si_units) (G := grid_geodesy) 73 (cs "DA 10")
    arc_pending = OutOfString /\
  CalculateSector (U := si_units) (G := grid_geodesy) 73 (cs "DA 10,350")
    arc_pending = OutOfString.
Proof.
  exact (DA_with_too_few_numbers (U := si_units) (G := grid_geodesy) 73
           arc_pending "D" "A" (cs "10") "," (cs "350")
           (digit_run_intro (cs "10") eq_refl)
           (digit_run_intro (cs "350") eq_refl)
           eq_refl eq_refl eq_refl).
Defined.

Lemma Parse_skips_leading_lines_witness :
  Parse (U := si_units) (G := grid_geodesy) always_continue 0
    (map cs ["AN Lost"; "* a comment"; "DP 50:00:00 N 010:00:00 E"]%string
     ++ openair_example_blank) []
  = Parse (U := si_units) (G := grid_geodesy)
      (fun i l => always_continue (3 + i)%nat l) 0 openair_example_blank [].
Proof.
  apply (Parse_skips_leading_lines (U := si_units) (G := grid_geodesy)
           always_continue 0
           (map cs ["AN Lost"; "* a comment"; "DP 50:00:00 N 010:00:00 E"]%string)
           openair_example_blank []).
  constructor; [right; reflexivity|].
  constructor; [left; reflexivity|].
  constructor; [right; reflexivity|].
  constructor.
Defined.

(** * Properties of the units panel *)

Section PanelProperties.

Import UnitsConfigPanel.

Context {ids : UnitIds}.
Variable SaveFormPropertyEnum :
  Form -> string -> ProfileKey -> Z -> Profile -> bool * Z * Profile.


Lemma to_int_to_unsigned (z : Z) : is_int z -> to_int (to_unsigned z) = z.
Proof.
  unfold is_int, to_int, to_unsigned. intros H.
  rewrite Z.mod_mod by lia.
  destruct (Z.ltb_spec (z mod 2 ^ 32) (2 ^ 31)) as [L | L].
  - destruct (Z_lt_le_dec z 0) as [N | N].
    + rewrite <- (Z.mod_add z 1 (2 ^ 32)) in L by lia.
      rewrite Z.mod_small in L by lia. lia.
    + apply Z.mod_small. lia.
  - destruct (Z_lt_le_dec z 0) as [N | N].
    + rewrite <- (Z.mod_add z 1 (2 ^ 32)) by lia.
      rewrite Z.mod_small by lia. lia.
    + rewrite Z.mod_small in L by lia. lia.
Qed.

Lemma to_int_small (z : Z) : 0 <= z < 2 ^ 31 -> to_int z = z.
Proof.
  intros H. unfold to_int. rewrite Z.mod_small by lia.
  destruct (Z.ltb_spec z (2 ^ 31)); lia.
Qed.

Lemma speed_index_range (u : Z) : 0 <= speed_index u < 2 ^ 31.
Proof. unfold speed_index. repeat destruct (_ =? _); lia. Qed.

Lemma distance_index_range (u : Z) : 0 <= distance_index u < 2 ^ 31.
Proof. unfold distance_index. repeat destruct (_ =? _); lia. Qed.

Lemma altitude_index_range (u : Z) : 0 <= altitude_index u < 2 ^ 31.
Proof. unfold altitude_index. repeat destruct (_ =? _); lia. Qed.

Lemma temperature_index_range (u : Z) : 0 <= temperature_index u < 2 ^ 31.
Proof. unfold temperature_index. repeat destruct (_ =? _); lia. Qed.

Lemma lift_index_range (u : Z) : 0 <= lift_index u < 2 ^ 31.
Proof. unfold lift_index. repeat destruct (_ =? _); lia. Qed.

Lemma Save_speed_same (wf : Form) (a : Saving) :
  to_int (SpeedUnits (statics a)) = GetFormValueInteger wf "prpUnitsSpeed" ->
  Save_speed wf a = a.
Proof. intros H. unfold Save_speed. rewrite H, Z.eqb_refl. reflexivity. Qed.

Lemma Save_lat_lon_same (wf : Form) (a : Saving) :
  coordinate_format (config a) = GetFormValueInteger wf "prpUnitsLatLon" ->
  Save_lat_lon wf a = a.
Proof. intros H. unfold Save_lat_lon. rewrite H, Z.eqb_refl. reflexivity. Qed.

Lemma Save_task_speed_same (wf : Form) (a : Saving) :
  to_int (TaskSpeedUnits (statics a))
  = GetFormValueInteger wf "prpUnitsTaskSpeed" ->
  Save_task_speed wf a = a.
Proof. intros H. unfold Save_task_speed. rewrite H, Z.eqb_refl. reflexivity. Qed.

Lemma Save_distance_same (wf : Form) (a : Saving) :
  to_int (DistanceUnits (statics a))
  = GetFormValueInteger wf "prpUnitsDistance" ->
  Save_distance wf a = a.
Proof. intros H. unfold Save_distance. rewrite H, Z.eqb_refl. reflexivity. Qed.

Lemma Save_lift_same (wf : Form) (a : Saving) :
  to_int (LiftUnits (statics a)) = GetFormValueInteger wf "prpUnitsLift" ->
  Save_lift wf a = a.
Proof. intros H. unfold Save_lift. rewrite H, Z.eqb_refl. reflexivity. Qed.

Lemma Save_altitude_same (wf : Form) (a : Saving) :
  to_int (AltitudeUnits (statics a))
  = GetFormValueInteger wf "prpUnitsAltitude" ->
  Save_altitude wf a = a.
Proof. intros H. unfold Save_altitude. rewrite H, Z.eqb_refl. reflexivity. Qed.

Lemma Save_temperature_same (wf : Form) (a : Saving) :
  to_int (TemperatureUnits (statics a))
  = GetFormValueInteger wf "prpUnitsTemperature" ->
  Save_temperature wf a = a.
Proof.
  intros H. unfold Save_temperature. rewrite H, Z.eqb_refl. reflexivity.
Qed.

Lemma Save_pressure_statics (wf : Form) (a : Saving) :
  statics (Save_pressure SaveFormPropertyEnum wf a) = statics a.
Proof.
  unfold Save_pressure.
  destruct (SaveFormPropertyEnum _ _ _ _ _) as [[ch v] p']. reflexivity.
Qed.

Lemma Save_of_settled (wf : Form) (c : UnitSetting) (s : Statics) (p : Profile) :
  settled wf c s ->
  Save SaveFormPropertyEnum wf c s p = Save_pressure SaveFormPropertyEnum wf (mkSaving c s p false).
Proof.
  intros (H1 & H2 & H3 & H4 & H5 & H6 & H7).
  unfold Save.
  rewrite (Save_speed_same wf (mkSaving c s p false) H1), (Save_lat_lon_same wf (mkSaving c s p false) H2),
    (Save_task_speed_same wf (mkSaving c s p false) H3), (Save_distance_same wf (mkSaving c s p false) H4),
    (Save_lift_same wf (mkSaving c s p false) H5).
  rewrite (Save_altitude_same wf)
    by (rewrite Save_pressure_statics; exact H6).
  apply Save_temperature_same. rewrite Save_pressure_statics. exact H7.
Qed.

Ltac one_step :=
  let a := fresh "a" in
  intros a;
  destruct a as [[cf su wu tu du au mu vu pu] [S1 S2 S3 S4 S5 S6 ld] p ch];
  cbn [statics config profile changed negb
       set_speed_units set_coordinate_format set_task_speed_unit
       set_distance_unit set_vertical_speed_unit set_altitude_unit
       set_temperature_unit set_pressure_unit
       set_SpeedUnits set_TaskSpeedUnits set_DistanceUnits set_LiftUnits
       set_AltitudeUnits set_TemperatureUnits
       SpeedUnits TaskSpeedUnits DistanceUnits LiftUnits AltitudeUnits
       TemperatureUnits coordinate_format pressure_unit];
  match goal with
  | |- context [?x =? ?y] => destruct (Z.eqb_spec x y)
  | |- context [SaveFormPropertyEnum ?w ?n ?k ?v ?q] =>
      destruct (SaveFormPropertyEnum w n k v q) as [[? ?] ?]
  end;
  cbn [statics config profile changed negb
       set_speed_units set_coordinate_format set_task_speed_unit
       set_distance_unit set_vertical_speed_unit set_altitude_unit
       set_temperature_unit set_pressure_unit
       set_SpeedUnits set_TaskSpeedUnits set_DistanceUnits set_LiftUnits
       set_AltitudeUnits set_TemperatureUnits
       SpeedUnits TaskSpeedUnits DistanceUnits LiftUnits AltitudeUnits
       TemperatureUnits coordinate_format pressure_unit];
  intros;
  repeat match goal with
         | H : _ /\ _ |- _ => destruct H
         end;
  repeat match goal with
         | |- _ /\ _ => split
         end;
  first [ assumption | reflexivity | apply to_int_to_unsigned; assumption ].

Section Steps.

Variable wf : Form.
Hypothesis ints : Forall (fun n => is_int (GetFormValueInteger wf n)) index_fields.

Lemma ints_each :
  is_int (GetFormValueInteger wf "prpUnitsSpeed") /\ is_int (GetFormValueInteger wf "prpUnitsLatLon") /\
  is_int (GetFormValueInteger wf "prpUnitsTaskSpeed") /\ is_int (GetFormValueInteger wf "prpUnitsDistance") /\
  is_int (GetFormValueInteger wf "prpUnitsLift") /\ is_int (GetFormValueInteger wf "prpUnitsAltitude") /\
  is_int (GetFormValueInteger wf "prpUnitsTemperature").
Proof.
  pose proof ints as H0. unfold index_fields in H0.
  repeat match goal with
         | H : Forall _ (_ :: _) |- _ =>
             let Hh := fresh "I" in
             apply Forall_cons_iff in H; destruct H as [Hh H]
         end.
  repeat (split; [assumption|]). assumption.
Qed.

Lemma after_speed : forall a,
  let a' := Save_speed wf a in
  to_int (SpeedUnits (statics a')) = GetFormValueInteger wf "prpUnitsSpeed".
Proof.
  destruct ints_each as (I1 & I2 & I3 & I4 & I5 & I6 & I7).
  unfold Save_speed in *. one_step.
Qed.

Lemma after_lat_lon : forall a,
  to_int (SpeedUnits (statics a)) = GetFormValueInteger wf "prpUnitsSpeed" ->
  let a' := Save_lat_lon wf a in
  to_int (SpeedUnits (statics a')) = GetFormValueInteger wf "prpUnitsSpeed" /\
  coordinate_format (config a') = GetFormValueInteger wf "prpUnitsLatLon".
Proof.
  destruct ints_each as (I1 & I2 & I3 & I4 & I5 & I6 & I7).
  unfold Save_lat_lon in *. one_step.
Qed.

Lemma after_task_speed : forall a,
  to_int (SpeedUnits (statics a)) = GetFormValueInteger wf "prpUnitsSpeed" /\
  coordinate_format (config a) = GetFormValueInteger wf "prpUnitsLatLon" ->
  let a' := Save_task_speed wf a in
  to_int (SpeedUnits (statics a')) = GetFormValueInteger wf "prpUnitsSpeed" /\
  coordinate_format (config a') = GetFormValueInteger wf "prpUnitsLatLon" /\
  to_int (TaskSpeedUnits (statics a')) = GetFormValueInteger wf "prpUnitsTaskSpeed".
Proof.
  destruct ints_each as (I1 & I2 & I3 & I4 & I5 & I6 & I7).
  unfold Save_task_speed in *. one_step.
Qed.

Lemma after_distance : forall a,
  to_int (SpeedUnits (statics a)) = GetFormValueInteger wf "prpUnitsSpeed" /\
  coordinate_format (config a) = GetFormValueInteger wf "prpUnitsLatLon" /\
  to_int (TaskSpeedUnits (statics a)) = GetFormValueInteger wf "prpUnitsTaskSpeed" ->
  let a' := Save_distance wf a in
  to_int (SpeedUnits (statics a')) = GetFormValueInteger wf "prpUnitsSpeed" /\
  coordinate_format (config a') = GetFormValueInteger wf "prpUnitsLatLon" /\
  to_int (TaskSpeedUnits (statics a')) = GetFormValueInteger wf "prpUnitsTaskSpeed" /\
  to_int (DistanceUnits (statics a')) = GetFormValueInteger wf "prpUnitsDistance".
Proof.
  destruct ints_each as (I1 & I2 & I3 & I4 & I5 & I6 & I7).
  unfold Save_distance in *. one_step.
Qed.

Lemma after_lift : forall a,
  to_int (SpeedUnits (statics a)) = GetFormValueInteger wf "prpUnitsSpeed" /\
  coordinate_format (config a) = GetFormValueInteger wf "prpUnitsLatLon" /\
  to_int (TaskSpeedUnits (statics a)) = GetFormValueInteger wf "prpUnitsTaskSpeed" /\
  to_int (DistanceUnits (statics a)) = GetFormValueInteger wf "prpUnitsDistance" ->
  let a' := Save_lift wf a in
  to_int (SpeedUnits (statics a')) = GetFormValueInteger wf "prpUnitsSpeed" /\
  coordinate_format (config a') = GetFormValueInteger wf "prpUnitsLatLon" /\
  to_int (TaskSpeedUnits (statics a')) = GetFormValueInteger wf "prpUnitsTaskSpeed" /\
  to_int (DistanceUnits (statics a')) = GetFormValueInteger wf "prpUnitsDistance" /\
  to_int (LiftUnits (statics a')) = GetFormValueInteger wf "prpUnitsLift".
Proof.
  destruct ints_each as (I1 & I2 & I3 & I4 & I5 & I6 & I7).
  unfold Save_lift in *. one_step.
Qed.

Lemma after_pressure : forall a,
  to_int (SpeedUnits (statics a)) = GetFormValueInteger wf "prpUnitsSpeed" /\
  coordinate_format (config a) = GetFormValueInteger wf "prpUnitsLatLon" /\
  to_int (TaskSpeedUnits (statics a)) = GetFormValueInteger wf "prpUnitsTaskSpeed" /\
  to_int (DistanceUnits (statics a)) = GetFormValueInteger wf "prpUnitsDistance" /\
  to_int (LiftUnits (statics a)) = GetFormValueInteger wf "prpUnitsLift" ->
  let a' := Save_pressure SaveFormPropertyEnum wf a in
  to_int (SpeedUnits (statics a')) = GetFormValueInteger wf "prpUnitsSpeed" /\
  coordinate_format (config a') = GetFormValueInteger wf "prpUnitsLatLon" /\
  to_int (TaskSpeedUnits (statics a')) = GetFormValueInteger wf "prpUnitsTaskSpeed" /\
  to_int (DistanceUnits (statics a')) = GetFormValueInteger wf "prpUnitsDistance" /\
  to_int (LiftUnits (statics a')) = GetFormValueInteger wf "prpUnitsLift".
Proof.
  unfold Save_pressure in *. one_step.
Qed.

Lemma after_altitude : forall a,
  to_int (SpeedUnits (statics a)) = GetFormValueInteger wf "prpUnitsSpeed" /\
  coordinate_format (config a) = GetFormValueInteger wf "prpUnitsLatLon" /\
  to_int (TaskSpeedUnits (statics a)) = GetFormValueInteger wf "prpUnitsTaskSpeed" /\
  to_int (DistanceUnits (statics a)) = GetFormValueInteger wf "prpUnitsDistance" /\
  to_int (LiftUnits (statics a)) = GetFormValueInteger wf "prpUnitsLift" ->
  let a' := Save_altitude wf a in
  to_int (SpeedUnits (statics a')) = GetFormValueInteger wf "prpUnitsSpeed" /\
  coordinate_format (config a') = GetFormValueInteger wf "prpUnitsLatLon" /\
  to_int (TaskSpeedUnits (statics a')) = GetFormValueInteger wf "prpUnitsTaskSpeed" /\
  to_int (DistanceUnits (statics a')) = GetFormValueInteger wf "prpUnitsDistance" /\
  to_int (LiftUnits (statics a')) = GetFormValueInteger wf "prpUnitsLift" /\
  to_int (AltitudeUnits (statics a')) = GetFormValueInteger wf "prpUnitsAltitude".
Proof.
  destruct ints_each as (I1 & I2 & I3 & I4 & I5 & I6 & I7).
  unfold Save_altitude in *. one_step.
Qed.

Lemma after_temperature : forall a,
  to_int (SpeedUnits (statics a)) = GetFormValueInteger wf "prpUnitsSpeed" /\
  coordinate_format (config a) = GetFormValueInteger wf "prpUnitsLatLon" /\
  to_int (TaskSpeedUnits (statics a)) = GetFormValueInteger wf "prpUnitsTaskSpeed" /\
  to_int (DistanceUnits (statics a)) = GetFormValueInteger wf "prpUnitsDistance" /\
  to_int (LiftUnits (statics a)) = GetFormValueInteger wf "prpUnitsLift" /\
  to_int (AltitudeUnits (statics a)) = GetFormValueInteger wf "prpUnitsAltitude" ->
  let a' := Save_temperature wf a in
  settled wf (config a') (statics a').
Proof.
  destruct ints_each as (I1 & I2 & I3 & I4 & I5 & I6 & I7).
  unfold Save_temperature, settled in *. one_step.
Qed.

Lemma Save_settles (c : UnitSetting) (s : Statics) (p : Profile) :
  settled wf (config (Save SaveFormPropertyEnum wf c s p))
             (statics (Save SaveFormPropertyEnum wf c s p)).
Proof.
  unfold Save.
  apply after_temperature, after_altitude, after_pressure, after_lift,
    after_distance, after_task_speed, after_lat_lon, after_speed.
Qed.

End Steps.

(** X28.  Saving twice.  Whatever integers the fields hold, a call of [Save]
    leaves the variables of the file and the coordinate format equal to the
    fields, so a second call on the same form stores nothing of its own:
    it changes the settings, the profile and its result only as far as
    [SaveFormPropertyEnum] does for the pressure unit. *)
Theorem Save_twice : forall wf c s p,
  Forall (fun n => is_int (GetFormValueInteger wf n)) index_fields ->
  let a := Save SaveFormPropertyEnum wf c s p in
  Save SaveFormPropertyEnum wf (config a) (statics a) (profile a)
  = Save_pressure SaveFormPropertyEnum wf (mkSaving (config a) (statics a) (profile a) false).
Proof.
  intros wf c s p Hint a. apply Save_of_settled. apply Save_settles.
  exact Hint.
Qed.

(** X29.  Saving what was just shown.  [Init] loads the fields from the
    settings and records the entry of each field, so a [Save] with the form
    as [Init] left it finds every field where it was: apart from the
    pressure unit, which is left to [SaveFormPropertyEnum], it stores
    nothing, also when a unit of the settings is none of those a field
    offers. *)
Theorem Save_after_Init : forall units s wf p,
  let s1 := fst (Init units s wf) in
  let wf1 := snd (Init units s wf) in
  loading s1 = false /\
  Save SaveFormPropertyEnum wf1 units s1 p = Save_pressure SaveFormPropertyEnum wf1 (mkSaving units s1 p false).
Proof.
  intros units s wf p s1 wf1. split; [reflexivity|].
  apply Save_of_settled. unfold settled, s1, wf1, Init, UpdateUnitFields.
  cbn [fst snd set_loading loading SpeedUnits TaskSpeedUnits DistanceUnits
       LiftUnits AltitudeUnits TemperatureUnits set_SpeedUnits
       set_TaskSpeedUnits set_DistanceUnits set_LiftUnits set_AltitudeUnits
       set_TemperatureUnits].
  unfold GetFormValueInteger, LoadFormProperty.
  cbn [String.eqb Ascii.eqb Bool.eqb].
  rewrite !to_int_small
    by first [ apply speed_index_range | apply distance_index_range
             | apply altitude_index_range | apply temperature_index_range
             | apply lift_index_range ].
  repeat split; reflexivity.
Qed.

Lemma NoDup_pair (a b : Z) (l1 l2 l3 : list Z) :
  NoDup (l1 ++ a :: l2 ++ b :: l3) -> a <> b.
Proof.
  intros H E. subst b. apply NoDup_remove_2 in H. apply H.
  apply in_or_app. right. apply in_or_app. right. left. reflexivity.
Qed.

(** X30.  From a unit to its entry and back.  Every entry of a field shows as
    itself again once its unit is stored: the entry of the unit of entry
    [i] is [i].  The other way round holds only for the units a field
    offers: any other unit is shown as the last entry of the speed and
    distance fields, as the second entry of the altitude and lift fields and
    as the first of the temperature field, and is replaced by the unit of
    that entry when the field is saved. *)
Theorem entry_of_unit_round_trip :
  distinct_ids ->
  (forall i, 0 <= i <= 2 -> speed_index (speed_unit_of i) = i) /\
  (forall i, 0 <= i <= 2 -> distance_index (distance_unit_of i) = i) /\
  (forall i, 0 <= i <= 2 -> lift_index (lift_unit_of i) = i) /\
  (forall i, 0 <= i <= 1 -> altitude_index (altitude_unit_of i) = i) /\
  (forall i, 0 <= i <= 1 -> temperature_index (temperature_unit_of i) = i) /\
  (forall u, speed_unit_of (speed_index u) = u <->
             In u [unStatuteMilesPerHour; unKnots; unKiloMeterPerHour]) /\
  (forall u, distance_unit_of (distance_index u) = u <->
             In u [unStatuteMiles; unNauticalMiles; unKiloMeter]) /\
  (forall u, lift_unit_of (lift_index u) = u <->
             In u [unKnots; unMeterPerSecond; unFeetPerMinute]) /\
  (forall u, altitude_unit_of (altitude_index u) = u <->
             In u [unFeet; unMeter]) /\
  (forall u, temperature_unit_of (temperature_index u) = u <->
             In u [unGradCelcius; unGradFahrenheit]).
Proof.
  unfold distinct_ids. intros D.
  assert (A1 : unStatuteMilesPerHour <> unKnots)
    by exact (NoDup_pair _ _ [] [] _ D).
  assert (A2 : unStatuteMilesPerHour <> unKiloMeterPerHour)
    by exact (NoDup_pair _ _ [] [_] _ D).
  assert (A3 : unKnots <> unKiloMeterPerHour)
    by exact (NoDup_pair _ _ [_] [] _ D).
  assert (B1 : unStatuteMiles <> unNauticalMiles)
    by exact (NoDup_pair _ _ [_; _; _] [] _ D).
  assert (B2 : unStatuteMiles <> unKiloMeter)
    by exact (NoDup_pair _ _ [_; _; _] [_] _ D).
  assert (B3 : unNauticalMiles <> unKiloMeter)
    by exact (NoDup_pair _ _ [_; _; _; _] [] _ D).
  assert (C1 : unFeet <> unMeter)
    by exact (NoDup_pair _ _ [_; _; _; _; _; _] [] _ D).
  assert (D1 : unGradCelcius <> unGradFahrenheit)
    by exact (NoDup_pair _ _ [_; _; _; _; _; _; _; _] [] _ D).
  assert (E1 : unKnots <> unMeterPerSecond)
    by exact (NoDup_pair _ _ [_] [_; _; _; _; _; _; _; _] _ D).
  assert (E2 : unKnots <> unFeetPerMinute)
    by exact (NoDup_pair _ _ [_] [_; _; _; _; _; _; _; _; _] _ D).
  assert (E3 : unMeterPerSecond <> unFeetPerMinute)
    by exact (NoDup_pair _ _ [_; _; _; _; _; _; _; _; _; _] [] _ D).
  clear D.
  unfold speed_index, distance_index, lift_index, altitude_index,
    temperature_index, speed_unit_of, distance_unit_of, lift_unit_of,
    altitude_unit_of, temperature_unit_of.
  repeat split.
  all: try (intros i Hi;
            assert (Hc : i = 0 \/ i = 1 \/ i = 2) by lia;
            destruct Hc as [-> | [-> | ->]]; try lia;
            repeat match goal with
                   | |- context [?a =? ?b] => destruct (Z.eqb_spec a b)
                   end; congruence || lia).
  all: try (repeat match goal with
                   | |- context [?a =? ?b] => destruct (Z.eqb_spec a b)
                   end;
            cbn [In]; intros; subst; tauto).
  all: try (cbn [In]; intros [H | [H | [H | []]]]; subst;
            repeat match goal with
                   | |- context [?a =? ?b] => destruct (Z.eqb_spec a b)
                   end; congruence).
  all: try (cbn [In]; intros [H | [H | []]]; subst;
            repeat match goal with
                   | |- context [?a =? ?b] => destruct (Z.eqb_spec a b)
                   end; congruence).
Qed.

End PanelProperties.

(** ** The theorems of the panel at concrete input *)

Lemma Save_twice_witness :
  let a := UnitsConfigPanel.Save (ids := UnitsConfigPanel.example_ids)
             UnitsConfigPanel.example_SaveFormPropertyEnum
             UnitsConfigPanel.example_picked UnitsConfigPanel.example_units
             UnitsConfigPanel.Statics_init [] in
  UnitsConfigPanel.Save (ids := UnitsConfigPanel.example_ids)
    UnitsConfigPanel.example_SaveFormPropertyEnum
    UnitsConfigPanel.example_picked (UnitsConfigPanel.config a)
    (UnitsConfigPanel.statics a) (UnitsConfigPanel.profile a)
  = UnitsConfigPanel.Save_pressure
      UnitsConfigPanel.example_SaveFormPropertyEnum
      UnitsConfigPanel.example_picked
      (UnitsConfigPanel.mkSaving (UnitsConfigPanel.config a)
         (UnitsConfigPanel.statics a) (UnitsConfigPanel.profile a) false).
Proof.
  apply (Save_twice (ids := UnitsConfigPanel.example_ids)
           UnitsConfigPanel.example_SaveFormPropertyEnum
           UnitsConfigPanel.example_picked UnitsConfigPanel.example_units
           UnitsConfigPanel.Statics_init []).
  repeat constructor; vm_compute; discriminate.
Defined.

Lemma entry_of_unit_round_trip_witness :
  UnitsConfigPanel.speed_index (ids := UnitsConfigPanel.example_ids)
    (UnitsConfigPanel.speed_unit_of (ids := UnitsConfigPanel.example_ids) 1)
  = 1 /\
  (UnitsConfigPanel.speed_unit_of (ids := UnitsConfigPanel.example_ids)
     (UnitsConfigPanel.speed_index (ids := UnitsConfigPanel.example_ids) 11)
   = 11 <-> In 11 [1; 2; 3]).
Proof.
  assert (D : UnitsConfigPanel.distinct_ids (ids := UnitsConfigPanel.example_ids)).
  { unfold UnitsConfigPanel.distinct_ids. cbn.
    repeat (constructor;
            [intros H; repeat (destruct H as [H | H]; [discriminate H|]);
             exact H|]).
    constructor. }
  destruct (entry_of_unit_round_trip (ids := UnitsConfigPanel.example_ids) D)
    as (H1 & _ & _ & _ & _ & H6 & _).
  split; [apply (H1 1); lia | apply (H6 11)].
Defined.
